(** * pycdft.common.wfc: index maps and orbital stores of a Kohn-Sham wavefunction

    A shallow embedding of [WfcManager] and [Wavefunction] from
    [pycdft/common/wfc.py].

    - Python exceptions are an error monad ([result]); an exception carries
      its class and its message.
    - Dicts are stdpp finite maps; the keys of a store are [option Z], an
      integer or Python's [None].
    - Python integers are [Z]; the elements of a numpy array of dtype [int]
      are [Z] within the range of int64, and a conversion that leaves the
      range is written out.  numpy arrays are nested lists, and indexing
      raises [IndexError] out of range.
    - A finite float that is a key component or an occupation number is a
      rational; the infinities and nan are key values of their own.  The
      arithmetic of [normalize] goes through the interface [NumpyOps], one
      operation per numpy primitive of the source line.
    - The builtin [int] on a [str] is a parameter of the development. *)

From Stdlib Require Import ZArith QArith String Ascii List.
From stdpp Require Import gmap strings list fin_maps sorting.

#[local] Open Scope Z_scope.
Set Warnings "-register-all,-clear-no-such-hyp".

(** ** Exceptions and the error monad *)

(** The text carried by an exception.  [Format s nspin nkpt nbnd] is
    [s.format(nspin, nkpt, nbnd)]. *)
Inductive message :=
| NoMessage
| Builtin
| Text (s : string)
| Format (s : string) (nspin nkpt : Z) (nbnd : list (list Z)).

Inductive exn :=
| AssertionError (m : message)
| TypeError (m : message)
| ValueError (m : message)
| IndexError (m : message)
| OverflowError (m : message)
| KeyError (k : option Z).

Inductive result (A : Type) :=
| Return (a : A)
| Raise (e : exn).
Arguments Return {A} a.
Arguments Raise {A} e.

#[global] Instance result_ret : MRet result := @Return.
#[global] Instance result_bind : MBind result := λ A B f m,
  match m with Return a => f a | Raise e => Raise e end.

(** [assert c, m] *)
Definition py_assert (c : bool) (m : message) : result unit :=
  if c then Return () else Raise (AssertionError m).

(** [for x in l: st = body x st], stopping at the first exception. *)
Fixpoint for_each {A S : Type} (body : A → S → result S) (l : list A) (st : S) : result S :=
  match l with
  | [] => Return st
  | x :: l => st' ← body x st; for_each body l st'
  end.

(** The two messages [WfcManager._get_idx] raises. *)
Definition InvalidKeyType : exn :=
  ValueError (Text "Index must be either internal index or (spin, kpoint, band) index").
Definition IndexOutOfRange (nspin nkpt : Z) (nbnd : list (list Z)) : exn :=
  IndexError (Format "(spin, kpoint, band) index out of range ({}, {}, {})" nspin nkpt nbnd).
(** The message of the k-point assertion of [Wavefunction.__init__]. *)
Definition UnsupportedConfiguration : exn :=
  AssertionError (Text "K points are not supported yet").

(** ** Python values used as keys *)

(** [PFloat q] is a finite float, [PInf negative] one of the two infinities
    and [PNaN] a nan; [PDict items] is a dict with integer keys, [items]
    its entries. *)
Inductive PyVal :=
| PInt (z : Z)
| PFloat (q : Q)
| PInf (negative : bool)
| PNaN
| PStr (s : string)
| PNone
| PTuple (l : list PyVal)
| PDict (items : list (Z * PyVal)).

(** [range(n)] *)
Definition range (n : Z) : list Z := seqZ 0 n.

(** [np.ndindex(a, b)] *)
Definition ndindex (a b : Z) : list (Z * Z) :=
  i ← range a; j ← range b; [(i, j)].

(** ** numpy integer arrays of rank 2 *)

(** An index along an axis of length [len]; negative indices count from the end. *)
Definition axis_index (len : nat) (i : Z) : result nat :=
  if bool_decide (0 ≤ i < Z.of_nat len) then Return (Z.to_nat i)
  else if bool_decide (- Z.of_nat len ≤ i < 0) then Return (Z.to_nat (i + Z.of_nat len))
  else Raise (IndexError Builtin).

Definition axis_get {A} (l : list A) (i : Z) : result A :=
  n ← axis_index (length l) i;
  match l !! n with
  | Some x => Return x
  | None => Raise (IndexError Builtin)
  end.

(** [a[i, j]] *)
Definition getitem2 {A} (a : list (list A)) (i j : Z) : result A :=
  row ← axis_get a i; axis_get row j.

(** [np.array(a, dtype=int).shape] for a nested list [a]; a ragged list is
    refused by numpy, and an empty outer list has rank 1. *)
Inductive shape_of := Ragged | Rank1 (n : Z) | Rank2 (r c : Z).

Definition np_shape {A} (a : list (list A)) : shape_of :=
  match a with
  | [] => Rank1 0
  | row :: rest =>
      if forallb (λ r, Nat.eqb (length r) (length row)) rest
      then Rank2 (Z.of_nat (length a)) (Z.of_nat (length row))
      else Ragged
  end.

(** The range of numpy's dtype [int] (int64). *)
Definition int64_min : Z := - 2 ^ 63.
Definition int64_max : Z := 2 ^ 63 - 1.
Definition in_int64 (z : Z) : bool := bool_decide (int64_min ≤ z ≤ int64_max).

(** [np.ones((r, c), dtype=int) * n]: [np.ones] refuses a negative
    dimension, then the product refuses a Python integer outside int64. *)
Definition np_ones_times (r c n : Z) : result (list (list Z)) :=
  if bool_decide (0 ≤ r ∧ 0 ≤ c)
  then if in_int64 n
       then Return (replicate (Z.to_nat r) (replicate (Z.to_nat c) (1 * n)))
       else Raise (OverflowError Builtin)
  else Raise (ValueError Builtin).

(** [np.max(a)] *)
Definition np_max (a : list (list Z)) : result Z :=
  match mjoin a with
  | [] => Raise (ValueError Builtin)
  | x :: l => Return (foldl Z.max x l)
  end.

(** The stop of the slice [0:n] on an axis of length [len]. *)
Definition slice_stop (len : nat) (n : Z) : nat :=
  if bool_decide (n < 0) then Z.to_nat (Z.max 0 (Z.of_nat len + n))
  else Z.to_nat (Z.min n (Z.of_nat len)).

(** ** Occupation numbers *)

(** An array element with its dtype: an element of an array of dtype [int]
    or a (finite) element of an array of dtype [float]. *)
Inductive scalar :=
| SInt (z : Z)
| SFloat (q : Q).

(** Conversion of a float to a Python integer: truncation toward zero. *)
Definition trunc (q : Q) : Z := Z.quot (Qnum q) (Z.pos (Qden q)).

(** Conversion of a float to int64: truncation toward zero, and the least
    int64 where the truncation leaves the range. *)
Definition float_to_int64 (q : Q) : Z :=
  if in_int64 (trunc q) then trunc q else int64_min.

(** Storing an element in an array of dtype [int]. *)
Definition astype_int (x : scalar) : scalar :=
  match x with
  | SInt z => SInt z
  | SFloat q => SInt (float_to_int64 q)
  end.

(** The [occ] argument: a 1-D array or an explicit 3-D array. *)
Inductive occ_arg :=
| occ_1d (l : list scalar)
| occ_3d (a : list (list (list scalar))).

(** The [nbnd] argument: an integer or a nested list. *)
Inductive nbnd_arg :=
| nbnd_int (n : Z)
| nbnd_list (a : list (list Z)).

(** [np.tile(l, (a, b))] for a 1-D [l]: [a] rows of [b] copies of [l]. *)
Definition np_tile {A} (l : list A) (a b : Z) : list (list A) :=
  replicate (Z.to_nat a) (mjoin (replicate (Z.to_nat b) l)).

(** A row cut into [n] consecutive pieces of [size] elements. *)
Definition chunks {A} (n size : nat) (l : list A) : list (list A) :=
  (λ i, take size (drop (i * size) l)) <$> seq 0 n.

(** [t.reshape(a, b, -1)] for [t] of rank 2 with [a] rows. *)
Definition reshape3 {A} (t : list (list A)) (a b : Z) : result (list (list (list A))) :=
  let total := length (mjoin t) in
  if bool_decide (a * b = 0) then Raise (ValueError Builtin)
  else if bool_decide ((Z.of_nat total) mod (a * b) = 0)
  then Return (chunks (Z.to_nat b) (total / Z.to_nat (a * b))%nat <$> t)
  else Raise (ValueError Builtin).

(** [row[0:stop] = rhs] on an array of dtype [int], with numpy's
    broadcasting of a one-element right-hand side. *)
Definition assign_slice (row : list scalar) (stop : Z) (rhs : list scalar) : result (list scalar) :=
  let n := slice_stop (length row) stop in
  if bool_decide (length rhs = n) then Return ((astype_int <$> rhs) ++ drop n row)
  else match rhs with
       | [x] => Return (replicate n (astype_int x) ++ drop n row)
       | _ => Raise (ValueError Builtin)
       end.

(** [a[i][j] = f(a[i][j])] for in-range [i], [j]. *)
Definition update2 {A} (a : list (list A)) (i j : nat) (f : A → result A) : result (list (list A)) :=
  match a !! i with
  | Some row =>
      match row !! j with
      | Some x => y ← f x; Return (<[i := <[j := y]> row]> a)
      | None => Raise (IndexError Builtin)
      end
  | None => Raise (IndexError Builtin)
  end.

(** Lines 115-116: the body of the loops over the channels. *)
Definition store_channel (nbnd : list (list Z)) (occ : list (list (list scalar)))
    (ispin ikpt : Z) (self_occ : list (list (list scalar)))
  : result (list (list (list scalar))) :=
  nb ← getitem2 nbnd ispin ikpt;
  src ← getitem2 occ ispin ikpt;
  update2 self_occ (Z.to_nat ispin) (Z.to_nat ikpt)
    (λ row, assign_slice row nb (take (slice_stop (length src) nb) src)).

(** Lines 107-116: the stored occupation numbers. *)
Definition init_occ (nspin nkpt : Z) (nbnd : list (list Z)) (occ : occ_arg)
  : result (list (list (list scalar))) :=
  match occ with
  | occ_1d l => reshape3 (np_tile l nspin nkpt) nspin nkpt
  | occ_3d a =>
      mx ← np_max nbnd;
      _ ← (if bool_decide (0 ≤ mx) then Return () else Raise (ValueError Builtin));
      let zeros := replicate (Z.to_nat nspin)
                     (replicate (Z.to_nat nkpt) (replicate (Z.to_nat mx) (SInt 0))) in
      for_each (λ ispin self_occ,
        for_each (λ ikpt self_occ, store_channel nbnd a ispin ikpt self_occ)
          (range nkpt) self_occ)
        (range nspin) zeros
  end.

(** ** The index maps *)

Abbreviation skb := (Z * Z * Z)%type.

(** Lines 121-126. *)
Definition build_idx_skb_map (nspin nkpt : Z) (nbnd : list (list Z))
  : result (gmap Z skb * Z) :=
  for_each (λ '(ispin, ikpt) st,
      n ← getitem2 nbnd ispin ikpt;
      for_each (λ ibnd '(m, idx), Return (<[idx := (ispin, ikpt, ibnd)]> m, idx + 1))
        (range n) st)
    (ndindex nspin nkpt) (∅, 0).

(** Lines 128-131: the dict comprehension. *)
Definition build_skb_idx_map (idx_skb_map : gmap Z skb) (norb : Z) : result (gmap skb Z) :=
  for_each (λ idx m,
      match idx_skb_map !! idx with
      | Some t => Return (<[t := idx]> m)
      | None => Raise (KeyError (Some idx))
      end)
    (range norb) ∅.

(** Lines 96-106: [self.nbnd].  [np.array(nbnd, dtype=np.int_)] refuses a
    ragged list, then an entry outside int64; the assertion on the shape
    comes after it. *)
Definition init_nbnd (nspin nkpt : Z) (nbnd : nbnd_arg) : result (list (list Z)) :=
  match nbnd with
  | nbnd_int n => np_ones_times nspin nkpt n
  | nbnd_list a =>
      match np_shape a with
      | Ragged => Raise (ValueError Builtin)
      | Rank1 _ => Raise (AssertionError NoMessage)
      | Rank2 r c =>
          if forallb (forallb in_int64) a
          then _ ← py_assert (bool_decide (r = nspin ∧ c = nkpt)) NoMessage;
               Return a
          else Raise (OverflowError Builtin)
      end
  end.

(** ** Collaborators *)

(** The floating-point primitives of numpy that [Wavefunction.normalize]
    applies, one per operator of the source line.  [elem] is the dtype of a
    field (real or complex), [real] the dtype of [np.abs] of it. *)
Class NumpyOps (elem real : Type) := {
  np_abs : elem → real;
  np_square : real → real;
  np_sum : list real → real;
  np_mul : real → real → real;
  np_div_int : real → Z → real;
  np_sqrt : real → real;
  np_div : elem → real → elem;
}.

(** Modelled from the spec: the FFT grid descriptor of [pycdft.common],
    consumed as a provider of the per-axis extents and of the point count. *)
Record FFTGrid := { n1 : Z; n2 : Z; n3 : Z; grid_N : Z }.

(** ** A concrete interpretation *)

(** Floats as the expressions numpy evaluates. *)
Inductive np_expr :=
| Lit (q : Q)
| Abs (x : np_expr)
| Square (x : np_expr)
| Sum (l : list np_expr)
| Mul (x y : np_expr)
| DivInt (x : np_expr) (n : Z)
| Sqrt (x : np_expr)
| Div (x y : np_expr).

Definition symbolic_ops : NumpyOps np_expr np_expr :=
  {| np_abs := Abs; np_square := Square; np_sum := Sum; np_mul := Mul;
     np_div_int := DivInt; np_sqrt := Sqrt; np_div := Div |}.

(** The builtin [int] on an ASCII [str]: white space (the characters 9 to
    13 and the blank) around an optional sign and decimal digits, with
    single underscores between digits. *)
Definition is_space (c : ascii) : bool :=
  let n := nat_of_ascii c in
  ((9 <=? n) && (n <=? 13) || (n =? 32))%nat.

Definition digit_of (c : ascii) : option Z :=
  let n := nat_of_ascii c in
  if ((48 <=? n) && (n <=? 57))%nat then Some (Z.of_nat (n - 48)) else None.

Inductive lit_state := AtStart | AfterDigit | AfterUnderscore.

Fixpoint digits_value (st : lit_state) (acc : Z) (l : list ascii) : option Z :=
  match l with
  | [] => match st with AfterDigit => Some acc | _ => None end
  | c :: l =>
      match digit_of c with
      | Some d => digits_value AfterDigit (10 * acc + d) l
      | None =>
          match st with
          | AfterDigit => if Ascii.eqb c "_" then digits_value AfterUnderscore acc l else None
          | _ => None
          end
      end
  end.

Fixpoint lstrip (l : list ascii) : list ascii :=
  match l with
  | c :: l' => if is_space c then lstrip l' else l
  | [] => []
  end.

Definition decimal_literal (s : string) : option Z :=
  match lstrip (rev (lstrip (rev (list_ascii_of_string s)))) with
  | c :: l =>
      if Ascii.eqb c "-" then Z.opp <$> digits_value AtStart 0 l
      else if Ascii.eqb c "+" then digits_value AtStart 0 l
      else digits_value AtStart 0 (c :: l)
  | [] => None
  end.

Section Wfc.
Context {elem real : Type} `{!NumpyOps elem real}.

(** The builtin [int] on a [str]: the integer a literal denotes, [None]
    where the interpreter raises [ValueError]. *)
Variable int_of_str : string → option Z.

(** Modelled from the spec: the sample of [pycdft.common.sample], consumed
    as a provider of the cell volume. *)
Record Sample := { omega : real }.

(** A field on a grid: its shape and its elements in row-major order. *)
Record ndarray := { shape : list Z; data : list elem }.

(** The attributes of a constructed [Wavefunction]; the two stores are
    [psi_g] and [psi_r] below. *)
Record Wavefunction := {
  sample : Sample;
  wgrid : FFTGrid;
  dgrid : FFTGrid;
  nspin : Z;
  nkpt : Z;
  nbnd : list (list Z);
  occ : list (list (list scalar));
  gamma : bool;
  idx_skb_map : gmap Z skb;
  norb : Z;
  skb_idx_map : gmap skb Z;
}.

(** [Wavefunction.__init__], up to the construction of the stores. *)
Definition __init__ (sample : Sample) (wgrid dgrid : FFTGrid) (nspin nkpt : Z)
    (nbnd : nbnd_arg) (occ : occ_arg) (gamma : bool) : result Wavefunction :=
  _ ← py_assert (bool_decide (nkpt = 1)) (Text "K points are not supported yet");
  self_nbnd ← init_nbnd nspin nkpt nbnd;
  self_occ ← init_occ nspin nkpt self_nbnd occ;
  '(idx_skb, _) ← build_idx_skb_map nspin nkpt self_nbnd;
  let norb := Z.of_nat (size idx_skb) in
  skb_idx ← build_skb_idx_map idx_skb norb;
  Return {| sample := sample; wgrid := wgrid; dgrid := dgrid;
            nspin := nspin; nkpt := nkpt; nbnd := self_nbnd; occ := self_occ;
            gamma := gamma; idx_skb_map := idx_skb; norb := norb;
            skb_idx_map := skb_idx |}.

(** [Wavefunction.skb2idx]; the result [None] is Python's [None]. *)
Definition skb2idx (self : Wavefunction) (ispin ikpt ibnd : Z) : option Z :=
  skb_idx_map self !! (ispin, ikpt, ibnd).

(** [Wavefunction.idx2skb] *)
Definition idx2skb (self : Wavefunction) (idx : Z) : result skb :=
  match idx_skb_map self !! idx with
  | Some t => Return t
  | None => Raise (KeyError (Some idx))
  end.

(** [Wavefunction.normalize] *)
Definition normalize (self : Wavefunction) (psir : ndarray) : result ndarray :=
  _ ← py_assert (bool_decide (shape psir = [n1 (wgrid self); n2 (wgrid self); n3 (wgrid self)]))
        NoMessage;
  let norm := np_sqrt (np_div_int
                (np_mul (np_sum (np_square <$> (np_abs <$> data psir))) (omega (sample self)))
                (grid_N (wgrid self))) in
  Return {| shape := shape psir; data := (λ x, np_div x norm) <$> data psir |}.

(** ** WfcManager *)

(** The keys of [qty] are what [_get_idx] returns: an integer or [None]. *)
Record WfcManager := {
  wfc : Wavefunction;
  qty : gmap (option Z) ndarray;
  transform : ndarray → result ndarray;
}.

(** [WfcManager.__init__] *)
Definition WfcManager_init (wfc : Wavefunction) (transform : ndarray → result ndarray) : WfcManager :=
  {| wfc := wfc; qty := ∅; transform := transform |}.

(** Lines 134-135: the two stores of a wavefunction. *)
Definition psi_g (self : Wavefunction) : WfcManager := WfcManager_init self Return.
Definition psi_r (self : Wavefunction) : WfcManager := WfcManager_init self (normalize self).

Definition indices (self : WfcManager) : gset (option Z) := dom (qty self).

Definition clear (self : WfcManager) : WfcManager :=
  {| wfc := wfc self; qty := ∅; transform := transform self |}.

(** The builtin [int] on a key or on a component of a key. *)
Definition py_int (v : PyVal) : result Z :=
  match v with
  | PInt z => Return z
  | PFloat q => Return (trunc q)
  | PInf _ => Raise (OverflowError Builtin)
  | PNaN => Raise (ValueError Builtin)
  | PStr s =>
      match int_of_str s with
      | Some z => Return z
      | None => Raise (ValueError Builtin)
      end
  | PNone | PTuple _ | PDict _ => Raise (TypeError Builtin)
  end.

(** [key[i]] for a literal index [i]. *)
Definition py_getitem (key : PyVal) (i : nat) : result PyVal :=
  match key with
  | PTuple l =>
      match l !! i with
      | Some v => Return v
      | None => Raise (IndexError Builtin)
      end
  | PStr s =>
      match String.get i s with
      | Some c => Return (PStr (String c EmptyString))
      | None => Raise (IndexError Builtin)
      end
  | PDict items =>
      match list_find (λ kv : Z * PyVal, kv.1 = Z.of_nat i) items with
      | Some (_, kv) => Return kv.2
      | None => Raise (KeyError (Some (Z.of_nat i)))
      end
  | PInt _ | PFloat _ | PInf _ | PNaN | PNone => Raise (TypeError Builtin)
  end.

(** The body of the inner [try] of [_get_idx], lines 26-31. *)
Definition check_triple (self : WfcManager) (key : PyVal) : result skb :=
  ispin ← py_getitem key 0 ≫= py_int;
  ikpt ← py_getitem key 1 ≫= py_int;
  ibnd ← py_getitem key 2 ≫= py_int;
  _ ← py_assert (bool_decide (0 ≤ ispin) && bool_decide (ispin ≤ nspin (wfc self))) NoMessage;
  _ ← py_assert (bool_decide (0 ≤ ikpt) && bool_decide (ikpt ≤ nkpt (wfc self))) NoMessage;
  _ ← (if bool_decide (0 ≤ ibnd)
       then n ← getitem2 (nbnd (wfc self)) ispin ikpt;
            py_assert (bool_decide (ibnd ≤ n)) NoMessage
       else Raise (AssertionError NoMessage));
  Return (ispin, ikpt, ibnd).

(** [WfcManager._get_idx] *)
Definition _get_idx (self : WfcManager) (key : PyVal) : result (option Z) :=
  match py_int key with
  | Return idx => Return (Some idx)
  | Raise (TypeError _) =>
      match check_triple self key with
      | Return (ispin, ikpt, ibnd) => Return (skb2idx (wfc self) ispin ikpt ibnd)
      | Raise (ValueError _) => Raise InvalidKeyType
      | Raise (AssertionError _) | Raise (IndexError _) =>
          Raise (IndexOutOfRange (nspin (wfc self)) (nkpt (wfc self)) (nbnd (wfc self)))
      | Raise e => Raise e
      end
  | Raise e => Raise e
  end.

(** [WfcManager.__getitem__] *)
Definition __getitem__ (self : WfcManager) (key : PyVal) : result ndarray :=
  idx ← _get_idx self key;
  match qty self !! idx with
  | Some v => Return v
  | None => Raise (KeyError idx)
  end.

(** [WfcManager.__setitem__]: the store after the assignment. *)
Definition __setitem__ (self : WfcManager) (key : PyVal) (value : ndarray) : result WfcManager :=
  idx ← _get_idx self key;
  v ← transform self value;
  Return {| wfc := wfc self; qty := <[idx := v]> (qty self); transform := transform self |}.

(** ** Vocabulary of the statements *)

(** The bands of one (spin, k-point) channel, in ascending order. *)
Definition bands (nbnd : list (list Z)) (c : Z * Z) : list skb :=
  match getitem2 nbnd c.1 c.2 with
  | Return n => (λ b, (c.1, c.2, b)) <$> range n
  | Raise _ => []
  end.

(** All triples in the order in which the loops of [__init__] visit them. *)
Definition triples (nspin nkpt : Z) (nbnd : list (list Z)) : list skb :=
  ndindex nspin nkpt ≫= bands nbnd.

(** [nbnd] is an array of shape [(nspin, nkpt)]. *)
Definition has_shape {A} (a : list (list A)) (r c : Z) : Prop :=
  0 ≤ r ∧ 0 ≤ c ∧ length a = Z.to_nat r ∧ Forall (λ row, length row = Z.to_nat c) a.

(** Spin first, then k-point, then band. *)
Definition lex_lt (t1 t2 : skb) : Prop :=
  t1.1.1 < t2.1.1 ∨
  (t1.1.1 = t2.1.1 ∧ (t1.1.2 < t2.1.2 ∨ (t1.1.2 = t2.1.2 ∧ t1.2 < t2.2))).

Definition lex_lt2 (c1 c2 : Z * Z) : Prop :=
  c1.1 < c2.1 ∨ (c1.1 = c2.1 ∧ c1.2 < c2.2).

(** What holds of every constructed wavefunction. *)
Record index_inv (self : Wavefunction) : Prop := {
  inv_nkpt : nkpt self = 1;
  inv_shape : has_shape (nbnd self) (nspin self) (nkpt self);
  inv_idx_skb :
    idx_skb_map self = map_seqZ 0 (triples (nspin self) (nkpt self) (nbnd self));
  inv_norb :
    norb self = Z.of_nat (length (triples (nspin self) (nkpt self) (nbnd self)));
  inv_skb_idx : ∀ t i,
    skb_idx_map self !! t = Some i ↔
    0 ≤ i < norb self ∧
    triples (nspin self) (nkpt self) (nbnd self) !! Z.to_nat i = Some t;
}.

(** The arguments a constructed wavefunction keeps. *)
Record built_from (self : Wavefunction) (sample0 : Sample) (wgrid0 dgrid0 : FFTGrid)
    (nspin0 nkpt0 : Z) (nbnd0 : nbnd_arg) (occ0 : occ_arg) (gamma0 : bool) : Prop := {
  bf_sample : sample self = sample0;
  bf_wgrid : wgrid self = wgrid0;
  bf_dgrid : dgrid self = dgrid0;
  bf_nspin : nspin self = nspin0;
  bf_nkpt : nkpt self = nkpt0;
  bf_nbnd : init_nbnd nspin0 nkpt0 nbnd0 = Return (nbnd self);
  bf_occ : init_occ nspin0 nkpt0 (nbnd self) occ0 = Return (occ self);
  bf_gamma : gamma self = gamma0;
}.

Definition Zsum (l : list Z) : Z := foldr Z.add 0 l.

(** [0 <= s < nspin], [0 <= k < nkpt] and [0 <= b < nbnd[s, k]]. *)
Definition valid_triple (self : Wavefunction) (t : skb) : Prop :=
  0 ≤ t.1.1 < nspin self ∧ 0 ≤ t.1.2 < nkpt self ∧
  ∃ n, getitem2 (nbnd self) t.1.1 t.1.2 = Return n ∧ 0 ≤ t.2 < n.

(** The band counts the [nbnd] argument asks for: one count for every
    channel, or the nested list itself. *)
Definition requested_nbnd (nspin nkpt : Z) (nbnd : nbnd_arg) : list (list Z) :=
  match nbnd with
  | nbnd_int n => replicate (Z.to_nat nspin) (replicate (Z.to_nat nkpt) n)
  | nbnd_list a => a
  end.

(** A triple is valid for the arguments of the constructor:
    [0 <= s < nspin], [0 <= k < nkpt] and [0 <= b < nbnd[s, k]]. *)
Definition valid_for (nspin nkpt : Z) (nbnd : nbnd_arg) (t : skb) : Prop :=
  0 ≤ t.1.1 < nspin ∧ 0 ≤ t.1.2 < nkpt ∧
  ∃ n, getitem2 (requested_nbnd nspin nkpt nbnd) t.1.1 t.1.2 = Return n ∧ 0 ≤ t.2 < n.

(** The three assertions of [_get_idx] hold: the upper bounds include the
    count itself, and [nbnd[s, k]] has to exist for the last one. *)
Definition inclusive_bounds (self : WfcManager) (s k b : Z) : Prop :=
  0 ≤ s ≤ nspin (wfc self) ∧ 0 ≤ k ≤ nkpt (wfc self) ∧
  ∃ n, getitem2 (nbnd (wfc self)) s k = Return n ∧ 0 ≤ b ≤ n.

(** The field [normalize] returns for a field of the grid's shape. *)
Definition normalized (self : Wavefunction) (psir : ndarray) : ndarray :=
  let norm := np_sqrt (np_div_int
                (np_mul (np_sum (np_square <$> (np_abs <$> data psir))) (omega (sample self)))
                (grid_N (wgrid self))) in
  {| shape := shape psir; data := (λ x, np_div x norm) <$> data psir |}.

Definition grid_shape (self : Wavefunction) : list Z :=
  [n1 (wgrid self); n2 (wgrid self); n3 (wgrid self)].

(** The element has dtype [int]. *)
Definition is_int (x : scalar) : Prop :=
  match x with SInt _ => True | SFloat _ => False end.

(** An element of an array as numpy holds it: an integer element lies
    within int64. *)
Definition int64_elem (x : scalar) : Prop :=
  match x with SInt z => in_int64 z = true | SFloat _ => True end.

(** The number an array element stands for. *)
Definition value_of (x : scalar) : Q :=
  match x with SInt z => inject_Z z | SFloat q => q end.

(** ** Loops and the error monad *)

Lemma for_each_app {A S} (body : A → S → result S) l1 l2 st :
  for_each body (l1 ++ l2) st = for_each body l1 st ≫= for_each body l2.
Proof.
  revert st. induction l1 as [|x l1 IH]; intros st; simpl; [done|].
  destruct (body x st) as [st'|e]; simpl; [apply IH | done].
Qed.

Lemma bind_Return {A B} (m : result A) (f : A → result B) b :
  m ≫= f = Return b ↔ ∃ a, m = Return a ∧ f a = Return b.
Proof. destruct m; simpl; split; [eauto | intros (? & ? & ?); congruence | done | intros (? & ? & ?); congruence]. Qed.

(** ** Array indexing and the enumeration of the valid triples *)

Lemma axis_get_lookup {A} (l : list A) i :
  0 ≤ i → axis_get l i = match l !! Z.to_nat i with
                          | Some x => Return x
                          | None => Raise (IndexError Builtin)
                          end.
Proof.
  intros Hi. unfold axis_get, axis_index.
  case_bool_decide as H1; simpl; [done|].
  rewrite bool_decide_false by lia. simpl.
  rewrite lookup_ge_None_2; [done | lia].
Qed.

Lemma getitem2_lookup {A} (a : list (list A)) i j :
  0 ≤ i → 0 ≤ j →
  getitem2 a i j = match a !! Z.to_nat i ≫= (.!! Z.to_nat j) with
                   | Some x => Return x
                   | None => Raise (IndexError Builtin)
                   end.
Proof.
  intros Hi Hj. unfold getitem2. rewrite axis_get_lookup by done.
  destruct (a !! Z.to_nat i) as [row|]; simpl; [|done].
  by rewrite axis_get_lookup.
Qed.

Lemma getitem2_in_range {A} (a : list (list A)) r c i j :
  has_shape a r c → 0 ≤ i < r → 0 ≤ j < c → ∃ x, getitem2 a i j = Return x.
Proof.
  intros (Hr & Hc & Hlen & Hrows) Hi Hj.
  rewrite getitem2_lookup by lia.
  destruct (lookup_lt_is_Some_2 a (Z.to_nat i)) as [row Hrow]; [lia|].
  rewrite Hrow. simpl.
  assert (length row = Z.to_nat c) as Hl.
  { eapply (proj1 (Forall_forall _ _) Hrows), list_elem_of_lookup_2, Hrow. }
  destruct (lookup_lt_is_Some_2 row (Z.to_nat j)) as [x Hx]; [lia|].
  rewrite Hx. eauto.
Qed.

Lemma getitem2_out_of_range {A} (a : list (list A)) r c i j :
  has_shape a r c → 0 ≤ i → 0 ≤ j → r ≤ i ∨ c ≤ j →
  getitem2 a i j = Raise (IndexError Builtin).
Proof.
  intros (Hr & Hc & Hlen & Hrows) Hi Hj Hout.
  rewrite getitem2_lookup by lia.
  destruct (a !! Z.to_nat i) as [row|] eqn:Hrow; simpl; [|done].
  assert (length row = Z.to_nat c) as Hl.
  { eapply (proj1 (Forall_forall _ _) Hrows), list_elem_of_lookup_2, Hrow. }
  apply lookup_lt_Some in Hrow.
  rewrite lookup_ge_None_2; [done | lia].
Qed.

Lemma elem_of_ndindex a b i j :
  (i, j) ∈ ndindex a b ↔ 0 ≤ i < a ∧ 0 ≤ j < b.
Proof.
  unfold ndindex, range. rewrite list_elem_of_bind. split.
  - intros (i' & Hin & Hi'). apply list_elem_of_bind in Hin as (j' & Hin & Hj').
    apply list_elem_of_singleton in Hin. simplify_eq.
    apply elem_of_seqZ in Hi', Hj'. lia.
  - intros [Hi Hj]. exists i. split; [|apply elem_of_seqZ; lia].
    apply list_elem_of_bind. exists j. split; [by apply list_elem_of_singleton|].
    apply elem_of_seqZ; lia.
Qed.

Lemma elem_of_bands nbnd c s k b :
  (s, k, b) ∈ bands nbnd c ↔
  c = (s, k) ∧ ∃ n, getitem2 nbnd s k = Return n ∧ 0 ≤ b < n.
Proof.
  unfold bands, range. destruct c as [s' k']; simpl.
  destruct (getitem2 nbnd s' k') as [n|e] eqn:Hn.
  - rewrite list_elem_of_fmap. split.
    + intros (b' & Heq & Hb'). simplify_eq. apply elem_of_seqZ in Hb'.
      split; [done|]. exists n. split; [done | lia].
    + intros (Heq & n' & Hn' & Hb). simplify_eq. rewrite Hn in Hn'. simplify_eq.
      exists b. split; [done|]. apply elem_of_seqZ. lia.
  - split; [by intros ?%elem_of_nil|].
    intros (Heq & n' & Hn' & Hb). simplify_eq. congruence.
Qed.

Lemma elem_of_triples nspin nkpt nbnd s k b :
  (s, k, b) ∈ triples nspin nkpt nbnd ↔
  0 ≤ s < nspin ∧ 0 ≤ k < nkpt ∧ ∃ n, getitem2 nbnd s k = Return n ∧ 0 ≤ b < n.
Proof.
  unfold triples. rewrite list_elem_of_bind. split.
  - intros ([s' k'] & Hb & Hc). apply elem_of_bands in Hb as [Heq Hb].
    simplify_eq. apply elem_of_ndindex in Hc. naive_solver.
  - intros (Hs & Hk & Hb). exists (s, k). split.
    + by apply elem_of_bands.
    + by apply elem_of_ndindex.
Qed.

(** ** What the construction loops compute *)

Lemma band_loop_spec (s k : Z) (bs : list Z) (l : list skb) :
  for_each (λ ibnd '(m, idx), Return (<[idx := (s, k, ibnd)]> m, idx + 1))
    bs (map_seqZ (M := gmap Z skb) 0 l, Z.of_nat (length l))
  = Return (map_seqZ 0 (l ++ ((λ b, (s, k, b)) <$> bs)),
            Z.of_nat (length (l ++ ((λ b, (s, k, b)) <$> bs)))).
Proof.
  revert l. induction bs as [|b bs IH]; intros l; simpl.
  - by rewrite app_nil_r.
  - change (for_each ?f bs ?st ≫= _) with (for_each f bs st).
    replace (<[Z.of_nat (length l) := (s, k, b)]> (map_seqZ 0 l))
      with (map_seqZ (M := gmap Z skb) 0 (l ++ [(s, k, b)]))
      by (by rewrite map_seqZ_snoc, Z.add_0_l).
    replace (Z.of_nat (length l) + 1) with (Z.of_nat (length (l ++ [(s, k, b)])))
      by (rewrite length_app; simpl; lia).
    rewrite IH. by rewrite <- app_assoc.
Qed.

Lemma channel_loop_spec (nbnd : list (list Z)) (chs : list (Z * Z)) (l : list skb) :
  Forall (λ c, ∃ n, getitem2 nbnd c.1 c.2 = Return n) chs →
  for_each (λ '(ispin, ikpt) st,
      n ← getitem2 nbnd ispin ikpt;
      for_each (λ ibnd '(m, idx), Return (<[idx := (ispin, ikpt, ibnd)]> m, idx + 1))
        (range n) st)
    chs (map_seqZ (M := gmap Z skb) 0 l, Z.of_nat (length l))
  = Return (map_seqZ 0 (l ++ (chs ≫= bands nbnd)),
            Z.of_nat (length (l ++ (chs ≫= bands nbnd)))).
Proof.
  intros Hchs. revert l. induction Hchs as [|[s k] chs [n Hn] _ IH]; intros l.
  - simpl. by rewrite app_nil_r.
  - simpl in Hn. cbn [for_each]. rewrite Hn. cbn [mbind result_bind].
    rewrite band_loop_spec. cbn [mbind result_bind].
    rewrite IH, bind_cons, !app_assoc.
    by replace (bands nbnd (s, k)) with ((λ b : Z, (s, k, b)) <$> range n)
      by (unfold bands; simpl; by rewrite Hn).
Qed.

Lemma size_map_seqZ {A} (start : Z) (l : list A) :
  size (map_seqZ (M := gmap Z A) start l) = length l.
Proof.
  revert start. induction l as [|x l IH]; intros start; simpl.
  - apply map_size_empty.
  - rewrite map_size_insert_None by apply map_seqZ_cons_disjoint. by rewrite IH.
Qed.

(** The comprehension of lines 128-131 run over the first [j] indices. *)
Lemma comprehension_spec (l : list skb) (j : nat) :
  NoDup l → (j ≤ length l)%nat →
  ∃ m : gmap skb Z, for_each (λ idx m,
           match map_seqZ (M := gmap Z skb) 0 l !! idx with
           | Some t => Return (<[t := idx]> m)
           | None => Raise (KeyError (Some idx))
           end) (range (Z.of_nat j)) ∅ = Return m ∧
       ∀ t i, m !! t = Some i ↔ 0 ≤ i < Z.of_nat j ∧ l !! Z.to_nat i = Some t.
Proof.
  intros Hnd. induction j as [|j IH]; intros Hj.
  - exists ∅. split; [done|]. intros t i. rewrite lookup_empty. split; [done | lia].
  - destruct IH as (m & Hm & Hspec); [lia|].
    destruct (lookup_lt_is_Some_2 l j) as [t Ht]; [lia|].
    exists (<[t := Z.of_nat j]> m). split.
    + unfold range in *. rewrite seqZ_S, for_each_app, Hm. simpl.
      rewrite lookup_map_seqZ_0, Z.add_0_l by lia. by rewrite Nat2Z.id, Ht.
    + intros t' i. destruct (decide (t = t')) as [<-|Hne].
      * rewrite lookup_insert_eq. split.
        -- intros [= <-]. rewrite Nat2Z.id. split; [lia | done].
        -- intros [Hi Hl]. f_equal.
           assert (Z.to_nat i = j) by (eapply NoDup_lookup; eauto). lia.
      * rewrite lookup_insert_ne by done. rewrite Hspec. split.
        -- intros [Hi Hl]. split; [lia | done].
        -- intros [Hi Hl]. split; [|done].
           destruct (decide (i = Z.of_nat j)) as [->|]; [|lia].
           rewrite Nat2Z.id in Hl. congruence.
Qed.

(** ** The visiting order is the lexicographic order *)

Lemma lex_lt_asym t1 t2 : lex_lt t1 t2 → lex_lt t2 t1 → False.
Proof. unfold lex_lt. lia. Qed.

Lemma StronglySorted_seqZ m n : StronglySorted Z.lt (seqZ m n).
Proof.
  destruct (decide (n ≤ 0)) as [Hn|Hn].
  { rewrite seqZ_nil by done. constructor. }
  rewrite <- (Z2Nat.id n) by lia. generalize (Z.to_nat n) as j. clear.
  induction j as [|j IH]; [constructor|].
  rewrite seqZ_S. apply StronglySorted_app_2; [|done|repeat constructor].
  intros x y Hx%elem_of_seqZ ->%list_elem_of_singleton. lia.
Qed.

Lemma StronglySorted_bind {A B} (RA : relation A) (RB : relation B) (f : A → list B) l :
  StronglySorted RA l →
  (∀ x, x ∈ l → StronglySorted RB (f x)) →
  (∀ x y u v, RA x y → u ∈ f x → v ∈ f y → RB u v) →
  StronglySorted RB (l ≫= f).
Proof.
  intros Hl Hf Hcross. induction Hl as [|x l Hl IH Hx]; [constructor|].
  rewrite bind_cons. apply StronglySorted_app_2.
  - intros u v Hu (y & Hv & Hy)%list_elem_of_bind.
    eapply Hcross; [|done..]. by eapply (proj1 (Forall_forall _ _) Hx).
  - apply Hf. by left.
  - apply IH. intros y Hy. apply Hf. by right.
Qed.

Lemma StronglySorted_fmap_mono {A B} (RA : relation A) (RB : relation B) (f : A → B) l :
  (∀ x y, RA x y → RB (f x) (f y)) → StronglySorted RA l → StronglySorted RB (f <$> l).
Proof.
  intros Hf. induction 1 as [|x l Hl IH Hx]; simpl; constructor; [done|].
  apply Forall_fmap. eapply Forall_impl; [done|]. intros y. apply Hf.
Qed.

Lemma StronglySorted_ndindex a b : StronglySorted lex_lt2 (ndindex a b).
Proof.
  unfold ndindex, range. apply (StronglySorted_bind Z.lt); [apply StronglySorted_seqZ|..].
  - intros i _. apply (StronglySorted_bind Z.lt); [apply StronglySorted_seqZ|..].
    + intros j _. repeat constructor.
    + intros j1 j2 u v Hlt ->%list_elem_of_singleton ->%list_elem_of_singleton.
      right. simpl. lia.
  - intros i1 i2 u v Hlt (j1 & ->%list_elem_of_singleton & _)%list_elem_of_bind
      (j2 & ->%list_elem_of_singleton & _)%list_elem_of_bind.
    left. simpl. lia.
Qed.

Lemma StronglySorted_triples nspin nkpt nbnd :
  StronglySorted lex_lt (triples nspin nkpt nbnd).
Proof.
  unfold triples. apply (StronglySorted_bind lex_lt2); [apply StronglySorted_ndindex|..].
  - intros [s k] _. unfold bands. simpl. destruct (getitem2 nbnd s k); [|constructor].
    apply (StronglySorted_fmap_mono Z.lt); [|apply StronglySorted_seqZ].
    intros b1 b2 Hb. unfold lex_lt. simpl. lia.
  - intros [s1 k1] [s2 k2] [[s1' k1'] b1] [[s2' k2'] b2] Hlt
      [Heq1 _]%elem_of_bands [Heq2 _]%elem_of_bands.
    simplify_eq. unfold lex_lt, lex_lt2 in *. simpl in *. lia.
Qed.

Lemma NoDup_triples nspin nkpt nbnd : NoDup (triples nspin nkpt nbnd).
Proof.
  generalize (StronglySorted_triples nspin nkpt nbnd).
  induction 1 as [|t l Hl IH Ht]; constructor; [|done].
  intros Hin. eapply (lex_lt_asym t t); by eapply (proj1 (Forall_forall _ _) Ht).
Qed.

(** In a strictly sorted list the elements before position [i] are the
    elements of the list that are smaller than the one at position [i]. *)
Lemma sorted_prefix_smaller (l : list skb) (i : nat) (t : skb) :
  StronglySorted lex_lt l → l !! i = Some t →
  ∀ t', t' ∈ take i l ↔ t' ∈ l ∧ lex_lt t' t.
Proof.
  intros Hs Hi t'. rewrite <- (take_drop_middle l i t Hi) in Hs.
  apply StronglySorted_app in Hs as (Hcross & _ & Hs2).
  apply StronglySorted_cons in Hs2 as [Hs2 _].
  rewrite <- (take_drop_middle l i t Hi) at 2. rewrite elem_of_app, elem_of_cons.
  split.
  - intros Hin. split; [by left|]. apply Hcross; [done | by left].
  - intros [[Hin|[->|Hin]] Hlt]; [done|..].
    + by destruct (lex_lt_asym t t).
    + destruct (lex_lt_asym t' t); [done|].
      by eapply (proj1 (Forall_forall _ _) Hs2).
Qed.

(** ** The invariant established by the constructor *)

Lemma np_shape_Rank2 {A} (a : list (list A)) r c :
  np_shape a = Rank2 r c → has_shape a r c.
Proof.
  unfold np_shape, has_shape. destruct a as [|row rest]; [done|].
  destruct (forallb _ rest) eqn:Hall; [|done]. intros [= <- <-].
  split; [lia|]. split; [lia|]. split; [by rewrite Nat2Z.id|].
  rewrite Nat2Z.id. constructor; [done|].
  apply Forall_forall. intros r Hr.
  rewrite forallb_forall in Hall. apply Nat.eqb_eq, Hall. by apply list_elem_of_In.
Qed.

Lemma np_ones_times_Return r c n a :
  np_ones_times r c n = Return a →
  0 ≤ r ∧ 0 ≤ c ∧ in_int64 n = true ∧
  a = replicate (Z.to_nat r) (replicate (Z.to_nat c) n).
Proof.
  unfold np_ones_times. case_bool_decide as H; [|done].
  destruct (in_int64 n) eqn:Hn; [|done]. intros [= <-].
  destruct H as [Hr Hc]. by rewrite Z.mul_1_l.
Qed.

Lemma init_nbnd_list_Return nspin nkpt a' a :
  init_nbnd nspin nkpt (nbnd_list a') = Return a →
  a = a' ∧ np_shape a' = Rank2 nspin nkpt ∧ forallb (forallb in_int64) a' = true.
Proof.
  simpl. destruct (np_shape a') as [| |r c] eqn:Hsh; [done..|].
  destruct (forallb _ a') eqn:Hall; [|done].
  unfold py_assert. case_bool_decide as H; [|done]. simpl. intros [= <-].
  by destruct H as [-> ->].
Qed.

Lemma init_nbnd_shape nspin nkpt arg a :
  init_nbnd nspin nkpt arg = Return a → has_shape a nspin nkpt.
Proof.
  destruct arg as [n|a'].
  - intros (Hr & Hc & _ & ->)%np_ones_times_Return. unfold has_shape.
    rewrite length_replicate. repeat split; [done..|].
    apply Forall_replicate. by rewrite length_replicate.
  - intros (-> & Hsh & _)%init_nbnd_list_Return. by apply np_shape_Rank2.
Qed.

Lemma build_idx_skb_map_spec nspin nkpt nbnd :
  has_shape nbnd nspin nkpt →
  build_idx_skb_map nspin nkpt nbnd
  = Return (map_seqZ 0 (triples nspin nkpt nbnd),
            Z.of_nat (length (triples nspin nkpt nbnd))).
Proof.
  intros Hsh. unfold build_idx_skb_map.
  apply (channel_loop_spec nbnd (ndindex nspin nkpt) []).
  apply Forall_forall. intros [s k] [Hs Hk]%elem_of_ndindex.
  by eapply getitem2_in_range.
Qed.

Lemma build_skb_idx_map_spec (l : list skb) :
  NoDup l →
  ∃ m, build_skb_idx_map (map_seqZ 0 l) (Z.of_nat (length l)) = Return m ∧
       ∀ t i, m !! t = Some i ↔ 0 ≤ i < Z.of_nat (length l) ∧ l !! Z.to_nat i = Some t.
Proof. intros Hnd. by apply comprehension_spec. Qed.

Lemma init_Return sample0 wgrid0 dgrid0 nspin0 nkpt0 nbnd0 occ0 gamma0 self :
  __init__ sample0 wgrid0 dgrid0 nspin0 nkpt0 nbnd0 occ0 gamma0 = Return self →
  built_from self sample0 wgrid0 dgrid0 nspin0 nkpt0 nbnd0 occ0 gamma0 ∧ index_inv self.
Proof.
  unfold __init__, py_assert. case_bool_decide as Hk; [|done]. simpl.
  destruct (init_nbnd nspin0 nkpt0 nbnd0) as [a|] eqn:Hnb; [|done]. simpl.
  destruct (init_occ nspin0 nkpt0 a occ0) as [o|] eqn:Hocc; [|done]. simpl.
  pose proof (init_nbnd_shape _ _ _ _ Hnb) as Hsh.
  rewrite (build_idx_skb_map_spec _ _ _ Hsh). simpl.
  rewrite size_map_seqZ.
  destruct (build_skb_idx_map_spec (triples nspin0 nkpt0 a)) as (m & -> & Hm);
    [apply NoDup_triples|].
  simpl. intros [= <-]. split; constructor; simpl; try done.
Qed.

(** The constructor succeeds once [nbnd] and [occ] are accepted. *)
Lemma init_succeeds sample0 wgrid0 dgrid0 nspin0 nbnd0 occ0 gamma0 a o :
  init_nbnd nspin0 1 nbnd0 = Return a →
  init_occ nspin0 1 a occ0 = Return o →
  ∃ self, __init__ sample0 wgrid0 dgrid0 nspin0 1 nbnd0 occ0 gamma0 = Return self.
Proof.
  intros Hnb Hocc. unfold __init__. simpl. rewrite Hnb. simpl. rewrite Hocc. simpl.
  rewrite (build_idx_skb_map_spec _ _ _ (init_nbnd_shape _ _ _ _ Hnb)). simpl.
  rewrite size_map_seqZ.
  destruct (build_skb_idx_map_spec (triples nspin0 1 a)) as (m & -> & Hm);
    [apply NoDup_triples|].
  simpl. eauto.
Qed.

(** ** Counting the orbitals *)

Lemma list_bind_assoc {A B C} (f : A → list B) (g : B → list C) (l : list A) :
  (l ≫= f) ≫= g = l ≫= (λ x, f x ≫= g).
Proof.
  induction l as [|x l IH]; [done|].
  by rewrite !bind_cons, bind_app, IH.
Qed.

Lemma sum_over_indices {A B} (a : list A) (g : Z → list B) (h : A → Z) (start : Z) :
  (∀ i x, a !! i = Some x → Z.of_nat (length (g (start + Z.of_nat i))) = h x) →
  Z.of_nat (length (seqZ start (Z.of_nat (length a)) ≫= g)) = Zsum (h <$> a).
Proof.
  revert start. induction a as [|x a IH]; intros start Hg; [done|].
  rewrite seqZ_cons by (simpl; lia). rewrite bind_cons, length_app, Nat2Z.inj_add.
  simpl. f_equal.
  - rewrite <- (Hg 0%nat x eq_refl). do 3 f_equal. lia.
  - replace (Z.pred (Z.of_nat (S (length a)))) with (Z.of_nat (length a)) by lia.
    apply IH. intros i y Hy. rewrite <- (Hg (S i) y Hy). do 3 f_equal. lia.
Qed.

(** A channel contributes its band count, and nothing when the count is
    negative. *)
Lemma length_triples nspin nkpt nbnd :
  has_shape nbnd nspin nkpt →
  Z.of_nat (length (triples nspin nkpt nbnd))
  = Zsum ((λ row, Zsum (Z.max 0 <$> row)) <$> nbnd).
Proof.
  intros (Hr & Hc & Hlen & Hrows). unfold triples, ndindex, range.
  rewrite list_bind_assoc.
  replace nspin with (Z.of_nat (length nbnd)) at 1 by lia.
  apply sum_over_indices. intros i row Hrow. rewrite Z.add_0_l, list_bind_assoc.
  assert (length row = Z.to_nat nkpt) as Hl.
  { eapply (proj1 (Forall_forall _ _) Hrows), list_elem_of_lookup_2, Hrow. }
  replace nkpt with (Z.of_nat (length row)) by lia.
  apply sum_over_indices. intros j n Hn. rewrite Z.add_0_l, bind_singleton.
  unfold bands. simpl. rewrite getitem2_lookup by lia.
  rewrite !Nat2Z.id, Hrow. simpl. rewrite Hn.
  unfold range. rewrite length_fmap, length_seqZ. lia.
Qed.

Lemma Zsum_max_nonneg (l : list Z) :
  Forall (λ n, 0 ≤ n) l → Zsum (Z.max 0 <$> l) = Zsum l.
Proof.
  induction 1 as [|n l Hn _ IH]; [done|].
  rewrite fmap_cons. simpl. rewrite IH. lia.
Qed.

Lemma Zsum_rows_nonneg (a : list (list Z)) :
  Forall (Forall (λ n, 0 ≤ n)) a →
  Zsum ((λ row, Zsum (Z.max 0 <$> row)) <$> a) = Zsum (Zsum <$> a).
Proof.
  induction 1 as [|row a Hrow _ IH]; [done|].
  rewrite !fmap_cons. simpl. by rewrite IH, Zsum_max_nonneg.
Qed.

(** ** The triples of a wavefunction *)

Lemma valid_triple_elem_of self t :
  valid_triple self t ↔ t ∈ triples (nspin self) (nkpt self) (nbnd self).
Proof. destruct t as [[s k] b]. by rewrite elem_of_triples. Qed.

Lemma skb2idx_Some self t i :
  index_inv self →
  skb2idx self t.1.1 t.1.2 t.2 = Some i ↔
  0 ≤ i < norb self ∧ triples (nspin self) (nkpt self) (nbnd self) !! Z.to_nat i = Some t.
Proof. intros Hinv. destruct t as [[s k] b]. apply (inv_skb_idx _ Hinv). Qed.

Lemma idx2skb_Return self i t :
  index_inv self →
  idx2skb self i = Return t ↔
  0 ≤ i ∧ triples (nspin self) (nkpt self) (nbnd self) !! Z.to_nat i = Some t.
Proof.
  intros Hinv. unfold idx2skb. rewrite (inv_idx_skb _ Hinv).
  destruct (map_seqZ _ _ !! i) as [t'|] eqn:Hl.
  - apply lookup_map_seqZ_Some in Hl as [Hi Hl]. rewrite Z.sub_0_r in Hl.
    rewrite Hl. split; [intros [= ->]; done | intros [_ [= ->]]; done].
  - apply lookup_map_seqZ_None in Hl. split; [done|]. intros [Hi Hl'].
    destruct Hl as [?|Hl]; [lia|]. apply lookup_lt_Some in Hl'. lia.
Qed.

(** ** Occupation numbers given as one sequence *)

Lemma chunks_one {A} (l : list A) : chunks 1 (length l) l = [l].
Proof. unfold chunks. simpl. by rewrite drop_0, firstn_all. Qed.

Lemma length_concat_replicate {A} (n : nat) (l : list A) :
  length (mjoin (replicate n l)) = (n * length l)%nat.
Proof. induction n as [|n IH]; simpl; [done|]. rewrite length_app, IH. lia. Qed.

Lemma init_occ_1d nspin nbnd l :
  1 ≤ nspin →
  init_occ nspin 1 nbnd (occ_1d l) = Return (replicate (Z.to_nat nspin) [l]).
Proof.
  intros Hs. unfold init_occ, reshape3, np_tile. simpl. rewrite app_nil_r.
  rewrite length_concat_replicate.
  rewrite bool_decide_false by lia.
  rewrite bool_decide_true.
  2:{ rewrite Nat2Z.inj_mul, Z2Nat.id, Z.mul_1_r, Z.mul_comm by lia.
      apply Z_mod_mult. }
  rewrite Z.mul_1_r, Nat.mul_comm, Nat.div_mul by lia.
  by rewrite fmap_replicate, chunks_one.
Qed.

(** ** The index maps are inverse to each other *)

(** The constructor keeps [nspin] and [nkpt], and [nbnd] as the array of
    the requested band counts. *)
Lemma init_nbnd_requested nspin nkpt arg a :
  init_nbnd nspin nkpt arg = Return a → a = requested_nbnd nspin nkpt arg.
Proof.
  destruct arg as [n|a'].
  - by intros (_ & _ & _ & ->)%np_ones_times_Return.
  - by intros (-> & _)%init_nbnd_list_Return.
Qed.

Lemma built_from_nbnd self sample0 wgrid0 dgrid0 nspin0 nkpt0 nbnd0 occ0 gamma0 :
  built_from self sample0 wgrid0 dgrid0 nspin0 nkpt0 nbnd0 occ0 gamma0 →
  nbnd self = requested_nbnd nspin0 nkpt0 nbnd0.
Proof. intros Hbf. eapply init_nbnd_requested, bf_nbnd, Hbf. Qed.

Lemma valid_triple_valid_for self sample0 wgrid0 dgrid0 nspin0 nkpt0 nbnd0 occ0 gamma0 t :
  built_from self sample0 wgrid0 dgrid0 nspin0 nkpt0 nbnd0 occ0 gamma0 →
  valid_triple self t ↔ valid_for nspin0 nkpt0 nbnd0 t.
Proof.
  intros Hbf. unfold valid_triple, valid_for.
  by rewrite (built_from_nbnd _ _ _ _ _ _ _ _ _ Hbf),
    (bf_nspin _ _ _ _ _ _ _ _ _ Hbf), (bf_nkpt _ _ _ _ _ _ _ _ _ Hbf).
Qed.

(** C1: a constructed wavefunction keeps the [nspin] and [nkpt] it was
    given and the requested band counts; for every triple that is valid for
    these arguments, [idx2skb (skb2idx (s, k, b))] is [(s, k, b)], with an
    index in [[0, norb)]; and for every [i] in [[0, norb)],
    [skb2idx (idx2skb i)] is [i], with a triple that is valid for the
    arguments. *)
Theorem index_maps_bijection sample0 wgrid0 dgrid0 nspin0 nkpt0 nbnd0 occ0 gamma0 self :
  __init__ sample0 wgrid0 dgrid0 nspin0 nkpt0 nbnd0 occ0 gamma0 = Return self →
  nspin self = nspin0 ∧ nkpt self = nkpt0 ∧
  nbnd self = requested_nbnd nspin0 nkpt0 nbnd0 ∧
  (∀ s k b, valid_for nspin0 nkpt0 nbnd0 (s, k, b) →
     ∃ i, 0 ≤ i < norb self ∧
          skb2idx self s k b = Some i ∧ idx2skb self i = Return (s, k, b)) ∧
  (∀ i, 0 ≤ i < norb self →
     ∃ s k b, valid_for nspin0 nkpt0 nbnd0 (s, k, b) ∧
              idx2skb self i = Return (s, k, b) ∧ skb2idx self s k b = Some i).
Proof.
  intros [Hbf Hinv]%init_Return.
  split; [apply (bf_nspin _ _ _ _ _ _ _ _ _ Hbf)|].
  split; [apply (bf_nkpt _ _ _ _ _ _ _ _ _ Hbf)|].
  split; [apply (built_from_nbnd _ _ _ _ _ _ _ _ _ Hbf)|].
  split.
  - intros s k b Hv. apply (valid_triple_valid_for _ _ _ _ _ _ _ _ _ _ Hbf) in Hv.
    apply valid_triple_elem_of, list_elem_of_lookup_1 in Hv as [j Hj].
    pose proof (lookup_lt_Some _ _ _ Hj) as Hlt.
    exists (Z.of_nat j).
    assert (0 ≤ Z.of_nat j < norb self) as Hr by (rewrite (inv_norb _ Hinv); lia).
    split; [done|]. split.
    + apply (skb2idx_Some self (s, k, b)); [done|]. by rewrite Nat2Z.id.
    + apply idx2skb_Return; [done|]. rewrite Nat2Z.id. split; [lia | done].
  - intros i Hi. rewrite (inv_norb _ Hinv) in Hi.
    destruct (lookup_lt_is_Some_2 (triples (nspin self) (nkpt self) (nbnd self))
                (Z.to_nat i)) as [[[s k] b] Ht]; [lia|].
    exists s, k, b. split; [|split].
    + eapply (valid_triple_valid_for _ _ _ _ _ _ _ _ _ _ Hbf), valid_triple_elem_of,
        list_elem_of_lookup_2, Ht.
    + apply idx2skb_Return; [done|]. split; [lia | done].
    + apply (skb2idx_Some self (s, k, b)); [done|]. rewrite (inv_norb _ Hinv). done.
Qed.

(** ** Internal indices count the preceding triples *)

Lemma skb2idx_counts_preceding self t :
  index_inv self → valid_triple self t →
  ∃ prec : list skb,
    NoDup prec ∧
    (∀ t', t' ∈ prec ↔ valid_triple self t' ∧ lex_lt t' t) ∧
    skb2idx self t.1.1 t.1.2 t.2 = Some (Z.of_nat (length prec)).
Proof.
  intros Hinv Hv. apply valid_triple_elem_of, list_elem_of_lookup_1 in Hv as [j Hj].
  pose proof (lookup_lt_Some _ _ _ Hj) as Hlt.
  exists (take j (triples (nspin self) (nkpt self) (nbnd self))). split; [|split].
  - pose proof (NoDup_triples (nspin self) (nkpt self) (nbnd self)) as Hnd.
    rewrite <- (take_drop j) in Hnd. by apply NoDup_app in Hnd as [? _].
  - intros t'. rewrite valid_triple_elem_of.
    apply sorted_prefix_smaller; [apply StronglySorted_triples | done].
  - rewrite length_take, Nat.min_l by lia.
    apply skb2idx_Some; [done|]. rewrite (inv_norb _ Hinv), Nat2Z.id. split; [lia | done].
Qed.

(** C2: a constructed wavefunction keeps [nspin], [nkpt] and the requested
    band counts; the internal index of a triple that is valid for these
    arguments is the number of valid triples that precede it in the spin,
    k-point, band lexicographic order, and is below [norb]; [norb] is the
    sum over the channels of the requested band counts (a negative count
    adds nothing); and for [nspin = 2], [nkpt = 1], [nbnd = 3]: [norb = 6],
    [(1, 0, 2)] has index 5 and [(0, 0, 0)] index 0. *)
Theorem index_counts_preceding :
  (∀ sample0 wgrid0 dgrid0 nspin0 nkpt0 nbnd0 occ0 gamma0 self,
     __init__ sample0 wgrid0 dgrid0 nspin0 nkpt0 nbnd0 occ0 gamma0 = Return self →
     nspin self = nspin0 ∧ nkpt self = nkpt0 ∧
     nbnd self = requested_nbnd nspin0 nkpt0 nbnd0 ∧
     (∀ s k b, valid_for nspin0 nkpt0 nbnd0 (s, k, b) →
        ∃ prec : list skb,
          NoDup prec ∧
          (∀ t', t' ∈ prec ↔ valid_for nspin0 nkpt0 nbnd0 t' ∧ lex_lt t' (s, k, b)) ∧
          skb2idx self s k b = Some (Z.of_nat (length prec)) ∧
          Z.of_nat (length prec) < norb self) ∧
     norb self = Zsum ((λ row, Zsum (Z.max 0 <$> row)) <$> requested_nbnd nspin0 nkpt0 nbnd0) ∧
     (Forall (Forall (λ n, 0 ≤ n)) (requested_nbnd nspin0 nkpt0 nbnd0) →
        norb self = Zsum (Zsum <$> requested_nbnd nspin0 nkpt0 nbnd0))) ∧
  (∀ sample0 wgrid0 dgrid0 occ0 gamma0,
     ∃ self, __init__ sample0 wgrid0 dgrid0 2 1 (nbnd_int 3) (occ_1d occ0) gamma0
               = Return self ∧
             norb self = 6 ∧ skb2idx self 1 0 2 = Some 5 ∧ skb2idx self 0 0 0 = Some 0).
Proof.
  split.
  - intros * [Hbf Hinv]%init_Return.
    pose proof (built_from_nbnd _ _ _ _ _ _ _ _ _ Hbf) as Hnb.
    split; [apply (bf_nspin _ _ _ _ _ _ _ _ _ Hbf)|].
    split; [apply (bf_nkpt _ _ _ _ _ _ _ _ _ Hbf)|].
    split; [done|]. rewrite <- Hnb.
    assert (norb self = Zsum ((λ row, Zsum (Z.max 0 <$> row)) <$> nbnd self)) as Hn.
    { rewrite (inv_norb _ Hinv). apply length_triples, (inv_shape _ Hinv). }
    split; [|split; [done|]].
    + intros s k b Hv. apply (valid_triple_valid_for _ _ _ _ _ _ _ _ _ _ Hbf) in Hv.
      destruct (skb2idx_counts_preceding self (s, k, b) Hinv Hv)
        as (prec & Hnd & Hprec & Hidx).
      exists prec. split; [done|]. split.
      { intros t'. by rewrite Hprec, (valid_triple_valid_for _ _ _ _ _ _ _ _ _ _ Hbf). }
      split; [done|].
      by apply (skb2idx_Some self (s, k, b)) in Hidx as [[_ ?] _].
    + intros Hpos. by rewrite Hn, Zsum_rows_nonneg.
  - intros. destruct (init_succeeds sample0 wgrid0 dgrid0 2 (nbnd_int 3) (occ_1d occ0)
                        gamma0 [[3]; [3]] [[occ0]; [occ0]]) as [self Hself];
      [done | by rewrite init_occ_1d |].
    exists self. split; [done|].
    apply init_Return in Hself as [Hbf Hinv].
    pose proof (built_from_nbnd _ _ _ _ _ _ _ _ _ Hbf) as Hnb. simpl in Hnb.
    assert (triples (nspin self) (nkpt self) (nbnd self)
            = [(0, 0, 0); (0, 0, 1); (0, 0, 2); (1, 0, 0); (1, 0, 1); (1, 0, 2)]) as Ht.
    { rewrite (bf_nspin _ _ _ _ _ _ _ _ _ Hbf), (bf_nkpt _ _ _ _ _ _ _ _ _ Hbf), Hnb.
      done. }
    assert (norb self = 6) as Hn by (by rewrite (inv_norb _ Hinv), Ht).
    split; [done|]. split.
    + apply (skb2idx_Some self (1, 0, 2)); [done|]. by rewrite Hn, Ht.
    + apply (skb2idx_Some self (0, 0, 0)); [done|]. by rewrite Hn, Ht.
Qed.

(** ** Key resolution *)

Lemma axis_get_Raise {A} (l : list A) i e :
  axis_get l i = Raise e → e = IndexError Builtin.
Proof.
  unfold axis_get, axis_index. repeat case_bool_decide; simpl;
    try destruct (l !! _); congruence.
Qed.

Lemma getitem2_Raise {A} (a : list (list A)) i j e :
  getitem2 a i j = Raise e → e = IndexError Builtin.
Proof.
  unfold getitem2. destruct (axis_get a i) as [row|e'] eqn:Hrow; simpl.
  - apply axis_get_Raise.
  - intros [= <-]. by eapply axis_get_Raise.
Qed.

(** The inner [try] on a tuple whose first three components are coerced
    by [int]. *)
Lemma check_triple_coerced self a b c rest s k bd :
  py_int a = Return s → py_int b = Return k → py_int c = Return bd →
  check_triple self (PTuple (a :: b :: c :: rest))
  = (_ ← py_assert (bool_decide (0 ≤ s) && bool_decide (s ≤ nspin (wfc self))) NoMessage;
     _ ← py_assert (bool_decide (0 ≤ k) && bool_decide (k ≤ nkpt (wfc self))) NoMessage;
     _ ← (if bool_decide (0 ≤ bd)
          then n ← getitem2 (nbnd (wfc self)) s k;
               py_assert (bool_decide (bd ≤ n)) NoMessage
          else Raise (AssertionError NoMessage));
     Return (s, k, bd)).
Proof. intros Ha Hb Hc. unfold check_triple. simpl. by rewrite Ha, Hb, Hc. Qed.

Lemma get_idx_in_bounds self a b c rest s k bd :
  py_int a = Return s → py_int b = Return k → py_int c = Return bd →
  inclusive_bounds self s k bd →
  _get_idx self (PTuple (a :: b :: c :: rest)) = Return (skb2idx (wfc self) s k bd).
Proof.
  intros Ha Hb Hc (Hs & Hk & n & Hn & Hbd). unfold _get_idx. simpl.
  rewrite (check_triple_coerced _ _ _ _ _ _ _ _ Ha Hb Hc), Hn. unfold py_assert.
  repeat (case_bool_decide; simpl; try lia). done.
Qed.

Lemma get_idx_out_of_bounds self a b c rest s k bd :
  py_int a = Return s → py_int b = Return k → py_int c = Return bd →
  ¬ inclusive_bounds self s k bd →
  _get_idx self (PTuple (a :: b :: c :: rest))
  = Raise (IndexOutOfRange (nspin (wfc self)) (nkpt (wfc self)) (nbnd (wfc self))).
Proof.
  intros Ha Hb Hc Hout. unfold _get_idx. simpl.
  rewrite (check_triple_coerced _ _ _ _ _ _ _ _ Ha Hb Hc). unfold py_assert.
  repeat (case_bool_decide; simpl; try done).
  destruct (getitem2 _ s k) as [n|e] eqn:Hn; simpl.
  - case_bool_decide; simpl; [|done].
    destruct Hout. repeat split; try lia. exists n. split; [done | lia].
  - by rewrite (getitem2_Raise _ _ _ _ Hn).
Qed.

(** On a constructed wavefunction the array lookup [nbnd[s, k]] makes the
    bounds on the spin and on the k-point exclusive; only the bound on the
    band includes the count. *)
Lemma inclusive_bounds_constructed self s k b :
  index_inv (wfc self) →
  inclusive_bounds self s k b ↔
  0 ≤ s < nspin (wfc self) ∧ 0 ≤ k < nkpt (wfc self) ∧
  ∃ n, getitem2 (nbnd (wfc self)) s k = Return n ∧ 0 ≤ b ≤ n.
Proof.
  intros Hinv. unfold inclusive_bounds. split.
  - intros (Hs & Hk & n & Hn & Hb).
    destruct (decide (s < nspin (wfc self) ∧ k < nkpt (wfc self))) as [[? ?]|Hout].
    { split; [lia|]. split; [lia|]. eauto. }
    rewrite (getitem2_out_of_range _ _ _ s k (inv_shape _ Hinv)) in Hn by lia. done.
  - intros (Hs & Hk & Hn). split; [lia|]. split; [lia | done].
Qed.

(** [_get_idx] reads only the wavefunction of the store. *)
Lemma get_idx_wfc self self' key :
  wfc self' = wfc self → _get_idx self' key = _get_idx self key.
Proof. intros Hw. unfold _get_idx, check_triple. by rewrite Hw. Qed.

Lemma getitem_Raise self key e :
  _get_idx self key = Raise e → __getitem__ self key = Raise e.
Proof. intros H. unfold __getitem__. by rewrite H. Qed.

Lemma setitem_Raise self key value e :
  _get_idx self key = Raise e → __setitem__ self key value = Raise e.
Proof. intros H. unfold __setitem__. by rewrite H. Qed.

(** C4: a triple key whose components break the inclusive bounds
    [0 <= spin <= nspin], [0 <= kpt <= nkpt], [0 <= band <= nbnd[spin, kpt]]
    makes [_get_idx], get and set fail with the index-out-of-range error
    that reports [(nspin, nkpt, nbnd)]; a triple within them resolves
    without an error; with [nspin = 2] and [nkpt = 1] the key [(3, 0, 0)]
    fails with the error reporting [(2, 1, nbnd)]. *)
Theorem triple_bounds_validated self :
  (∀ a b c s k bd value,
     py_int a = Return s → py_int b = Return k → py_int c = Return bd →
     ¬ inclusive_bounds self s k bd →
     let e := IndexOutOfRange (nspin (wfc self)) (nkpt (wfc self)) (nbnd (wfc self)) in
     _get_idx self (PTuple [a; b; c]) = Raise e ∧
     __getitem__ self (PTuple [a; b; c]) = Raise e ∧
     __setitem__ self (PTuple [a; b; c]) value = Raise e) ∧
  (∀ a b c s k bd,
     py_int a = Return s → py_int b = Return k → py_int c = Return bd →
     inclusive_bounds self s k bd →
     _get_idx self (PTuple [a; b; c]) = Return (skb2idx (wfc self) s k bd)) ∧
  (nspin (wfc self) = 2 → nkpt (wfc self) = 1 →
     __getitem__ self (PTuple [PInt 3; PInt 0; PInt 0])
     = Raise (IndexOutOfRange 2 1 (nbnd (wfc self)))).
Proof.
  split; [|split].
  - intros * Ha Hb Hc Hout e.
    pose proof (get_idx_out_of_bounds self a b c [] s k bd Ha Hb Hc Hout) as H.
    split; [done|]. split; [by apply getitem_Raise | by apply setitem_Raise].
  - intros * Ha Hb Hc Hin. by apply get_idx_in_bounds.
  - intros Hs Hk.
    replace (IndexOutOfRange 2 1 (nbnd (wfc self)))
      with (IndexOutOfRange (nspin (wfc self)) (nkpt (wfc self)) (nbnd (wfc self)))
      by (by rewrite Hs, Hk).
    apply getitem_Raise, (get_idx_out_of_bounds self _ _ _ [] 3 0 0); try done.
    intros (Hs' & _). lia.
Qed.

(** ** Keys that are not triples of integers *)

(** The error of the first component among the first three that [int]
    refuses; an absent component raises [IndexError]. *)
Lemma check_triple_first_error self l i v e :
  (i < 3)%nat → l !! i = Some v → py_int v = Raise e →
  (∀ j u, (j < i)%nat → l !! j = Some u → ∃ z, py_int u = Return z) →
  check_triple self (PTuple l) = Raise e.
Proof.
  intros Hi Hv He Hbefore. unfold check_triple. simpl.
  destruct l as [|a l]; [done|].
  destruct i as [|i]; simpl in *.
  { simplify_eq. by rewrite He. }
  destruct (Hbefore 0%nat a) as [s Hs]; [lia | done |]. rewrite Hs. simpl.
  destruct l as [|b l]; [done|].
  destruct i as [|i]; simpl in *.
  { simplify_eq. by rewrite He. }
  destruct (Hbefore 1%nat b) as [k Hk]; [lia | done |]. rewrite Hk. simpl.
  destruct l as [|c l]; [done|].
  destruct i as [|i]; simpl in *; [|lia].
  simplify_eq. by rewrite He.
Qed.

(** C6, as the code has it: a tuple key fails with the invalid-key error
    when, among its first three components, the first one that [int] does
    not coerce is refused with [ValueError], as a string that is no integer
    literal is; get and set fail with it too. *)
Theorem tuple_with_bad_literal_invalid_key self l i v m value :
  (i < 3)%nat → l !! i = Some v → py_int v = Raise (ValueError m) →
  (∀ j u, (j < i)%nat → l !! j = Some u → ∃ z, py_int u = Return z) →
  _get_idx self (PTuple l) = Raise InvalidKeyType ∧
  __getitem__ self (PTuple l) = Raise InvalidKeyType ∧
  __setitem__ self (PTuple l) value = Raise InvalidKeyType ∧
  InvalidKeyType ≠ IndexOutOfRange (nspin (wfc self)) (nkpt (wfc self)) (nbnd (wfc self)).
Proof.
  intros Hi Hv He Hbefore.
  assert (_get_idx self (PTuple l) = Raise InvalidKeyType) as H.
  { unfold _get_idx. simpl.
    by rewrite (check_triple_first_error self l i v _ Hi Hv He Hbefore). }
  split; [done|]. split; [by apply getitem_Raise|]. split; [by apply setitem_Raise|].
  done.
Qed.

(** A tuple of fewer than three components, all coerced by [int], is
    reported as out of range. *)
Lemma short_tuple_out_of_range self l :
  (length l < 3)%nat → Forall (λ u, ∃ z, py_int u = Return z) l →
  _get_idx self (PTuple l)
  = Raise (IndexOutOfRange (nspin (wfc self)) (nkpt (wfc self)) (nbnd (wfc self))).
Proof.
  intros Hlen Hall. unfold _get_idx, check_triple. simpl.
  destruct Hall as [|a l [s Hs] Hall]; [done|]. simpl. rewrite Hs. simpl.
  destruct Hall as [|b l [k Hk] Hall]; [done|]. simpl. rewrite Hk. simpl.
  destruct Hall as [|c l _ Hall]; [done|]. simpl in Hlen. lia.
Qed.

(** ** Writing and reading back *)

Lemma normalize_shape_ok self psir :
  shape psir = grid_shape self → normalize self psir = Return (normalized self psir).
Proof.
  intros Hsh. unfold normalize, py_assert. by rewrite bool_decide_true.
Qed.

Lemma normalize_shape_mismatch self psir :
  shape psir ≠ grid_shape self → normalize self psir = Raise (AssertionError NoMessage).
Proof.
  intros Hsh. unfold normalize, py_assert. by rewrite bool_decide_false.
Qed.

Lemma set_then_get self key value idx w :
  _get_idx self key = Return idx → transform self value = Return w →
  ∃ self', __setitem__ self key value = Return self' ∧
           wfc self' = wfc self ∧ transform self' = transform self ∧
           qty self' = <[idx := w]> (qty self) ∧
           __getitem__ self' key = Return w.
Proof.
  intros Hidx Hw. unfold __setitem__. rewrite Hidx. simpl. rewrite Hw. simpl.
  eexists. split; [done|]. simpl. repeat split.
  unfold __getitem__. rewrite (get_idx_wfc self) by done.
  rewrite Hidx. simpl. by rewrite lookup_insert_eq.
Qed.

(** Writing twice under one key leaves the entries of the second write. *)
Lemma set_twice self self1 self2 key v1 v2 :
  __setitem__ self key v1 = Return self1 →
  __setitem__ self1 key v2 = Return self2 →
  ∃ self2', __setitem__ self key v2 = Return self2' ∧ qty self2 = qty self2'.
Proof.
  unfold __setitem__.
  destruct (_get_idx self key) as [idx|] eqn:Hidx; [|done]. simpl.
  destruct (transform self v1) as [w1|]; [|done]. simpl. intros [= <-].
  rewrite (get_idx_wfc self) by done. rewrite Hidx. simpl.
  destruct (transform self v2) as [w2|]; [|done]. simpl. intros [= <-].
  eexists. split; [done|]. simpl. by rewrite insert_insert_eq.
Qed.

(** After [clear] every key that resolves is missing. *)
Lemma get_after_clear self key idx :
  _get_idx self key = Return idx → __getitem__ (clear self) key = Raise (KeyError idx).
Proof.
  intros Hidx. unfold __getitem__. rewrite (get_idx_wfc self) by done.
  rewrite Hidx. simpl. by rewrite lookup_empty.
Qed.

(** C3: when the key resolves and the transform returns, set followed by
    get with the same key returns the transformed value; that value is the
    value itself in a store with the identity transform ([psi_g]), and, in
    a store with the normalizing transform ([psi_r]) and for a field of the
    grid's shape, the field divided by
    [sqrt (sum (abs field ** 2) * omega / N)]. *)
Theorem set_get_transform self q key value idx :
  (∀ t w, let mgr := {| wfc := self; qty := q; transform := t |} in
     _get_idx mgr key = Return idx → t value = Return w →
     ∃ mgr', __setitem__ mgr key value = Return mgr' ∧
             __getitem__ mgr' key = Return w) ∧
  (let mgr := {| wfc := self; qty := q; transform := Return |} in
     _get_idx mgr key = Return idx →
     ∃ mgr', __setitem__ mgr key value = Return mgr' ∧
             __getitem__ mgr' key = Return value) ∧
  (let mgr := {| wfc := self; qty := q; transform := normalize self |} in
     _get_idx mgr key = Return idx → shape value = grid_shape self →
     ∃ mgr', __setitem__ mgr key value = Return mgr' ∧
             __getitem__ mgr' key
             = Return {| shape := shape value;
                         data := (λ x, np_div x
                                   (np_sqrt (np_div_int
                                      (np_mul (np_sum (np_square <$> (np_abs <$> data value)))
                                              (omega (sample self)))
                                      (grid_N (wgrid self))))) <$> data value |}).
Proof.
  split; [|split].
  - intros t w mgr Hidx Hw.
    destruct (set_then_get mgr key value idx w Hidx Hw) as (mgr' & ? & _ & _ & _ & ?).
    eauto.
  - intros mgr Hidx.
    destruct (set_then_get mgr key value idx value Hidx eq_refl) as (mgr' & ? & _ & _ & _ & ?).
    eauto.
  - intros mgr Hidx Hsh.
    destruct (set_then_get mgr key value idx (normalized self value) Hidx
                (normalize_shape_ok _ _ Hsh)) as (mgr' & ? & _ & _ & _ & ?).
    eauto.
Qed.

(** [_get_idx] never fails with an assertion error. *)
Lemma get_idx_no_assertion self key m :
  _get_idx self key ≠ Raise (AssertionError m).
Proof.
  unfold _get_idx.
  destruct (py_int key) as [idx|[]] eqn:Hkey; try done.
  - destruct key; simpl in Hkey; try done. by destruct (int_of_str s).
  - destruct (check_triple self key) as [[[? ?] ?]|[]]; done.
Qed.

(** C8: [normalize] fails with the assertion error on every field whose
    shape is not [(n1, n2, n3)] of the wavefunction grid, returns on every
    field of that shape, and an insertion of such a field in [psi_r] does
    not fail with the assertion error. *)
Theorem normalize_shape_assertion self psir :
  (shape psir ≠ grid_shape self →
     normalize self psir = Raise (AssertionError NoMessage)) ∧
  (shape psir = grid_shape self →
     normalize self psir = Return (normalized self psir) ∧
     ∀ q key m,
       __setitem__ {| wfc := self; qty := q; transform := normalize self |} key psir
       ≠ Raise (AssertionError m)).
Proof.
  split; [apply normalize_shape_mismatch|].
  intros Hsh. split; [by apply normalize_shape_ok|].
  intros q key m. unfold __setitem__.
  destruct (_get_idx _ key) as [idx|e] eqn:Hidx; simpl.
  - by rewrite normalize_shape_ok.
  - intros [= ->]. by eapply get_idx_no_assertion.
Qed.

(** ** The band equal to the band count *)

Lemma skb2idx_None self s k b :
  index_inv self → ¬ valid_triple self (s, k, b) → skb2idx self s k b = None.
Proof.
  intros Hinv Hnv. destruct (skb2idx self s k b) as [i|] eqn:Hi; [|done].
  apply (skb2idx_Some self (s, k, b)) in Hi as [_ Hi]; [|done].
  destruct Hnv. eapply valid_triple_elem_of, list_elem_of_lookup_2, Hi.
Qed.

(** C9: for a constructed wavefunction and a spin [s] in [[0, nspin)],
    with [n = nbnd[s, 0]] not negative, the key [(s, 0, n)] passes the
    validation, [skb2idx] returns [None], set stores the transformed value
    under the dictionary key [None] without an error, get with the same key
    returns it, get with an integer key returns what it returned before the
    set (a [KeyError] in a store that was empty), and [indices ()] contains
    [None]. *)
Theorem boundary_band_stored_under_None
    sample0 wgrid0 dgrid0 nspin0 nkpt0 nbnd0 occ0 gamma0 self mgr s value w :
  __init__ sample0 wgrid0 dgrid0 nspin0 nkpt0 nbnd0 occ0 gamma0 = Return self →
  wfc mgr = self → 0 ≤ s < nspin self → transform mgr value = Return w →
  ∃ n, getitem2 (nbnd self) s 0 = Return n ∧
    (0 ≤ n →
     let key := PTuple [PInt s; PInt 0; PInt n] in
     inclusive_bounds mgr s 0 n ∧
     skb2idx self s 0 n = None ∧
     _get_idx mgr key = Return None ∧
     ∃ mgr', __setitem__ mgr key value = Return mgr' ∧
             qty mgr' = <[None := w]> (qty mgr) ∧
             __getitem__ mgr' key = Return w ∧
             (∀ i, __getitem__ mgr' (PInt i) = __getitem__ mgr (PInt i)) ∧
             (qty mgr = ∅ → ∀ i, __getitem__ mgr' (PInt i) = Raise (KeyError (Some i))) ∧
             None ∈ indices mgr').
Proof.
  intros [_ Hinv]%init_Return Hwfc Hs Hw.
  pose proof (inv_nkpt _ Hinv) as Hk.
  destruct (getitem2_in_range (nbnd self) _ _ s 0 (inv_shape _ Hinv)) as [n Hn];
    [done | lia |].
  exists n. split; [done|]. intros Hpos key.
  assert (inclusive_bounds mgr s 0 n) as Hin.
  { unfold inclusive_bounds. rewrite Hwfc. repeat split; try lia.
    exists n. split; [done | lia]. }
  assert (skb2idx self s 0 n = None) as Hnone.
  { apply skb2idx_None; [done|]. intros (_ & _ & n' & Hn' & Hlt). simpl in *.
    rewrite Hn in Hn'. simplify_eq. lia. }
  assert (_get_idx mgr key = Return None) as Hidx.
  { unfold key. rewrite (get_idx_in_bounds mgr _ _ _ [] s 0 n) by done.
    by rewrite Hwfc, Hnone. }
  split; [done|]. split; [done|]. split; [done|].
  destruct (set_then_get mgr key value None w Hidx Hw)
    as (mgr' & Hset & Hwfc' & _ & Hqty & Hget).
  exists mgr'. split; [done|]. split; [done|]. split; [done|]. split; [|split].
  - intros i. unfold __getitem__, _get_idx. simpl.
    by rewrite Hqty, lookup_insert_ne.
  - intros Hempty i. unfold __getitem__, _get_idx. simpl.
    by rewrite Hqty, lookup_insert_ne, Hempty, lookup_empty.
  - unfold indices. rewrite Hqty. apply elem_of_dom. rewrite lookup_insert_eq. eauto.
Qed.

(** ** The k-point restriction *)

Lemma for_each_Raise {A S} (P : exn → Prop) (body : A → S → result S) l st e :
  (∀ x st e, body x st = Raise e → P e) → for_each body l st = Raise e → P e.
Proof.
  intros Hbody. revert st. induction l as [|x l IH]; intros st; simpl; [done|].
  destruct (body x st) as [st'|e'] eqn:Hb; simpl; [apply IH|].
  intros [= <-]. by eapply Hbody.
Qed.

Lemma init_nbnd_Raise nspin nkpt arg e :
  init_nbnd nspin nkpt arg = Raise e → e ≠ UnsupportedConfiguration.
Proof.
  destruct arg as [n|a]; simpl.
  - unfold np_ones_times. case_bool_decide; [|by intros [= <-]].
    destruct (in_int64 n); [done|]. by intros [= <-].
  - destruct (np_shape a); try by intros [= <-].
    destruct (forallb _ a); [|by intros [= <-]].
    unfold py_assert. case_bool_decide; simpl; [done|]. by intros [= <-].
Qed.

Lemma init_occ_Raise nspin nkpt nbnd arg e :
  init_occ nspin nkpt nbnd arg = Raise e → e ≠ UnsupportedConfiguration.
Proof.
  destruct arg as [l|a]; simpl.
  - unfold reshape3. repeat case_bool_decide; try done; by intros [= <-].
  - destruct (np_max nbnd) as [mx|e'] eqn:Hmx; simpl.
    2:{ unfold np_max in Hmx. destruct (mjoin nbnd); [|done].
        injection Hmx as <-. by intros [= <-]. }
    case_bool_decide; simpl; [|by intros [= <-]].
    apply (for_each_Raise (λ e, e ≠ UnsupportedConfiguration)). intros ispin o1 e1.
    apply (for_each_Raise (λ e, e ≠ UnsupportedConfiguration)). intros ikpt o2 e2.
    unfold store_channel.
    destruct (getitem2 nbnd ispin ikpt) as [nb|e3] eqn:Hnb; simpl.
    2:{ intros [= <-]. by rewrite (getitem2_Raise _ _ _ _ Hnb). }
    destruct (getitem2 a ispin ikpt) as [src|e3] eqn:Hsrc; simpl.
    2:{ intros [= <-]. by rewrite (getitem2_Raise _ _ _ _ Hsrc). }
    unfold update2. destruct (o2 !! _) as [row|]; [|by intros [= <-]].
    destruct (row !! _) as [x|]; [|by intros [= <-]].
    unfold assign_slice. case_bool_decide; simpl; [done|].
    destruct (take _ src) as [|y [|z r]]; simpl; try done; by intros [= <-].
Qed.

(** C5: with [nkpt] other than 1 the constructor fails with the k-point
    assertion whatever the other arguments are, and so returns no
    wavefunction, no index map and no store; with [nkpt = 1] it does not
    fail with that error. *)
Theorem nkpt_must_be_one sample0 wgrid0 dgrid0 nspin0 nkpt0 nbnd0 occ0 gamma0 :
  (nkpt0 ≠ 1 →
     __init__ sample0 wgrid0 dgrid0 nspin0 nkpt0 nbnd0 occ0 gamma0
     = Raise UnsupportedConfiguration) ∧
  (nkpt0 = 1 →
     __init__ sample0 wgrid0 dgrid0 nspin0 nkpt0 nbnd0 occ0 gamma0
     ≠ Raise UnsupportedConfiguration).
Proof.
  split.
  - intros Hk. unfold __init__, py_assert. by rewrite bool_decide_false.
  - intros -> Heq.
    destruct (init_nbnd nspin0 1 nbnd0) as [a|e] eqn:Hnb.
    + destruct (init_occ nspin0 1 a occ0) as [o|e] eqn:Hocc.
      * destruct (init_succeeds sample0 wgrid0 dgrid0 nspin0 nbnd0 occ0 gamma0 a o Hnb Hocc)
          as [self Hself]. congruence.
      * unfold __init__ in Heq. simpl in Heq. rewrite Hnb in Heq. simpl in Heq.
        rewrite Hocc in Heq. simpl in Heq. injection Heq as ->.
        by apply init_occ_Raise in Hocc.
    + unfold __init__ in Heq. simpl in Heq. rewrite Hnb in Heq. simpl in Heq.
      injection Heq as ->. by apply init_nbnd_Raise in Hnb.
Qed.

(** ** Occupation numbers given per channel *)

Lemma is_int_astype_int x : is_int (astype_int x).
Proof. by destruct x. Qed.

Lemma assign_slice_spec row0 stop rhs row :
  assign_slice row0 stop rhs = Return row →
  Forall is_int row0 →
  Forall is_int row ∧
  ∀ b x, (b < slice_stop (length row0) stop)%nat → rhs !! b = Some x →
         row !! b = Some (astype_int x).
Proof.
  unfold assign_slice. set (n := slice_stop (length row0) stop).
  intros Hrow Hint. case_bool_decide as Hlen.
  - injection Hrow as <-. split.
    + apply Forall_app. split; [|by apply Forall_drop].
      apply Forall_fmap, Forall_true. intros x. apply is_int_astype_int.
    + intros b x Hb Hx. rewrite lookup_app_l by (rewrite length_fmap; lia).
      by rewrite list_lookup_fmap, Hx.
  - destruct rhs as [|x0 [|x1 rhs]]; try done. injection Hrow as <-. split.
    + apply Forall_app. split; [|by apply Forall_drop].
      apply Forall_replicate, is_int_astype_int.
    + intros [|b] x Hb Hx; [|done]. simpl in Hx. injection Hx as <-.
      rewrite lookup_app_l by (rewrite length_replicate; lia).
      by apply lookup_replicate_2.
Qed.

Lemma np_max_ge (a : list (list Z)) mx i j n :
  np_max a = Return mx → 0 ≤ i → 0 ≤ j → getitem2 a i j = Return n → n ≤ mx.
Proof.
  intros Hmx Hi Hj Hn. rewrite getitem2_lookup in Hn by done.
  destruct (a !! Z.to_nat i) as [row|] eqn:Hrow; simpl in Hn; [|done].
  destruct (row !! Z.to_nat j) as [n'|] eqn:Hn'; [|done]. injection Hn as ->.
  assert (n ∈ mjoin a) as Hin.
  { apply (list_elem_of_join n a). exists row.
    split; eapply list_elem_of_lookup_2; eauto. }
  unfold np_max in Hmx. destruct (mjoin a) as [|x l]; [done|].
  injection Hmx as <-. clear -Hin.
  assert (∀ l y, y ≤ foldl Z.max y l) as Hge.
  { clear. intros l. induction l as [|z l IH]; intros y; simpl; [lia|].
    etrans; [|apply IH]. lia. }
  assert (∀ l y, n ∈ l → n ≤ foldl Z.max y l) as Hmem.
  { clear -Hge. intros l. induction l as [|z l IH]; intros y Hin; simpl.
    - by apply elem_of_nil in Hin.
    - apply elem_of_cons in Hin as [->|Hin]; [|by apply IH].
      etrans; [|apply Hge]. lia. }
  apply elem_of_cons in Hin as [->|Hin]; [apply Hge | by apply Hmem].
Qed.

(** What a channel holds after the loops: the row written by lines
    115-116 for the spins already visited. *)
Lemma occ_loop_spec nbnd (a o0 : list (list (list scalar))) (j : nat) o :
  for_each (λ ispin self_occ,
      for_each (λ ikpt self_occ, store_channel nbnd a ispin ikpt self_occ)
        (range 1) self_occ)
    (range (Z.of_nat j)) o0 = Return o →
  length o = length o0 ∧
  (∀ s, (j ≤ s)%nat → o !! s = o0 !! s) ∧
  (∀ s ks, (s < j)%nat → o0 !! s = Some ks →
     ∃ row0 nb src row,
       ks !! 0%nat = Some row0 ∧
       getitem2 nbnd (Z.of_nat s) 0 = Return nb ∧
       getitem2 a (Z.of_nat s) 0 = Return src ∧
       assign_slice row0 nb (take (slice_stop (length src) nb) src) = Return row ∧
       o !! s = Some (<[0%nat := row]> ks)).
Proof.
  revert o. induction j as [|j IH]; intros o.
  - intros [= <-]. split; [done|]. split; [done|]. intros; lia.
  - unfold range in *. rewrite seqZ_S, for_each_app.
    intros (oj & Hoj & Hstep)%bind_Return.
    destruct (IH oj Hoj) as (Hlen & Hrest & Hdone). clear IH Hoj.
    change (seqZ 0 1) with [0] in Hstep. simpl in Hstep.
    rewrite Z.add_0_l in Hstep. unfold store_channel in Hstep.
    destruct (getitem2 nbnd (Z.of_nat j) 0) as [nb|] eqn:Hnb; [|done].
    destruct (getitem2 a (Z.of_nat j) 0) as [src|] eqn:Hsrc; [|done].
    simpl in Hstep. unfold update2 in Hstep. rewrite Nat2Z.id in Hstep.
    destruct (oj !! j) as [ks|] eqn:Hks; [|done].
    change (Z.to_nat 0) with 0%nat in Hstep.
    destruct (ks !! 0%nat) as [row0|] eqn:Hrow0; [|done].
    destruct (assign_slice row0 nb _) as [row|] eqn:Hrow; [|done].
    simpl in Hstep. injection Hstep as <-.
    split; [by rewrite length_insert|]. split.
    + intros s Hs. rewrite list_lookup_insert_ne by lia. apply Hrest. lia.
    + intros s ks' Hs Hks'. destruct (decide (s = j)) as [->|Hne].
      * rewrite Hrest in Hks by lia. simplify_eq.
        exists row0, nb, src, row. repeat split; try done.
        apply list_lookup_insert_eq. rewrite Hlen. by eapply lookup_lt_Some.
      * rewrite list_lookup_insert_ne by done. apply Hdone; [lia | done].
Qed.

Lemma init_occ_3d_spec nspin nbnd a o :
  has_shape nbnd nspin 1 →
  init_occ nspin 1 nbnd (occ_3d a) = Return o →
  length o = Z.to_nat nspin ∧
  ∀ s, 0 ≤ s < nspin →
    ∃ nb src row,
      getitem2 nbnd s 0 = Return nb ∧ getitem2 a s 0 = Return src ∧
      o !! Z.to_nat s = Some [row] ∧ Forall is_int row ∧
      ∀ b x, 0 ≤ b < nb → src !! Z.to_nat b = Some x →
             row !! Z.to_nat b = Some (astype_int x).
Proof.
  intros Hsh. unfold init_occ.
  destruct (np_max nbnd) as [mx|] eqn:Hmx; [|done]. simpl.
  case_bool_decide as Hmx0; [|done]. simpl.
  destruct Hsh as (Hns & _ & _ & _).
  rewrite <- (Z2Nat.id nspin) at 1 by done.
  intros (Hlen & _ & Hdone)%occ_loop_spec.
  rewrite length_replicate in Hlen. split; [done|].
  intros s Hs.
  destruct (Hdone (Z.to_nat s) [replicate (Z.to_nat mx) (SInt 0)])
    as (row0 & nb & src & row & Hrow0 & Hnb & Hsrc & Hrow & Ho); [lia|..].
  { apply lookup_replicate_2. lia. }
  rewrite Z2Nat.id in Hnb, Hsrc by lia. simpl in Hrow0. injection Hrow0 as <-.
  exists nb, src, row. split; [done|]. split; [done|]. split; [done|].
  destruct (assign_slice_spec _ _ _ _ Hrow) as [Hint Helem].
  { apply Forall_replicate. done. }
  split; [done|]. intros b x Hb Hx. apply Helem.
  - pose proof (np_max_ge nbnd mx s 0 nb Hmx ltac:(lia) ltac:(lia) Hnb) as Hle.
    rewrite length_replicate. unfold slice_stop. rewrite bool_decide_false by lia. lia.
  - rewrite lookup_take_lt; [done|]. apply lookup_lt_Some in Hx.
    unfold slice_stop. rewrite bool_decide_false by lia. lia.
Qed.

(** Truncation is toward zero: the integer between 0 and [q] that is
    less than one away from [q]. *)
Lemma trunc_toward_zero (q : Q) :
  ((0 <= q → inject_Z (trunc q) <= q ∧ q < inject_Z (trunc q) + 1) ∧
   (q <= 0 → q <= inject_Z (trunc q) ∧ inject_Z (trunc q) - 1 < q))%Q.
Proof.
  destruct q as [n d]. unfold trunc, Qle, Qlt. simpl.
  rewrite !Z.mul_1_r. split.
  - intros Hn. split.
    + rewrite Z.mul_comm. apply Z.mul_quot_le; lia.
    + pose proof (Z.mul_succ_quot_gt n (Z.pos d)). lia.
  - intros Hn.
    pose proof (Z.mul_quot_le (- n) (Z.pos d)) as H1.
    pose proof (Z.mul_succ_quot_gt (- n) (Z.pos d)) as H2.
    rewrite Z.quot_opp_l in H1, H2 by lia. split; lia.
Qed.

Lemma trunc_inject_Z (q : Q) (z : Z) : (q == inject_Z z)%Q → trunc q = z.
Proof.
  destruct q as [n d]. unfold Qeq, trunc. simpl. rewrite Z.mul_1_r. intros ->.
  apply Z.quot_mul. lia.
Qed.

(** A float with a fractional part is no int64 after the conversion either. *)
Lemma float_to_int64_fractional (q : Q) :
  ¬ (q == inject_Z (trunc q))%Q → ¬ (q == inject_Z (float_to_int64 q))%Q.
Proof.
  intros Hfrac. unfold float_to_int64. destruct (in_int64 (trunc q)) eqn:Hin; [done|].
  intros Heq%trunc_inject_Z. rewrite Heq in Hin. done.
Qed.

(** C10: given per channel, the occupation numbers are stored with dtype
    [int], each supplied value within the band count converted to int64: a
    float by truncation toward zero where the truncation lies within int64,
    and to the least int64 where it does not; given as one sequence they are
    stored as they are; so a sequence holding a float is stored differently
    from any per-channel array, and the same occupations given in the two
    forms are stored as different numbers wherever one is not an integer. *)
Theorem occ_dtype_depends_on_form sample0 wgrid0 dgrid0 nspin0 nkpt0 nbnd0 gamma0 :
  (∀ a self,
     __init__ sample0 wgrid0 dgrid0 nspin0 nkpt0 nbnd0 (occ_3d a) gamma0 = Return self →
     Forall (Forall (Forall is_int)) (occ self) ∧
     ∀ s k b nb src x,
       0 ≤ s < nspin0 → 0 ≤ k < nkpt0 →
       getitem2 (requested_nbnd nspin0 nkpt0 nbnd0) s k = Return nb →
       getitem2 a s k = Return src →
       0 ≤ b < nb → src !! Z.to_nat b = Some x → int64_elem x →
       ∃ row, getitem2 (occ self) s k = Return row ∧
              row !! Z.to_nat b = Some (astype_int x)) ∧
  (∀ z, in_int64 z = true → astype_int (SInt z) = SInt z) ∧
  (∀ q, (int64_min ≤ trunc q ≤ int64_max → astype_int (SFloat q) = SInt (trunc q)) ∧
        (¬ int64_min ≤ trunc q ≤ int64_max → astype_int (SFloat q) = SInt (- 2 ^ 63)) ∧
        ((0 <= q → inject_Z (trunc q) <= q ∧ q < inject_Z (trunc q) + 1) ∧
         (q <= 0 → q <= inject_Z (trunc q) ∧ inject_Z (trunc q) - 1 < q))%Q) ∧
  (∀ l self,
     __init__ sample0 wgrid0 dgrid0 nspin0 nkpt0 nbnd0 (occ_1d l) gamma0 = Return self →
     ∀ s k, 0 ≤ s < nspin0 → 0 ≤ k < nkpt0 → getitem2 (occ self) s k = Return l) ∧
  (∀ l a self1 self2 q,
     __init__ sample0 wgrid0 dgrid0 nspin0 nkpt0 nbnd0 (occ_1d l) gamma0 = Return self1 →
     __init__ sample0 wgrid0 dgrid0 nspin0 nkpt0 nbnd0 (occ_3d a) gamma0 = Return self2 →
     SFloat q ∈ l → occ self1 ≠ occ self2) ∧
  (∀ l a self1 self2 s k b nb q,
     __init__ sample0 wgrid0 dgrid0 nspin0 nkpt0 nbnd0 (occ_1d l) gamma0 = Return self1 →
     __init__ sample0 wgrid0 dgrid0 nspin0 nkpt0 nbnd0 (occ_3d a) gamma0 = Return self2 →
     0 ≤ s < nspin0 → 0 ≤ k < nkpt0 →
     getitem2 a s k = Return l →
     getitem2 (requested_nbnd nspin0 nkpt0 nbnd0) s k = Return nb →
     0 ≤ b < nb → l !! Z.to_nat b = Some (SFloat q) → ¬ (q == inject_Z (trunc q))%Q →
     ∃ row1 row2 x1 x2,
       getitem2 (occ self1) s k = Return row1 ∧ row1 !! Z.to_nat b = Some x1 ∧
       getitem2 (occ self2) s k = Return row2 ∧ row2 !! Z.to_nat b = Some x2 ∧
       x1 = SFloat q ∧ x2 = astype_int (SFloat q) ∧
       (int64_min ≤ trunc q ≤ int64_max → x2 = SInt (trunc q)) ∧
       ¬ (value_of x1 == value_of x2)%Q).
Proof.
  assert (∀ a self,
     __init__ sample0 wgrid0 dgrid0 nspin0 nkpt0 nbnd0 (occ_3d a) gamma0 = Return self →
     Forall (Forall (Forall is_int)) (occ self) ∧
     ∀ s k b nb src x,
       0 ≤ s < nspin0 → 0 ≤ k < nkpt0 →
       getitem2 (requested_nbnd nspin0 nkpt0 nbnd0) s k = Return nb →
       getitem2 a s k = Return src →
       0 ≤ b < nb → src !! Z.to_nat b = Some x →
       ∃ row, getitem2 (occ self) s k = Return row ∧
              row !! Z.to_nat b = Some (astype_int x)) as H3d.
  { intros a self [Hbf Hinv]%init_Return.
    pose proof (inv_shape _ Hinv) as Hsh. pose proof (bf_occ _ _ _ _ _ _ _ _ _ Hbf) as Hocc.
    rewrite <- (built_from_nbnd _ _ _ _ _ _ _ _ _ Hbf).
    rewrite (bf_nspin _ _ _ _ _ _ _ _ _ Hbf), (bf_nkpt _ _ _ _ _ _ _ _ _ Hbf) in Hsh.
    assert (nkpt0 = 1) as -> by (by rewrite <- (bf_nkpt _ _ _ _ _ _ _ _ _ Hbf), (inv_nkpt _ Hinv)).
    destruct (init_occ_3d_spec _ _ _ _ Hsh Hocc) as [Hlen Hrows]. split.
    - apply Forall_lookup. intros i ks Hks.
      pose proof (lookup_lt_Some _ _ _ Hks) as Hi.
      destruct (Hrows (Z.of_nat i)) as (nb & src & row & _ & _ & Ho & Hint & _); [lia|].
      rewrite Nat2Z.id in Ho. simplify_eq. by repeat constructor.
    - intros s k b nb src x Hs Hk Hnb Hsrc Hb Hx. assert (k = 0) as -> by lia.
      destruct (Hrows s Hs) as (nb' & src' & row & Hnb' & Hsrc' & Ho & _ & Helem).
      rewrite Hnb in Hnb'. rewrite Hsrc in Hsrc'. simplify_eq.
      exists row. split; [|by apply Helem].
      rewrite getitem2_lookup by lia. by rewrite Ho. }
  assert (∀ l self,
     __init__ sample0 wgrid0 dgrid0 nspin0 nkpt0 nbnd0 (occ_1d l) gamma0 = Return self →
     1 ≤ nspin0 ∧ nkpt0 = 1 ∧ occ self = replicate (Z.to_nat nspin0) [l]) as H1d.
  { intros l self [Hbf Hinv]%init_Return.
    pose proof (inv_shape _ Hinv) as (Hns & _). pose proof (bf_occ _ _ _ _ _ _ _ _ _ Hbf) as Hocc.
    rewrite (bf_nspin _ _ _ _ _ _ _ _ _ Hbf) in Hns.
    assert (nkpt0 = 1) as -> by (by rewrite <- (bf_nkpt _ _ _ _ _ _ _ _ _ Hbf), (inv_nkpt _ Hinv)).
    assert (1 ≤ nspin0) as Hpos.
    { destruct (decide (nspin0 = 0)) as [->|]; [|lia]. done. }
    rewrite init_occ_1d in Hocc by done. by injection Hocc as <-. }
  split.
  { intros a self [Hint Hrows]%H3d. split; [done|].
    intros s k b nb src x Hs Hk Hnb Hsrc Hb Hx _. by eapply Hrows. }
  split; [done|]. split; [|split].
  - intros q. split; [|split; [|apply trunc_toward_zero]].
    + intros Hin. simpl. unfold float_to_int64, in_int64. by rewrite bool_decide_true.
    + intros Hout. simpl. unfold float_to_int64, in_int64. by rewrite bool_decide_false.
  - intros l self (Hns & -> & Ho)%H1d s k Hs Hk. assert (k = 0) as -> by lia.
    rewrite getitem2_lookup, Ho by lia. by rewrite lookup_replicate_2 by lia.
  - split.
    + intros l a self1 self2 q (Hns & -> & Ho)%H1d [Hint _]%H3d Hq Heq.
      rewrite <- Heq, Ho in Hint.
      apply (Forall_lookup_1 _ _ 0%nat [l]) in Hint; [|apply lookup_replicate_2; lia].
      inversion_clear Hint as [|? ? Hl _].
      by apply (proj1 (Forall_forall _ _) Hl) in Hq.
    + intros l a self1 self2 s k b nb q H1 [_ H2]%H3d Hs Hk Ha Hnb Hb Hl Hfrac.
      destruct (H2 s k b nb l (SFloat q) Hs Hk Hnb Ha Hb Hl) as (row2 & Hrow2 & Hx2).
      apply H1d in H1 as (Hns & -> & Ho). assert (k = 0) as -> by lia.
      exists l, row2, (SFloat q), (astype_int (SFloat q)).
      split; [rewrite getitem2_lookup, Ho by lia; by rewrite lookup_replicate_2 by lia|].
      split; [done|]. split; [done|]. split; [done|]. split; [done|]. split; [done|].
      split.
      * intros Hin. simpl. unfold float_to_int64, in_int64. by rewrite bool_decide_true.
      * simpl. by apply float_to_int64_fractional.
Qed.

(** ** Further properties of the stores *)

(** X1: a key that [int] coerces to [i] (an integer, a float, a numeric
    string) addresses the entry [i] with no range check at all; set with one
    such key followed by get with any other key coerced to the same [i]
    returns the transformed value, and [i] is among the [indices ()]. *)
Theorem coerced_keys_alias self key1 key2 i value w :
  py_int key1 = Return i → py_int key2 = Return i →
  transform self value = Return w →
  _get_idx self key1 = Return (Some i) ∧
  ∃ self', __setitem__ self key1 value = Return self' ∧
           __getitem__ self' key2 = Return w ∧
           Some i ∈ indices self' ∧
           indices self' = {[Some i]} ∪ indices self.
Proof.
  intros H1 H2 Hw.
  assert (∀ mgr key, py_int key = Return i → _get_idx mgr key = Return (Some i)) as Hidx.
  { intros mgr key Hk. unfold _get_idx. by rewrite Hk. }
  split; [by apply Hidx|].
  destruct (set_then_get self key1 value (Some i) w (Hidx _ _ H1) Hw)
    as (self' & Hset & _ & _ & Hqty & _).
  exists self'. split; [done|]. split; [|split].
  - unfold __getitem__. rewrite (Hidx _ _ H2). simpl. by rewrite Hqty, lookup_insert_eq.
  - unfold indices. rewrite Hqty, dom_insert_L. set_solver.
  - unfold indices. by rewrite Hqty, dom_insert_L.
Qed.

(** X2: on a store of a constructed wavefunction that holds nothing under
    the internal index of a valid triple, get with the triple key fails with
    the [KeyError] of that index, which lies in [[0, norb)]; a store as the
    constructor leaves it fails so for every valid triple. *)
Theorem get_unpopulated_triple
    sample0 wgrid0 dgrid0 nspin0 nkpt0 nbnd0 occ0 gamma0 self s k b :
  __init__ sample0 wgrid0 dgrid0 nspin0 nkpt0 nbnd0 occ0 gamma0 = Return self →
  valid_triple self (s, k, b) →
  ∃ i, 0 ≤ i < norb self ∧ skb2idx self s k b = Some i ∧
       (∀ mgr, wfc mgr = self → qty mgr !! Some i = None →
          __getitem__ mgr (PTuple [PInt s; PInt k; PInt b]) = Raise (KeyError (Some i))) ∧
       __getitem__ (psi_g self) (PTuple [PInt s; PInt k; PInt b]) = Raise (KeyError (Some i)) ∧
       __getitem__ (psi_r self) (PTuple [PInt s; PInt k; PInt b]) = Raise (KeyError (Some i)).
Proof.
  intros [_ Hinv]%init_Return Hv.
  pose proof Hv as Hv'. apply valid_triple_elem_of, list_elem_of_lookup_1 in Hv' as [j Hj].
  pose proof (lookup_lt_Some _ _ _ Hj) as Hlt.
  assert (skb2idx self s k b = Some (Z.of_nat j)) as Hi.
  { apply (skb2idx_Some self (s, k, b)); [done|].
    rewrite (inv_norb _ Hinv), Nat2Z.id. split; [lia | done]. }
  exists (Z.of_nat j). split; [rewrite (inv_norb _ Hinv); lia|]. split; [done|].
  assert (∀ mgr, wfc mgr = self → qty mgr !! Some (Z.of_nat j) = None →
            __getitem__ mgr (PTuple [PInt s; PInt k; PInt b])
            = Raise (KeyError (Some (Z.of_nat j)))) as Hget.
  { intros mgr Hwfc Hq. unfold __getitem__.
    assert (inclusive_bounds mgr s k b) as Hin.
    { destruct Hv as (? & ? & n & ? & ?). unfold inclusive_bounds.
      rewrite Hwfc. simpl in *. repeat split; try lia. exists n. split; [done | lia]. }
    rewrite (get_idx_in_bounds mgr (PInt s) (PInt k) (PInt b) [] s k b eq_refl eq_refl
               eq_refl Hin).
    rewrite Hwfc, Hi. simpl. by rewrite Hq. }
  split; [done|]. split; apply Hget; done.
Qed.

(** X3: [clear ()] empties the store and keeps its wavefunction and
    transform: afterwards [indices ()] is empty, a key written before is
    read with [KeyError], a second [clear ()] changes nothing, and a write
    behaves as on the store of the constructor. *)
Theorem clear_forgets_entries self key value self' idx :
  _get_idx self key = Return idx →
  __setitem__ self key value = Return self' →
  indices (clear self') = ∅ ∧
  __getitem__ (clear self') key = Raise (KeyError idx) ∧
  clear (clear self') = clear self' ∧
  clear self' = WfcManager_init (wfc self) (transform self) ∧
  ∀ key2 value2,
    __setitem__ (clear self') key2 value2
    = __setitem__ (WfcManager_init (wfc self) (transform self)) key2 value2.
Proof.
  intros Hidx Hset. unfold __setitem__ in Hset. rewrite Hidx in Hset. simpl in Hset.
  destruct (transform self value) as [w|]; [|done]. simpl in Hset. injection Hset as <-.
  split; [|split; [|done]].
  - unfold indices, clear. simpl. apply dom_empty_L.
  - unfold __getitem__. rewrite (get_idx_wfc self) by done.
    rewrite Hidx. simpl. by rewrite lookup_empty.
Qed.

(** X4: writing a second value under a key replaces the first: get returns
    the second transformed value, [indices ()] are those after the first
    write, and the entries are those of writing the second value alone. *)
Theorem overwrite_keeps_latest self self1 self2 key v1 v2 :
  __setitem__ self key v1 = Return self1 →
  __setitem__ self1 key v2 = Return self2 →
  ∃ w2 self2',
    transform self v2 = Return w2 ∧
    __getitem__ self2 key = Return w2 ∧
    indices self2 = indices self1 ∧
    __setitem__ self key v2 = Return self2' ∧ qty self2 = qty self2'.
Proof.
  unfold __setitem__.
  destruct (_get_idx self key) as [idx|] eqn:Hidx; [|done]. simpl.
  destruct (transform self v1) as [w1|]; [|done]. simpl. intros [= <-].
  rewrite (get_idx_wfc self) by done. rewrite Hidx. simpl.
  destruct (transform self v2) as [w2|]; [|done]. simpl. intros [= <-].
  exists w2. eexists. split; [done|]. split; [|split; [|split; [done|]]].
  - unfold __getitem__. rewrite (get_idx_wfc self) by done. rewrite Hidx. simpl.
    by rewrite lookup_insert_eq.
  - unfold indices. simpl. rewrite !dom_insert_L. set_solver.
  - simpl. by rewrite insert_insert_eq.
Qed.

(** Only the first three components of a tuple key are read. *)
Lemma tuple_tail_ignored self a b c rest value :
  _get_idx self (PTuple (a :: b :: c :: rest)) = _get_idx self (PTuple [a; b; c]) ∧
  __getitem__ self (PTuple (a :: b :: c :: rest)) = __getitem__ self (PTuple [a; b; c]) ∧
  __setitem__ self (PTuple (a :: b :: c :: rest)) value
  = __setitem__ self (PTuple [a; b; c]) value.
Proof.
  assert (_get_idx self (PTuple (a :: b :: c :: rest)) = _get_idx self (PTuple [a; b; c])) as H
    by done.
  split; [done|]. unfold __getitem__, __setitem__. by rewrite H.
Qed.

(** What [int] raises on a key or on a component. *)
Lemma py_int_Raise v e :
  py_int v = Raise e →
  e = TypeError Builtin ∨ (e = OverflowError Builtin ∧ ∃ neg, v = PInf neg) ∨
  (e = ValueError Builtin ∧ (v = PNaN ∨ ∃ s, v = PStr s)).
Proof.
  destruct v as [z|q|neg| |s| |l|items]; simpl; try done; try (intros [= <-]; eauto 6).
  destruct (int_of_str s); [done|]. intros [= <-]. eauto 6.
Qed.

Lemma component_Raise key i e :
  py_getitem key i ≫= py_int = Raise e →
  e = TypeError Builtin ∨ e = OverflowError Builtin ∨ e = ValueError Builtin ∨
  e = IndexError Builtin ∨
  (e = KeyError (Some (Z.of_nat i)) ∧ ∃ items, key = PDict items).
Proof.
  destruct (py_getitem key i) as [v|e'] eqn:Hv; simpl.
  - intros [?|[[? _]|[? _]]]%py_int_Raise; auto.
  - intros [= <-].
    destruct key as [z|q|neg| |s| |l|items]; simpl in Hv; try (injection Hv as <-; auto).
    + destruct (String.get i s); [done|]. injection Hv as <-. auto.
    + destruct (l !! i); [done|]. injection Hv as <-. auto.
    + destruct (list_find _ items) as [[? ?]|]; [done|]. injection Hv as <-. eauto 8.
Qed.

(** What the inner [try] raises before its handlers see it. *)
Lemma check_triple_Raise self key e :
  check_triple self key = Raise e →
  e = TypeError Builtin ∨ e = OverflowError Builtin ∨ e = ValueError Builtin ∨
  e = IndexError Builtin ∨ e = AssertionError NoMessage ∨
  (∃ i items, 0 ≤ i ≤ 2 ∧ e = KeyError (Some i) ∧ key = PDict items).
Proof.
  unfold check_triple.
  destruct (py_getitem key 0 ≫= py_int) as [s0|e0] eqn:H0; simpl.
  2:{ intros [= <-]. apply component_Raise in H0 as [?|[?|[?|[?|[? [items ?]]]]]]; auto 6.
      do 5 right. exists 0, items. split; [lia | done]. }
  destruct (py_getitem key 1 ≫= py_int) as [k0|e1] eqn:H1; simpl.
  2:{ intros [= <-]. apply component_Raise in H1 as [?|[?|[?|[?|[? [items ?]]]]]]; auto 6.
      do 5 right. exists 1, items. split; [lia | done]. }
  destruct (py_getitem key 2 ≫= py_int) as [b0|e2] eqn:H2; simpl.
  2:{ intros [= <-]. apply component_Raise in H2 as [?|[?|[?|[?|[? [items ?]]]]]]; auto 6.
      do 5 right. exists 2, items. split; [lia | done]. }
  unfold py_assert. repeat (case_bool_decide; simpl; try (intros [= <-]; by auto 6)).
  destruct (getitem2 _ s0 k0) as [n|e3] eqn:Hn; simpl.
  - case_bool_decide; simpl; [done|]. intros [= <-]. auto 6.
  - intros [= <-]. apply getitem2_Raise in Hn as ->. auto 6.
Qed.

(** X5: for a key that is an integer, a float (the infinities and nan
    included), a string, [None], a tuple of such values or a dict with
    integer keys, [_get_idx] raises nothing but the two errors of its
    handlers, the builtin [TypeError], [OverflowError] and [ValueError] of
    [int] that pass them (the last one only for a key that is a string or
    nan), and the [KeyError] of a dict key that lacks one of the entries 0,
    1, 2.  The key [None] and a string that is no integer literal are not
    reported as invalid keys: [None] fails with [TypeError], the string with
    the [ValueError] of [int]; an infinite key or first component fails with
    [OverflowError]; nan fails with the [ValueError] of [int] as a key and
    is reported as an invalid key as a first component; the empty dict
    fails with [KeyError]. *)
Theorem get_idx_errors self :
  (∀ key e, _get_idx self key = Raise e →
     e = InvalidKeyType ∨
     e = IndexOutOfRange (nspin (wfc self)) (nkpt (wfc self)) (nbnd (wfc self)) ∨
     e = TypeError Builtin ∨
     e = OverflowError Builtin ∨
     (e = ValueError Builtin ∧ (key = PNaN ∨ ∃ s, key = PStr s)) ∨
     (∃ i items, 0 ≤ i ≤ 2 ∧ e = KeyError (Some i) ∧ key = PDict items)) ∧
  _get_idx self PNone = Raise (TypeError Builtin) ∧
  (∀ s, int_of_str s = None → _get_idx self (PStr s) = Raise (ValueError Builtin)) ∧
  (∀ rest, _get_idx self (PTuple (PNone :: rest)) = Raise (TypeError Builtin)) ∧
  (∀ neg, _get_idx self (PInf neg) = Raise (OverflowError Builtin)) ∧
  _get_idx self PNaN = Raise (ValueError Builtin) ∧
  (∀ neg rest, _get_idx self (PTuple (PInf neg :: rest)) = Raise (OverflowError Builtin)) ∧
  (∀ rest, _get_idx self (PTuple (PNaN :: rest)) = Raise InvalidKeyType) ∧
  _get_idx self (PDict []) = Raise (KeyError (Some 0)).
Proof.
  split; [|split; [done|split; [|done]]].
  - intros key e. unfold _get_idx.
    destruct (py_int key) as [idx|e0] eqn:Hkey; [done|].
    apply py_int_Raise in Hkey as [-> | [[-> _] | [-> Hk]]].
    + destruct (check_triple self key) as [[[? ?] ?]|e1] eqn:Hc; [done|].
      apply check_triple_Raise in Hc as [-> | [-> | [-> | [-> | [-> | Hd]]]]];
        try (intros [= <-]; by auto 6).
      destruct Hd as (i & items & Hi & -> & ->). intros [= <-]. eauto 12.
    + intros [= <-]. auto.
    + intros [= <-]. do 4 right. left. done.
  - intros s Hs. unfold _get_idx. simpl. by rewrite Hs.
Qed.

(** The round trips of the index maps, from the invariant. *)
Lemma index_maps_bijection_aux self :
  index_inv self →
  (∀ s k b, valid_triple self (s, k, b) →
     ∃ i, 0 ≤ i < norb self ∧
          skb2idx self s k b = Some i ∧ idx2skb self i = Return (s, k, b)) ∧
  (∀ i, 0 ≤ i < norb self →
     ∃ s k b, valid_triple self (s, k, b) ∧
              idx2skb self i = Return (s, k, b) ∧ skb2idx self s k b = Some i).
Proof.
  intros Hinv. split.
  - intros s k b Hv. apply valid_triple_elem_of, list_elem_of_lookup_1 in Hv as [j Hj].
    pose proof (lookup_lt_Some _ _ _ Hj) as Hlt.
    exists (Z.of_nat j).
    assert (0 ≤ Z.of_nat j < norb self) as Hr by (rewrite (inv_norb _ Hinv); lia).
    split; [done|]. split.
    + apply (skb2idx_Some self (s, k, b)); [done|]. by rewrite Nat2Z.id.
    + apply idx2skb_Return; [done|]. rewrite Nat2Z.id. split; [lia | done].
  - intros i Hi. rewrite (inv_norb _ Hinv) in Hi.
    destruct (lookup_lt_is_Some_2 (triples (nspin self) (nkpt self) (nbnd self))
                (Z.to_nat i)) as [[[s k] b] Ht]; [lia|].
    exists s, k, b. split; [|split].
    + eapply valid_triple_elem_of, list_elem_of_lookup_2, Ht.
    + apply idx2skb_Return; [done|]. split; [lia | done].
    + apply (skb2idx_Some self (s, k, b)); [done|]. rewrite (inv_norb _ Hinv). done.
Qed.

(** ** Further properties of the index maps *)

Lemma triple_resolves self s k b :
  index_inv (wfc self) → valid_triple (wfc self) (s, k, b) →
  _get_idx self (PTuple [PInt s; PInt k; PInt b]) = Return (skb2idx (wfc self) s k b).
Proof.
  intros Hinv (Hs & Hk & n & Hn & Hb). simpl in *.
  apply (get_idx_in_bounds self (PInt s) (PInt k) (PInt b) [] s k b); try done.
  unfold inclusive_bounds. repeat split; try lia. exists n. split; [done | lia].
Qed.

Lemma set_get_same_index self key1 key2 idx value w :
  _get_idx self key1 = Return idx → _get_idx self key2 = Return idx →
  transform self value = Return w →
  ∃ self', __setitem__ self key1 value = Return self' ∧ __getitem__ self' key2 = Return w.
Proof.
  intros H1 H2 Hw.
  destruct (set_then_get self key1 value idx w H1 Hw) as (self' & Hset & Hwfc & _ & Hqty & _).
  exists self'. split; [done|]. unfold __getitem__.
  rewrite (get_idx_wfc self) by done. rewrite H2. simpl. by rewrite Hqty, lookup_insert_eq.
Qed.

Lemma set_get_other_index self self' key1 key2 idx1 idx2 value :
  _get_idx self key1 = Return idx1 → _get_idx self key2 = Return idx2 → idx1 ≠ idx2 →
  __setitem__ self key1 value = Return self' →
  __getitem__ self' key2 = __getitem__ self key2.
Proof.
  intros H1 H2 Hne. unfold __setitem__. rewrite H1. simpl.
  destruct (transform self value) as [w|]; [|done]. simpl. intros [= <-].
  unfold __getitem__. rewrite (get_idx_wfc self) by done. rewrite H2. simpl.
  by rewrite lookup_insert_ne.
Qed.

Lemma sorted_lookup_lt (l : list skb) i j t1 t2 :
  StronglySorted lex_lt l → l !! i = Some t1 → l !! j = Some t2 →
  (i < j)%nat → lex_lt t1 t2.
Proof.
  intros Hs Hi Hj Hlt. rewrite <- (take_drop_middle l j t2 Hj) in Hs.
  apply StronglySorted_app in Hs as (Hcross & _ & _).
  apply Hcross; [|by left]. apply elem_of_take. eauto.
Qed.

(** X6: the two addressing schemes reach the same entry: for a valid
    triple with internal index [i], a value written with the triple key is
    read with the integer key [i], and a value written with [i] is read with
    the triple key. *)
Theorem triple_and_index_same_entry
    sample0 wgrid0 dgrid0 nspin0 nkpt0 nbnd0 occ0 gamma0 self mgr s k b value w :
  __init__ sample0 wgrid0 dgrid0 nspin0 nkpt0 nbnd0 occ0 gamma0 = Return self →
  wfc mgr = self → valid_triple self (s, k, b) → transform mgr value = Return w →
  ∃ i, 0 ≤ i < norb self ∧ idx2skb self i = Return (s, k, b) ∧
    (∃ mgr', __setitem__ mgr (PTuple [PInt s; PInt k; PInt b]) value = Return mgr' ∧
             __getitem__ mgr' (PInt i) = Return w) ∧
    (∃ mgr', __setitem__ mgr (PInt i) value = Return mgr' ∧
             __getitem__ mgr' (PTuple [PInt s; PInt k; PInt b]) = Return w).
Proof.
  intros Hinit <- Hv Hw. pose proof Hinit as [_ Hinv]%init_Return.
  destruct (proj1 (index_maps_bijection_aux (wfc mgr) Hinv) s k b Hv) as (i & Hi & Hsi & His).
  exists i. split; [done|]. split; [done|].
  assert (_get_idx mgr (PTuple [PInt s; PInt k; PInt b]) = Return (Some i)) as Ht
    by (rewrite triple_resolves by done; by rewrite Hsi).
  split; by eapply set_get_same_index.
Qed.

(** X7: a write under one valid triple leaves the entry of every other
    valid triple as it was: get with the other triple returns, or fails,
    as before the write. *)
Theorem write_leaves_other_triples
    sample0 wgrid0 dgrid0 nspin0 nkpt0 nbnd0 occ0 gamma0 self mgr mgr' t1 t2 value :
  __init__ sample0 wgrid0 dgrid0 nspin0 nkpt0 nbnd0 occ0 gamma0 = Return self →
  wfc mgr = self → valid_triple self t1 → valid_triple self t2 → t1 ≠ t2 →
  __setitem__ mgr (PTuple [PInt t1.1.1; PInt t1.1.2; PInt t1.2]) value = Return mgr' →
  __getitem__ mgr' (PTuple [PInt t2.1.1; PInt t2.1.2; PInt t2.2])
  = __getitem__ mgr (PTuple [PInt t2.1.1; PInt t2.1.2; PInt t2.2]).
Proof.
  intros [_ Hinv]%init_Return <- Hv1 Hv2 Hne.
  destruct t1 as [[s1 k1] b1], t2 as [[s2 k2] b2]. simpl.
  apply (set_get_other_index mgr mgr' _ _ (skb2idx (wfc mgr) s1 k1 b1)
           (skb2idx (wfc mgr) s2 k2 b2)); try by apply triple_resolves.
  destruct (proj1 (index_maps_bijection_aux (wfc mgr) Hinv) s1 k1 b1 Hv1) as (i1 & _ & Hs1 & Hi1).
  destruct (proj1 (index_maps_bijection_aux (wfc mgr) Hinv) s2 k2 b2 Hv2) as (i2 & _ & Hs2 & Hi2).
  rewrite Hs1, Hs2. intros [= ->]. rewrite Hi1 in Hi2. by injection Hi2 as -> -> ->.
Qed.

(** X8: on a constructed wavefunction [skb2idx] returns [None] exactly on
    the triples that are not valid, and an index it returns lies in
    [[0, norb)]. *)
Theorem skb2idx_None_iff_invalid
    sample0 wgrid0 dgrid0 nspin0 nkpt0 nbnd0 occ0 gamma0 self :
  __init__ sample0 wgrid0 dgrid0 nspin0 nkpt0 nbnd0 occ0 gamma0 = Return self →
  ∀ s k b,
    (skb2idx self s k b = None ↔ ¬ valid_triple self (s, k, b)) ∧
    (∀ i, skb2idx self s k b = Some i → 0 ≤ i < norb self ∧ valid_triple self (s, k, b)).
Proof.
  intros [_ Hinv]%init_Return s k b. split; [split|].
  - intros Hnone Hv.
    destruct (proj1 (index_maps_bijection_aux self Hinv) s k b Hv) as (i & _ & Hsi & _).
    congruence.
  - by apply skb2idx_None.
  - intros i Hi. apply (skb2idx_Some self (s, k, b)) in Hi as [Hr Hl]; [|done].
    split; [done|]. eapply valid_triple_elem_of, list_elem_of_lookup_2, Hl.
Qed.

(** X9: on a constructed wavefunction [idx2skb] fails exactly outside
    [[0, norb)], with the [KeyError] of the index; a negative index does not
    count from the end. *)
Theorem idx2skb_KeyError_iff_out_of_range
    sample0 wgrid0 dgrid0 nspin0 nkpt0 nbnd0 occ0 gamma0 self :
  __init__ sample0 wgrid0 dgrid0 nspin0 nkpt0 nbnd0 occ0 gamma0 = Return self →
  ∀ i,
    (idx2skb self i = Raise (KeyError (Some i)) ↔ ¬ (0 ≤ i < norb self)) ∧
    (∀ e, idx2skb self i = Raise e → e = KeyError (Some i)) ∧
    (i < 0 → idx2skb self i = Raise (KeyError (Some i))).
Proof.
  intros [_ Hinv]%init_Return i.
  assert (idx2skb self i = Raise (KeyError (Some i)) ↔ ¬ (0 ≤ i < norb self)) as Hiff.
  { split.
    - intros Hraise Hi.
      destruct (proj2 (index_maps_bijection_aux self Hinv) i Hi) as (s & k & b & _ & Hr & _).
      congruence.
    - intros Hout. unfold idx2skb.
      destruct (idx_skb_map self !! i) as [t|] eqn:Ht; [|done].
      destruct Hout. rewrite (inv_idx_skb _ Hinv) in Ht.
      apply lookup_map_seqZ_Some in Ht as [Hi Ht]. apply lookup_lt_Some in Ht.
      rewrite (inv_norb _ Hinv). lia. }
  split; [done|]. split.
  - intros e. unfold idx2skb. destruct (idx_skb_map self !! i); [done|]. by intros [= <-].
  - intros Hneg. apply Hiff. lia.
Qed.

(** X10: the two dictionaries of a constructed wavefunction hold the same
    pairs, one reversed: [skb_idx_map[t] = i] exactly when
    [idx_skb_map[i] = t]. *)
Theorem index_maps_converse
    sample0 wgrid0 dgrid0 nspin0 nkpt0 nbnd0 occ0 gamma0 self :
  __init__ sample0 wgrid0 dgrid0 nspin0 nkpt0 nbnd0 occ0 gamma0 = Return self →
  ∀ t i, skb_idx_map self !! t = Some i ↔ idx_skb_map self !! i = Some t.
Proof.
  intros [_ Hinv]%init_Return t i.
  rewrite (inv_skb_idx _ Hinv), (inv_idx_skb _ Hinv), lookup_map_seqZ_Some, Z.sub_0_r.
  rewrite (inv_norb _ Hinv). split.
  - intros [Hi Ht]. split; [lia | done].
  - intros [Hi Ht]. split; [|done]. apply lookup_lt_Some in Ht. lia.
Qed.

(** X11: internal indices follow the spin, k-point, band order: of two
    valid triples the lexicographically smaller one has the smaller index. *)
Theorem index_order_is_lexicographic
    sample0 wgrid0 dgrid0 nspin0 nkpt0 nbnd0 occ0 gamma0 self t1 t2 i1 i2 :
  __init__ sample0 wgrid0 dgrid0 nspin0 nkpt0 nbnd0 occ0 gamma0 = Return self →
  skb2idx self t1.1.1 t1.1.2 t1.2 = Some i1 →
  skb2idx self t2.1.1 t2.1.2 t2.2 = Some i2 →
  (lex_lt t1 t2 ↔ i1 < i2) ∧ (t1 = t2 ↔ i1 = i2).
Proof.
  intros [_ Hinv]%init_Return [Hr1 H1]%skb2idx_Some [Hr2 H2]%skb2idx_Some; try done.
  pose proof (StronglySorted_triples (nspin self) (nkpt self) (nbnd self)) as Hs.
  assert (i1 < i2 → lex_lt t1 t2) as Hlt12
    by (intros; eapply (sorted_lookup_lt _ (Z.to_nat i1) (Z.to_nat i2)); eauto; lia).
  assert (i2 < i1 → lex_lt t2 t1) as Hlt21
    by (intros; eapply (sorted_lookup_lt _ (Z.to_nat i2) (Z.to_nat i1)); eauto; lia).
  assert (i1 = i2 → t1 = t2) as Heq by (intros ->; congruence).
  split; split.
  - intros Hlt. destruct (Z.lt_total i1 i2) as [?|[->%Heq|Hgt%Hlt21]]; [done|..].
    + by destruct (lex_lt_asym t2 t2).
    + by destruct (lex_lt_asym t1 t2).
  - done.
  - intros ->. destruct (Z.lt_total i1 i2) as [Hl%Hlt12|[?|Hg%Hlt21]]; [|done|];
      by destruct (lex_lt_asym t2 t2).
  - done.
Qed.

(** ** One band count for every channel *)

Lemma lookup_bind_blocks {B} (f : Z → list B) (len m : nat) :
  (∀ i, (i < m)%nat → length (f (Z.of_nat i)) = len) →
  length (seqZ 0 (Z.of_nat m) ≫= f) = (m * len)%nat ∧
  ∀ i j, (i < m)%nat → (j < len)%nat →
    (seqZ 0 (Z.of_nat m) ≫= f) !! (i * len + j)%nat = f (Z.of_nat i) !! j.
Proof.
  induction m as [|m IH]; intros Hlen.
  - split; [done|]. intros; lia.
  - destruct IH as [IHlen IHlk]; [intros; apply Hlen; lia|].
    rewrite seqZ_S, bind_app, bind_singleton, Z.add_0_l. split.
    + rewrite length_app, IHlen, Hlen by lia. lia.
    + intros i j Hi Hj. destruct (decide (i = m)) as [->|Hne].
      * rewrite lookup_app_r by (rewrite IHlen; lia). rewrite IHlen. f_equal. lia.
      * rewrite lookup_app_l by (rewrite IHlen; nia). apply IHlk; lia.
Qed.

Lemma triples_uniform nspin n :
  0 ≤ nspin →
  triples nspin 1 (replicate (Z.to_nat nspin) [n])
  = seqZ 0 nspin ≫= (λ s, (λ b, (s, 0, b)) <$> seqZ 0 n).
Proof.
  intros Hns. unfold triples, ndindex, range. rewrite list_bind_assoc.
  apply Forall_bind_ext, Forall_forall. intros s Hs%elem_of_seqZ.
  change (seqZ 0 1) with [0]. simpl. rewrite app_nil_r.
  unfold bands. simpl. rewrite getitem2_lookup by lia.
  rewrite lookup_replicate_2 by lia. done.
Qed.

(** X12: when [nbnd] is given as one integer [n >= 0], the maps have a
    closed form: [norb = nspin * n], the triple [(s, 0, b)] has the index
    [s * n + b], and the index [i] has the triple [(i / n, 0, i mod n)]. *)
Theorem uniform_bands_closed_form sample0 wgrid0 dgrid0 nspin0 nkpt0 n occ0 gamma0 self :
  __init__ sample0 wgrid0 dgrid0 nspin0 nkpt0 (nbnd_int n) occ0 gamma0 = Return self →
  0 ≤ n →
  norb self = nspin0 * n ∧
  (∀ s b, 0 ≤ s < nspin0 → 0 ≤ b < n → skb2idx self s 0 b = Some (s * n + b)) ∧
  (∀ i, 0 ≤ i < nspin0 * n → idx2skb self i = Return (i / n, 0, i mod n)).
Proof.
  intros [Hbf Hinv]%init_Return Hn.
  pose proof (inv_shape _ Hinv) as (Hns & _).
  pose proof (built_from_nbnd _ _ _ _ _ _ _ _ _ Hbf) as Hnb. simpl in Hnb.
  assert (nkpt0 = 1) as -> by (by rewrite <- (bf_nkpt _ _ _ _ _ _ _ _ _ Hbf), (inv_nkpt _ Hinv)).
  rewrite (bf_nspin _ _ _ _ _ _ _ _ _ Hbf) in Hns.
  assert (triples (nspin self) (nkpt self) (nbnd self)
          = seqZ 0 nspin0 ≫= (λ s, (λ b, (s, 0, b)) <$> seqZ 0 n)) as Ht.
  { rewrite (bf_nspin _ _ _ _ _ _ _ _ _ Hbf), (bf_nkpt _ _ _ _ _ _ _ _ _ Hbf), Hnb.
    by apply triples_uniform. }
  destruct (lookup_bind_blocks (λ s, (λ b, (s, 0, b)) <$> seqZ 0 n)
              (Z.to_nat n) (Z.to_nat nspin0)) as [Hlen Hlk].
  { intros i _. by rewrite length_fmap, length_seqZ. }
  rewrite Z2Nat.id in Hlen, Hlk by done.
  assert (norb self = nspin0 * n) as Hnorb.
  { rewrite (inv_norb _ Hinv), Ht, Hlen. lia. }
  assert (∀ s b, 0 ≤ s < nspin0 → 0 ≤ b < n →
            triples (nspin self) (nkpt self) (nbnd self) !! Z.to_nat (s * n + b)
            = Some (s, 0, b)) as Hpos.
  { intros s b Hs Hb. rewrite Ht.
    replace (Z.to_nat (s * n + b)) with (Z.to_nat s * Z.to_nat n + Z.to_nat b)%nat by nia.
    rewrite Hlk by lia. rewrite Z2Nat.id by lia.
    rewrite list_lookup_fmap, lookup_seqZ_lt by lia. simpl. do 3 f_equal. lia. }
  split; [done|]. split.
  - intros s b Hs Hb. apply (skb2idx_Some self (s, 0, b)); [done|].
    split; [nia | by apply Hpos].
  - intros i Hi. assert (0 < n) by nia.
    apply idx2skb_Return; [done|]. split; [lia|].
    rewrite (Z.div_mod i n) at 1 by lia. rewrite (Z.mul_comm n).
    apply Hpos.
    + split; [apply Z.div_pos; lia | apply Z.div_lt_upper_bound; lia].
    + apply Z.mod_pos_bound. lia.
Qed.

(** ** The bounds a triple key has to meet *)

(** X13: on a store of a constructed wavefunction a triple key of integers
    is accepted exactly when [0 <= spin < nspin], [0 <= kpt < nkpt] and
    [0 <= band <= nbnd[spin, kpt]]: the array lookup rejects a spin equal to
    [nspin] and a k-point equal to [nkpt], which the assertions let pass, and
    only the band may equal its count.  A rejected triple fails with the
    index-out-of-range error. *)
Theorem triple_key_accepted_iff
    sample0 wgrid0 dgrid0 nspin0 nkpt0 nbnd0 occ0 gamma0 self mgr s k b :
  __init__ sample0 wgrid0 dgrid0 nspin0 nkpt0 nbnd0 occ0 gamma0 = Return self →
  wfc mgr = self →
  let key := PTuple [PInt s; PInt k; PInt b] in
  let accepted := 0 ≤ s < nspin self ∧ 0 ≤ k < nkpt self ∧
                  ∃ n, getitem2 (nbnd self) s k = Return n ∧ 0 ≤ b ≤ n in
  (accepted → _get_idx mgr key = Return (skb2idx self s k b)) ∧
  (¬ accepted →
     _get_idx mgr key = Raise (IndexOutOfRange (nspin self) (nkpt self) (nbnd self))) ∧
  (s = nspin self ∨ k = nkpt self → ¬ accepted).
Proof.
  intros [_ Hinv]%init_Return <- key accepted.
  pose proof (inclusive_bounds_constructed mgr s k b Hinv) as Hiff.
  split; [|split].
  - intros Hacc. by apply (get_idx_in_bounds mgr _ _ _ [] s k b), Hiff.
  - intros Hrej. apply (get_idx_out_of_bounds mgr _ _ _ [] s k b); try done.
    by rewrite Hiff.
  - intros [-> | ->] (? & ? & _); lia.
Qed.

(** X14: writes with valid triples or with integers of [[0, norb)] keep the
    keys of a store among the internal indices: if every key of [indices ()]
    is an integer of [[0, norb)] before such a write, so it is after. *)
Theorem valid_writes_keep_indices_in_range
    sample0 wgrid0 dgrid0 nspin0 nkpt0 nbnd0 occ0 gamma0 self mgr mgr' key value :
  __init__ sample0 wgrid0 dgrid0 nspin0 nkpt0 nbnd0 occ0 gamma0 = Return self →
  wfc mgr = self →
  (∀ idx, idx ∈ indices mgr → ∃ i, idx = Some i ∧ 0 ≤ i < norb self) →
  (∃ s k b, key = PTuple [PInt s; PInt k; PInt b] ∧ valid_triple self (s, k, b)) ∨
  (∃ i, key = PInt i ∧ 0 ≤ i < norb self) →
  __setitem__ mgr key value = Return mgr' →
  ∀ idx, idx ∈ indices mgr' → ∃ i, idx = Some i ∧ 0 ≤ i < norb self.
Proof.
  intros [_ Hinv]%init_Return <- Hrange Hkey Hset.
  assert (∃ i, _get_idx mgr key = Return (Some i) ∧ 0 ≤ i < norb (wfc mgr)) as (i & Hidx & Hi).
  { destruct Hkey as [(s & k & b & -> & Hv) | (i & -> & Hi)]; [|by exists i].
    destruct (proj1 (index_maps_bijection_aux _ Hinv) s k b Hv) as (i & Hi & Hsi & _).
    exists i. split; [|done]. rewrite triple_resolves by done. by rewrite Hsi. }
  unfold __setitem__ in Hset. rewrite Hidx in Hset. simpl in Hset.
  destruct (transform mgr value) as [w|]; [|done]. simpl in Hset. injection Hset as <-.
  intros idx. unfold indices. simpl. rewrite dom_insert_L, elem_of_union, elem_of_singleton.
  intros [-> | Hin]; [by exists i | by apply Hrange].
Qed.

(** ** Arguments the constructor refuses *)

Lemma forallb_Forall {A} (f : A → bool) (P : A → Prop) (l : list A) :
  (∀ x, f x = true ↔ P x) → forallb f l = true ↔ Forall P l.
Proof.
  intros Hf. induction l as [|x l IH]; simpl.
  - split; [constructor | done].
  - by rewrite andb_true_iff, Forall_cons, IH, Hf.
Qed.

Lemma in_int64_iff (z : Z) : in_int64 z = true ↔ int64_min ≤ z ≤ int64_max.
Proof. unfold in_int64. by rewrite bool_decide_eq_true. Qed.

Lemma forallb_in_int64 (a : list (list Z)) :
  forallb (forallb in_int64) a = true ↔
  Forall (Forall (λ n, int64_min ≤ n ≤ int64_max)) a.
Proof.
  apply forallb_Forall. intros row. apply forallb_Forall. intros n. apply in_int64_iff.
Qed.

(** X15: with [nkpt = 1], a nested list [nbnd] of rows of one length whose
    entries lie within int64 and whose shape is not [(nspin, 1)] fails the
    shape assertion (an [AssertionError] without a message, not the k-point
    error), and so does the empty list; a nested list of rows of one length
    with an entry outside int64 fails with [OverflowError], whatever its
    shape; an integer [nbnd] with a negative [nspin] fails with
    [ValueError], and one outside int64 with [OverflowError] when [nspin]
    is not negative; a nested list the constructor accepts is stored as it
    is, has the shape [(nspin, 1)] and its entries lie within int64. *)
Theorem nbnd_shape_checked sample0 wgrid0 dgrid0 nspin0 occ0 gamma0 :
  (∀ a r c, np_shape a = Rank2 r c →
     Forall (Forall (λ n, int64_min ≤ n ≤ int64_max)) a →
     ¬ (r = nspin0 ∧ c = 1) →
     __init__ sample0 wgrid0 dgrid0 nspin0 1 (nbnd_list a) occ0 gamma0
     = Raise (AssertionError NoMessage)) ∧
  (∀ a r c, np_shape a = Rank2 r c →
     ¬ Forall (Forall (λ n, int64_min ≤ n ≤ int64_max)) a →
     __init__ sample0 wgrid0 dgrid0 nspin0 1 (nbnd_list a) occ0 gamma0
     = Raise (OverflowError Builtin)) ∧
  __init__ sample0 wgrid0 dgrid0 nspin0 1 (nbnd_list []) occ0 gamma0
  = Raise (AssertionError NoMessage) ∧
  (∀ n, nspin0 < 0 →
     __init__ sample0 wgrid0 dgrid0 nspin0 1 (nbnd_int n) occ0 gamma0
     = Raise (ValueError Builtin)) ∧
  (∀ n, 0 ≤ nspin0 → ¬ int64_min ≤ n ≤ int64_max →
     __init__ sample0 wgrid0 dgrid0 nspin0 1 (nbnd_int n) occ0 gamma0
     = Raise (OverflowError Builtin)) ∧
  (∀ a self,
     __init__ sample0 wgrid0 dgrid0 nspin0 1 (nbnd_list a) occ0 gamma0 = Return self →
     nbnd self = a ∧ np_shape a = Rank2 nspin0 1 ∧
     Forall (Forall (λ n, int64_min ≤ n ≤ int64_max)) a).
Proof.
  split; [|split; [|split; [done|split; [|split]]]].
  - intros a r c Hsh Hin%forallb_in_int64 Hne. unfold __init__. simpl.
    rewrite Hsh, Hin. unfold py_assert. by rewrite bool_decide_false.
  - intros a r c Hsh Hout. unfold __init__. simpl. rewrite Hsh.
    destruct (forallb (forallb in_int64) a) eqn:Hin; [|done].
    by apply forallb_in_int64 in Hin.
  - intros n Hns. unfold __init__. simpl. unfold np_ones_times.
    by rewrite bool_decide_false by lia.
  - intros n Hns Hout. unfold __init__. simpl. unfold np_ones_times.
    rewrite bool_decide_true by lia.
    destruct (in_int64 n) eqn:Hin; [|done]. by apply in_int64_iff in Hin.
  - intros a self [Hbf _]%init_Return.
    pose proof (bf_nbnd _ _ _ _ _ _ _ _ _ Hbf) as Hnb.
    apply init_nbnd_list_Return in Hnb as (-> & Hsh & Hin).
    split; [done|]. split; [done|]. by apply forallb_in_int64.
Qed.

(** ** The rows of per-channel occupation numbers *)

Lemma slice_stop_le len n : (slice_stop len n ≤ len)%nat.
Proof. unfold slice_stop. case_bool_decide; lia. Qed.

Lemma assign_slice_rest row0 stop rhs row :
  assign_slice row0 stop rhs = Return row →
  length row = length row0 ∧
  ∀ b, (slice_stop (length row0) stop ≤ b)%nat → row !! b = row0 !! b.
Proof.
  unfold assign_slice. pose proof (slice_stop_le (length row0) stop) as Hle.
  set (n := slice_stop (length row0) stop) in *.
  assert (∀ front : list scalar, length front = n →
            length (front ++ drop n row0) = length row0 ∧
            ∀ b, (n ≤ b)%nat → (front ++ drop n row0) !! b = row0 !! b) as Hfront.
  { intros front Hf. split; [rewrite length_app, length_drop; lia|].
    intros b Hb. rewrite lookup_app_r by lia. rewrite lookup_drop. f_equal. lia. }
  case_bool_decide as Hlen.
  - intros [= <-]. apply Hfront. by rewrite length_fmap.
  - destruct rhs as [|x [|y rhs]]; try done. intros [= <-].
    apply Hfront. by rewrite length_replicate.
Qed.

(** The row a channel holds after the loops of lines 113-116. *)
Lemma init_occ_3d_rows nspin nbnd a o :
  has_shape nbnd nspin 1 →
  init_occ nspin 1 nbnd (occ_3d a) = Return o →
  ∃ mx, np_max nbnd = Return mx ∧ 0 ≤ mx ∧
    ∀ s, 0 ≤ s < nspin →
      ∃ nb src row,
        getitem2 nbnd s 0 = Return nb ∧ nb ≤ mx ∧ getitem2 a s 0 = Return src ∧
        getitem2 o s 0 = Return row ∧
        assign_slice (replicate (Z.to_nat mx) (SInt 0)) nb
          (take (slice_stop (length src) nb) src) = Return row.
Proof.
  intros Hsh. unfold init_occ.
  destruct (np_max nbnd) as [mx|] eqn:Hmx; [|done]. simpl.
  case_bool_decide as Hmx0; [|done]. simpl.
  destruct Hsh as (Hns & _ & _ & _).
  rewrite <- (Z2Nat.id nspin) at 1 by done.
  intros (Hlen & _ & Hdone)%occ_loop_spec.
  exists mx. split; [done|]. split; [done|]. intros s Hs.
  destruct (Hdone (Z.to_nat s) [replicate (Z.to_nat mx) (SInt 0)])
    as (row0 & nb & src & row & Hrow0 & Hnb & Hsrc & Hrow & Ho); [lia|..].
  { apply lookup_replicate_2. lia. }
  rewrite Z2Nat.id in Hnb, Hsrc by lia. simpl in Hrow0. injection Hrow0 as <-.
  exists nb, src, row. split; [done|].
  split; [by apply (np_max_ge nbnd mx s 0 nb Hmx ltac:(lia) ltac:(lia))|].
  split; [done|]. split; [|done].
  rewrite getitem2_lookup by lia. by rewrite Ho.
Qed.

(** X16: given per channel, the stored occupation numbers of every channel
    are a row of [max(nbnd)] entries, and the entries from the channel's own
    band count on are the integer zero. *)
Theorem occ_rows_zero_padded sample0 wgrid0 dgrid0 nspin0 nkpt0 nbnd0 a gamma0 self :
  __init__ sample0 wgrid0 dgrid0 nspin0 nkpt0 nbnd0 (occ_3d a) gamma0 = Return self →
  ∃ mx, np_max (nbnd self) = Return mx ∧
    ∀ s k, 0 ≤ s < nspin0 → 0 ≤ k < nkpt0 →
      ∃ nb row,
        getitem2 (nbnd self) s k = Return nb ∧ getitem2 (occ self) s k = Return row ∧
        Z.of_nat (length row) = mx ∧
        (0 ≤ nb → ∀ b, nb ≤ b < mx → row !! Z.to_nat b = Some (SInt 0)).
Proof.
  intros [Hbf Hinv]%init_Return.
  pose proof (inv_shape _ Hinv) as Hsh. pose proof (bf_occ _ _ _ _ _ _ _ _ _ Hbf) as Hocc.
  rewrite (bf_nspin _ _ _ _ _ _ _ _ _ Hbf), (bf_nkpt _ _ _ _ _ _ _ _ _ Hbf) in Hsh.
  assert (nkpt0 = 1) as -> by (by rewrite <- (bf_nkpt _ _ _ _ _ _ _ _ _ Hbf), (inv_nkpt _ Hinv)).
  destruct (init_occ_3d_rows _ _ _ _ Hsh Hocc) as (mx & Hmx & Hmx0 & Hrows).
  exists mx. split; [done|]. intros s k Hs Hk. assert (k = 0) as -> by lia.
  destruct (Hrows s Hs) as (nb & src & row & Hnb & Hle & _ & Hrow & Hassign).
  exists nb, row. split; [done|]. split; [done|].
  apply assign_slice_rest in Hassign as [Hlen Hrest]. rewrite length_replicate in Hlen, Hrest.
  split; [lia|]. intros Hnb0 b Hb. rewrite Hrest.
  - apply lookup_replicate_2. lia.
  - unfold slice_stop. rewrite bool_decide_false by lia. lia.
Qed.

(** X17: given per channel, the constructor returns only if every channel
    is supplied with at least as many values as it has bands, or with
    exactly one; one supplied value is written to every band of the channel
    (numpy broadcasts it), after conversion to int64: truncation toward
    zero for a float, and the least int64 where the truncation leaves
    int64. *)
Theorem occ_rows_long_enough_or_broadcast
    sample0 wgrid0 dgrid0 nspin0 nkpt0 nbnd0 a gamma0 self :
  __init__ sample0 wgrid0 dgrid0 nspin0 nkpt0 nbnd0 (occ_3d a) gamma0 = Return self →
  ∀ s k, 0 ≤ s < nspin0 → 0 ≤ k < nkpt0 →
    ∃ nb src row,
      getitem2 (nbnd self) s k = Return nb ∧ getitem2 a s k = Return src ∧
      getitem2 (occ self) s k = Return row ∧
      (0 ≤ nb → nb ≤ Z.of_nat (length src) ∨ length src = 1%nat) ∧
      (∀ x, src = [x] → int64_elem x →
         ∀ b, 0 ≤ b < nb → row !! Z.to_nat b = Some (astype_int x)) ∧
      (∀ q, src = [SFloat q] →
         ∀ b, 0 ≤ b < nb →
           row !! Z.to_nat b
           = Some (SInt (if bool_decide (int64_min ≤ trunc q ≤ int64_max)
                         then trunc q else - 2 ^ 63))).
Proof.
  intros [Hbf Hinv]%init_Return s k Hs Hk.
  pose proof (inv_shape _ Hinv) as Hsh. pose proof (bf_occ _ _ _ _ _ _ _ _ _ Hbf) as Hocc.
  rewrite (bf_nspin _ _ _ _ _ _ _ _ _ Hbf), (bf_nkpt _ _ _ _ _ _ _ _ _ Hbf) in Hsh.
  assert (nkpt0 = 1) as -> by (by rewrite <- (bf_nkpt _ _ _ _ _ _ _ _ _ Hbf), (inv_nkpt _ Hinv)).
  assert (k = 0) as -> by lia.
  destruct (init_occ_3d_rows _ _ _ _ Hsh Hocc) as (mx & Hmx & Hmx0 & Hrows).
  destruct (Hrows s Hs) as (nb & src & row & Hnb & Hle & Hsrc & Hrow & Hassign).
  exists nb, src, row. split; [done|]. split; [done|]. split; [done|].
  unfold assign_slice in Hassign. rewrite length_replicate in Hassign. split.
  - intros Hnb0. revert Hassign. unfold slice_stop. rewrite !(bool_decide_false (nb < 0)) by lia.
    case_bool_decide as Hlen.
    + intros _. rewrite length_take in Hlen. lia.
    + destruct (take _ src) as [|x [|y r]] eqn:Htake; try done. intros _.
      assert (length (take (Z.to_nat (Z.min nb (Z.of_nat (length src)))) src) = 1%nat) as Hl
        by (by rewrite Htake).
      rewrite length_take in Hl. lia.
  - assert (∀ x, src = [x] → ∀ b, 0 ≤ b < nb → row !! Z.to_nat b = Some (astype_int x))
      as Hone.
    { intros x -> b Hb. revert Hassign. unfold slice_stop.
      rewrite !(bool_decide_false (nb < 0)) by lia.
      simpl. replace (Z.to_nat (Z.min nb (Z.of_nat 1))) with 1%nat by lia. simpl.
      case_bool_decide as Hlen.
      + intros [= <-]. assert (b = 0) as -> by lia. done.
      + intros [= <-]. rewrite lookup_app_l by (rewrite length_replicate; lia).
        apply lookup_replicate_2. lia. }
    split; [intros x Hx _; by apply Hone|].
    intros q Hq b Hb. by rewrite (Hone _ Hq b Hb).
Qed.

(** ** Keys that resolve to [None] share one entry *)

Lemma boundary_resolves_None self s n :
  index_inv (wfc self) → 0 ≤ s < nspin (wfc self) →
  getitem2 (nbnd (wfc self)) s 0 = Return n → 0 ≤ n →
  _get_idx self (PTuple [PInt s; PInt 0; PInt n]) = Return None.
Proof.
  intros Hinv Hs Hn Hpos. pose proof (inv_nkpt _ Hinv) as Hk.
  assert (inclusive_bounds self s 0 n) as Hin.
  { unfold inclusive_bounds. repeat split; try lia. exists n. split; [done | lia]. }
  rewrite (get_idx_in_bounds self (PInt s) (PInt 0) (PInt n) [] s 0 n eq_refl eq_refl
             eq_refl Hin).
  f_equal. apply skb2idx_None; [done|].
  intros (_ & _ & n' & Hn' & Hlt). simpl in *. rewrite Hn in Hn'. simplify_eq. lia.
Qed.

(** X18: the keys [(s, 0, nbnd[s, 0])] of all spins resolve to the one
    dictionary key [None]: a value written with the key of one spin is
    replaced by a write with the key of another spin, and read back with
    the key of the first. *)
Theorem boundary_keys_collide
    sample0 wgrid0 dgrid0 nspin0 nkpt0 nbnd0 occ0 gamma0 self mgr mgr1 mgr2
    s1 s2 n1 n2 v1 v2 :
  __init__ sample0 wgrid0 dgrid0 nspin0 nkpt0 nbnd0 occ0 gamma0 = Return self →
  wfc mgr = self →
  0 ≤ s1 < nspin self → getitem2 (nbnd self) s1 0 = Return n1 → 0 ≤ n1 →
  0 ≤ s2 < nspin self → getitem2 (nbnd self) s2 0 = Return n2 → 0 ≤ n2 →
  __setitem__ mgr (PTuple [PInt s1; PInt 0; PInt n1]) v1 = Return mgr1 →
  __setitem__ mgr1 (PTuple [PInt s2; PInt 0; PInt n2]) v2 = Return mgr2 →
  ∃ w2, transform mgr v2 = Return w2 ∧
        __getitem__ mgr2 (PTuple [PInt s1; PInt 0; PInt n1]) = Return w2 ∧
        indices mgr2 = {[None]} ∪ indices mgr.
Proof.
  intros [_ Hinv]%init_Return <- Hs1 Hn1 Hp1 Hs2 Hn2 Hp2.
  pose proof (boundary_resolves_None mgr s1 n1 Hinv Hs1 Hn1 Hp1) as H1.
  pose proof (boundary_resolves_None mgr s2 n2 Hinv Hs2 Hn2 Hp2) as H2.
  unfold __setitem__. rewrite H1. simpl.
  destruct (transform mgr v1) as [w1|]; [|done]. simpl. intros [= <-].
  rewrite (get_idx_wfc mgr) by done. rewrite H2. simpl.
  destruct (transform mgr v2) as [w2|]; [|done]. simpl. intros [= <-].
  exists w2. split; [done|]. split.
  - unfold __getitem__. rewrite (get_idx_wfc mgr) by done. rewrite H1. simpl.
    by rewrite lookup_insert_eq.
  - unfold indices. simpl. rewrite !dom_insert_L. set_solver.
Qed.

End Wfc.

Example decimal_literal_examples :
  decimal_literal "12" = Some 12 ∧ decimal_literal " -1_000 " = Some (-1000) ∧
  decimal_literal "abc" = None ∧ decimal_literal "" = None ∧
  decimal_literal "1__0" = None ∧ decimal_literal "1.5" = None ∧
  decimal_literal (String (ascii_of_nat 9) "12") = Some 12 ∧
  decimal_literal (String (ascii_of_nat 28) "12") = None.
Proof. by vm_compute. Qed.

(** ** The theorems at concrete inputs

    The wavefunctions of the examples live on a grid of shape (2, 2, 2)
    with 8 points, in a cell of volume 8; most have two spins and three
    bands per channel.  Floats are interpreted by [symbolic_ops] and
    strings by [decimal_literal]. *)

#[local] Existing Instance symbolic_ops.

Lemma index_maps_bijection_witness :
  ∃ self,
    __init__ {| omega := Lit 8 |} {| n1 := 2; n2 := 2; n3 := 2; grid_N := 8 |}
      {| n1 := 2; n2 := 2; n3 := 2; grid_N := 8 |} 2 1 (nbnd_list [[3]; [2]])
      (occ_1d [SInt 2; SInt 2; SInt 2]) true = Return self ∧
    nspin self = 2 ∧ nkpt self = 1 ∧ nbnd self = [[3]; [2]] ∧
    valid_for 2 1 (nbnd_list [[3]; [2]]) (1, 0, 1) ∧
    (∃ i, 0 ≤ i < norb self ∧
          skb2idx self 1 0 1 = Some i ∧ idx2skb self i = Return (1, 0, 1)) ∧
    (∃ s k b, valid_for 2 1 (nbnd_list [[3]; [2]]) (s, k, b) ∧
              idx2skb self 4 = Return (s, k, b) ∧ skb2idx self s k b = Some 4) ∧
    (∀ i, 0 ≤ i < norb self →
       ∃ s k b, valid_for 2 1 (nbnd_list [[3]; [2]]) (s, k, b) ∧
                idx2skb self i = Return (s, k, b) ∧ skb2idx self s k b = Some i).
Proof.
  eexists. split; [vm_compute; reflexivity|].
  match goal with |- nspin ?w = _ ∧ _ => set (self := w) end.
  assert (__init__ {| omega := Lit 8 |} {| n1 := 2; n2 := 2; n3 := 2; grid_N := 8 |}
            {| n1 := 2; n2 := 2; n3 := 2; grid_N := 8 |} 2 1 (nbnd_list [[3]; [2]])
            (occ_1d [SInt 2; SInt 2; SInt 2]) true = Return self) as Hself
    by (vm_compute; reflexivity).
  assert (valid_for 2 1 (nbnd_list [[3]; [2]]) (1, 0, 1)) as Hv.
  { repeat split; try (vm_compute; congruence). exists 2. by vm_compute. }
  destruct (index_maps_bijection _ _ _ _ _ _ _ _ _ Hself)
    as (Hns & Hnk & Hnb & Hfwd & Hbwd).
  split; [exact Hns|]. split; [exact Hnk|]. split; [exact Hnb|]. split; [exact Hv|].
  split; [exact (Hfwd 1 0 1 Hv)|].
  split; [|exact Hbwd].
  apply Hbwd. split; vm_compute; congruence.
Defined.

Lemma index_counts_preceding_witness :
  ∃ self,
    __init__ {| omega := Lit 8 |} {| n1 := 2; n2 := 2; n3 := 2; grid_N := 8 |}
      {| n1 := 2; n2 := 2; n3 := 2; grid_N := 8 |} 2 1 (nbnd_list [[3]; [2]])
      (occ_1d [SInt 2; SInt 2; SInt 2]) true = Return self ∧
    nspin self = 2 ∧ nkpt self = 1 ∧ nbnd self = [[3]; [2]] ∧
    valid_for 2 1 (nbnd_list [[3]; [2]]) (1, 0, 1) ∧
    (∃ prec : list skb,
       NoDup prec ∧
       (∀ t', t' ∈ prec ↔ valid_for 2 1 (nbnd_list [[3]; [2]]) t' ∧ lex_lt t' (1, 0, 1)) ∧
       skb2idx self 1 0 1 = Some (Z.of_nat (length prec)) ∧
       Z.of_nat (length prec) < norb self) ∧
    skb2idx self 1 0 1 = Some 4 ∧
    norb self = 5.
Proof.
  eexists. split; [vm_compute; reflexivity|].
  match goal with |- nspin ?w = _ ∧ _ => set (self := w) end.
  assert (__init__ {| omega := Lit 8 |} {| n1 := 2; n2 := 2; n3 := 2; grid_N := 8 |}
            {| n1 := 2; n2 := 2; n3 := 2; grid_N := 8 |} 2 1 (nbnd_list [[3]; [2]])
            (occ_1d [SInt 2; SInt 2; SInt 2]) true = Return self) as Hself
    by (vm_compute; reflexivity).
  assert (valid_for 2 1 (nbnd_list [[3]; [2]]) (1, 0, 1)) as Hv.
  { repeat split; try (vm_compute; congruence). exists 2. by vm_compute. }
  destruct (proj1 index_counts_preceding _ _ _ _ _ _ _ _ _ Hself)
    as (Hns & Hnk & Hnb & Hprec & _ & Hsum).
  split; [exact Hns|]. split; [exact Hnk|]. split; [exact Hnb|]. split; [exact Hv|].
  split; [exact (Hprec 1 0 1 Hv)|].
  split; [reflexivity|].
  etransitivity; [apply Hsum | reflexivity].
  repeat constructor; by vm_compute.
Defined.

Lemma set_get_transform_witness :
  ∃ self,
    __init__ {| omega := Lit 8 |} {| n1 := 2; n2 := 2; n3 := 2; grid_N := 8 |}
      {| n1 := 2; n2 := 2; n3 := 2; grid_N := 8 |} 2 1 (nbnd_int 3)
      (occ_1d [SInt 2; SInt 2; SInt 2]) true = Return self ∧
    ∃ mgr',
      __setitem__ decimal_literal (psi_r self) (PTuple [PInt 1; PInt 0; PInt 2])
        {| shape := [2; 2; 2]; data := replicate 8 (Lit 1) |} = Return mgr' ∧
      __getitem__ decimal_literal mgr' (PTuple [PInt 1; PInt 0; PInt 2])
      = Return {| shape := [2; 2; 2];
                  data := replicate 8
                    (Div (Lit 1)
                       (Sqrt (DivInt (Mul (Sum (replicate 8 (Square (Abs (Lit 1)))))
                                          (Lit 8)) 8))) |}.
Proof.
  eexists. split; [vm_compute; reflexivity|].
  match goal with |- context [psi_r ?w] => set (self := w) end.
  assert (_get_idx decimal_literal
            {| wfc := self; qty := ∅; transform := normalize self |}
            (PTuple [PInt 1; PInt 0; PInt 2]) = Return (Some 5)) as Hidx
    by (vm_compute; reflexivity).
  exact (proj2 (proj2 (set_get_transform decimal_literal self ∅
                         (PTuple [PInt 1; PInt 0; PInt 2])
                         {| shape := [2; 2; 2]; data := replicate 8 (Lit 1) |} (Some 5)))
           Hidx eq_refl).
Defined.

Lemma triple_bounds_validated_witness :
  ∃ self,
    __init__ {| omega := Lit 8 |} {| n1 := 2; n2 := 2; n3 := 2; grid_N := 8 |}
      {| n1 := 2; n2 := 2; n3 := 2; grid_N := 8 |} 2 1 (nbnd_int 3)
      (occ_1d [SInt 2; SInt 2; SInt 2]) true = Return self ∧
    __getitem__ decimal_literal (psi_g (elem := np_expr) self) (PTuple [PInt 3; PInt 0; PInt 0])
    = Raise (IndexOutOfRange 2 1 [[3]; [3]]) ∧
    __setitem__ decimal_literal (psi_g (elem := np_expr) self) (PTuple [PInt 3; PInt 0; PInt 0])
      {| shape := [2; 2; 2]; data := replicate 8 (Lit 1) |}
    = Raise (IndexOutOfRange 2 1 [[3]; [3]]).
Proof.
  eexists. split; [vm_compute; reflexivity|].
  match goal with |- context [psi_g (elem := np_expr) ?w] => set (self := w) end.
  destruct (proj1 (triple_bounds_validated decimal_literal (psi_g (elem := np_expr) self))
              (PInt 3) (PInt 0) (PInt 0) 3 0 0
              {| shape := [2; 2; 2]; data := replicate 8 (Lit 1) |}
              eq_refl eq_refl eq_refl) as (_ & Hget & Hset).
  - intros [[_ Hs] _]. vm_compute in Hs. congruence.
  - split; [exact Hget | exact Hset].
Defined.

Lemma nkpt_must_be_one_witness :
  __init__ {| omega := Lit 8 |} {| n1 := 2; n2 := 2; n3 := 2; grid_N := 8 |}
    {| n1 := 2; n2 := 2; n3 := 2; grid_N := 8 |} 2 2 (nbnd_int 3)
    (occ_1d [SInt 2; SInt 2; SInt 2]) true = Raise UnsupportedConfiguration ∧
  __init__ {| omega := Lit 8 |} {| n1 := 2; n2 := 2; n3 := 2; grid_N := 8 |}
      {| n1 := 2; n2 := 2; n3 := 2; grid_N := 8 |} 2 1 (nbnd_int 3)
      (occ_1d [SInt 2; SInt 2; SInt 2]) true ≠ Raise UnsupportedConfiguration.
Proof.
  split.
  - apply (proj1 (nkpt_must_be_one _ _ _ 2 2 _ _ _)). lia.
  - apply (proj2 (nkpt_must_be_one _ _ _ 2 1 _ _ _)). reflexivity.
Defined.

Lemma tuple_with_bad_literal_invalid_key_witness :
  ∃ self,
    __init__ {| omega := Lit 8 |} {| n1 := 2; n2 := 2; n3 := 2; grid_N := 8 |}
      {| n1 := 2; n2 := 2; n3 := 2; grid_N := 8 |} 2 1 (nbnd_int 3)
      (occ_1d [SInt 2; SInt 2; SInt 2]) true = Return self ∧
    __getitem__ decimal_literal (psi_g (elem := np_expr) self) (PTuple [PInt 0; PStr "abc"; PInt 0])
    = Raise InvalidKeyType ∧
    __setitem__ decimal_literal (psi_g (elem := np_expr) self) (PTuple [PInt 0; PStr "abc"; PInt 0])
      {| shape := [2; 2; 2]; data := replicate 8 (Lit 1) |}
    = Raise InvalidKeyType.
Proof.
  eexists. split; [vm_compute; reflexivity|].
  match goal with |- context [psi_g (elem := np_expr) ?w] => set (self := w) end.
  destruct (tuple_with_bad_literal_invalid_key decimal_literal (psi_g (elem := np_expr) self)
              [PInt 0; PStr "abc"; PInt 0] 1 (PStr "abc") Builtin
              {| shape := [2; 2; 2]; data := replicate 8 (Lit 1) |})
    as (_ & Hget & Hset & _).
  - lia.
  - reflexivity.
  - vm_compute. reflexivity.
  - intros [|j] u Hj Hu; [|lia]. simpl in Hu. injection Hu as <-. by exists 0.
  - split; [exact Hget | exact Hset].
Defined.

(** C6 as stated fails on a tuple of two integers: get and set fail with
    the index-out-of-range error, not with the invalid-key error. *)
Lemma two_tuple_key_out_of_range :
  ∃ self,
    __init__ {| omega := Lit 8 |} {| n1 := 2; n2 := 2; n3 := 2; grid_N := 8 |}
      {| n1 := 2; n2 := 2; n3 := 2; grid_N := 8 |} 2 1 (nbnd_int 3)
      (occ_1d [SInt 2; SInt 2; SInt 2]) true = Return self ∧
    __getitem__ decimal_literal (psi_g (elem := np_expr) self) (PTuple [PInt 0; PInt 0])
    = Raise (IndexOutOfRange 2 1 [[3]; [3]]) ∧
    __setitem__ decimal_literal (psi_g (elem := np_expr) self) (PTuple [PInt 0; PInt 0])
      {| shape := [2; 2; 2]; data := replicate 8 (Lit 1) |}
    = Raise (IndexOutOfRange 2 1 [[3]; [3]]) ∧
    __getitem__ decimal_literal (psi_g (elem := np_expr) self) (PTuple [PInt 0; PInt 0])
    ≠ Raise InvalidKeyType.
Proof.
  eexists. split; [vm_compute; reflexivity|].
  split; [vm_compute; reflexivity|]. split; [vm_compute; reflexivity|].
  vm_compute. discriminate.
Qed.

Lemma normalize_shape_assertion_witness :
  ∃ self,
    __init__ {| omega := Lit 8 |} {| n1 := 2; n2 := 2; n3 := 2; grid_N := 8 |}
      {| n1 := 2; n2 := 2; n3 := 2; grid_N := 8 |} 2 1 (nbnd_int 3)
      (occ_1d [SInt 2; SInt 2; SInt 2]) true = Return self ∧
    normalize self {| shape := [2; 2]; data := replicate 4 (Lit 1) |}
    = Raise (AssertionError NoMessage) ∧
    ∀ q key m,
      __setitem__ decimal_literal {| wfc := self; qty := q; transform := normalize self |}
        key {| shape := [2; 2; 2]; data := replicate 8 (Lit 1) |}
      ≠ Raise (AssertionError m).
Proof.
  eexists. split; [vm_compute; reflexivity|].
  match goal with |- context [normalize ?w] => set (self := w) end.
  split.
  - apply (proj1 (normalize_shape_assertion decimal_literal self
                    {| shape := [2; 2]; data := replicate 4 (Lit 1) |})).
    vm_compute. congruence.
  - apply (proj2 (normalize_shape_assertion decimal_literal self
                    {| shape := [2; 2; 2]; data := replicate 8 (Lit 1) |})).
    reflexivity.
Defined.

Lemma boundary_band_stored_under_None_witness :
  ∃ self,
    __init__ {| omega := Lit 8 |} {| n1 := 2; n2 := 2; n3 := 2; grid_N := 8 |}
      {| n1 := 2; n2 := 2; n3 := 2; grid_N := 8 |} 2 1 (nbnd_int 3)
      (occ_1d [SInt 2; SInt 2; SInt 2]) true = Return self ∧
    let value := {| shape := [2; 2; 2]; data := replicate 8 (Lit 1) |} in
    ∃ n, getitem2 (nbnd self) 1 0 = Return n ∧
      (0 ≤ n →
       let key := PTuple [PInt 1; PInt 0; PInt n] in
       inclusive_bounds (psi_g (elem := np_expr) self) 1 0 n ∧
       skb2idx self 1 0 n = None ∧
       _get_idx decimal_literal (psi_g (elem := np_expr) self) key = Return None ∧
       ∃ mgr', __setitem__ decimal_literal (psi_g (elem := np_expr) self) key value = Return mgr' ∧
               qty mgr' = <[None := value]> (qty (psi_g (elem := np_expr) self)) ∧
               __getitem__ decimal_literal mgr' key = Return value ∧
               (∀ i, __getitem__ decimal_literal mgr' (PInt i)
                     = __getitem__ decimal_literal (psi_g (elem := np_expr) self) (PInt i)) ∧
               (qty (psi_g (elem := np_expr) self) = ∅ →
                ∀ i, __getitem__ decimal_literal mgr' (PInt i) = Raise (KeyError (Some i))) ∧
               None ∈ indices mgr').
Proof.
  eexists. split; [vm_compute; reflexivity|].
  match goal with |- context [psi_g (elem := np_expr) ?w] => set (self := w) end.
  intros value.
  apply (boundary_band_stored_under_None decimal_literal
           {| omega := Lit 8 |} {| n1 := 2; n2 := 2; n3 := 2; grid_N := 8 |}
           {| n1 := 2; n2 := 2; n3 := 2; grid_N := 8 |} 2 1 (nbnd_int 3)
           (occ_1d [SInt 2; SInt 2; SInt 2]) true self (psi_g (elem := np_expr) self) 1 value value).
  - vm_compute. reflexivity.
  - reflexivity.
  - vm_compute. split; congruence.
  - reflexivity.
Defined.

Lemma occ_dtype_depends_on_form_witness :
  ∃ self1 self2,
    __init__ {| omega := Lit 8 |} {| n1 := 2; n2 := 2; n3 := 2; grid_N := 8 |}
      {| n1 := 2; n2 := 2; n3 := 2; grid_N := 8 |} 2 1 (nbnd_int 4)
      (occ_1d [SFloat 1; SFloat (1 # 2); SFloat (-3 # 2); SFloat (10 ^ 30 # 1)]) true
    = Return self1 ∧
    __init__ {| omega := Lit 8 |} {| n1 := 2; n2 := 2; n3 := 2; grid_N := 8 |}
      {| n1 := 2; n2 := 2; n3 := 2; grid_N := 8 |} 2 1 (nbnd_int 4)
      (occ_3d [[[SFloat 1; SFloat (1 # 2); SFloat (-3 # 2); SFloat (10 ^ 30 # 1)]];
               [[SFloat 1; SFloat (1 # 2); SFloat (-3 # 2); SFloat (10 ^ 30 # 1)]]]) true
    = Return self2 ∧
    occ self1 = [[[SFloat 1; SFloat (1 # 2); SFloat (-3 # 2); SFloat (10 ^ 30 # 1)]];
                 [[SFloat 1; SFloat (1 # 2); SFloat (-3 # 2); SFloat (10 ^ 30 # 1)]]] ∧
    occ self2 = [[[SInt 1; SInt 0; SInt (-1); SInt (-9223372036854775808)]];
                 [[SInt 1; SInt 0; SInt (-1); SInt (-9223372036854775808)]]] ∧
    occ self1 ≠ occ self2.
Proof.
  eexists. eexists. split; [vm_compute; reflexivity|]. split; [vm_compute; reflexivity|].
  split; [reflexivity|]. split; [reflexivity|].
  match goal with |- occ ?w1 ≠ occ ?w2 => set (self1 := w1); set (self2 := w2) end.
  apply (proj1 (proj2 (proj2 (proj2 (proj2 (occ_dtype_depends_on_form
           {| omega := Lit 8 |} {| n1 := 2; n2 := 2; n3 := 2; grid_N := 8 |}
           {| n1 := 2; n2 := 2; n3 := 2; grid_N := 8 |} 2 1 (nbnd_int 4) true)))))
         [SFloat 1; SFloat (1 # 2); SFloat (-3 # 2); SFloat (10 ^ 30 # 1)]
         [[[SFloat 1; SFloat (1 # 2); SFloat (-3 # 2); SFloat (10 ^ 30 # 1)]];
          [[SFloat 1; SFloat (1 # 2); SFloat (-3 # 2); SFloat (10 ^ 30 # 1)]]] self1 self2 (1 # 2)).
  - vm_compute. reflexivity.
  - vm_compute. reflexivity.
  - apply list_elem_of_In. simpl. tauto.
Defined.

(** C7 at a fractional occupation given per channel: one spin, one band,
    occupation 1/2.  The stored [occ[0, 0, 0:1]] is the integer 0, not the
    supplied value. *)
Lemma explicit_fractional_occ_truncated :
  ∃ self,
    __init__ {| omega := Lit 8 |} {| n1 := 2; n2 := 2; n3 := 2; grid_N := 8 |}
      {| n1 := 2; n2 := 2; n3 := 2; grid_N := 8 |} 1 1 (nbnd_int 1)
      (occ_3d [[[SFloat (1 # 2)]]]) true = Return self ∧
    getitem2 (nbnd self) 0 0 = Return 1 ∧
    ∃ row, getitem2 (occ self) 0 0 = Return row ∧
           take 1 row = [SInt 0] ∧
           take 1 row ≠ take 1 [SFloat (1 # 2)].
Proof.
  eexists. split; [vm_compute; reflexivity|].
  split; [reflexivity|]. exists [SInt 0]. split; [reflexivity|].
  split; [reflexivity|]. discriminate.
Qed.

(** ** The further properties at concrete inputs *)

Ltac name_wfc :=
  match goal with
  | |- context [@Build_Wavefunction ?r ?a ?b ?c ?d ?e ?f ?g ?h ?i ?j ?k] =>
      set (self := @Build_Wavefunction r a b c d e f g h i j k)
  end.

Ltac valid_at n :=
  repeat split; try (vm_compute; congruence); exists n; split; [reflexivity | simpl; lia].

Lemma coerced_keys_alias_witness :
  ∃ self,
    __init__ {| omega := Lit 8 |} {| n1 := 2; n2 := 2; n3 := 2; grid_N := 8 |}
      {| n1 := 2; n2 := 2; n3 := 2; grid_N := 8 |} 2 1 (nbnd_int 3)
      (occ_1d [SInt 2; SInt 2; SInt 2]) true = Return self ∧
    (_get_idx decimal_literal (psi_g (elem := np_expr) self) (PFloat (-15 # 2)) = Return (Some (-7)) ∧
     ∃ self', __setitem__ decimal_literal (psi_g (elem := np_expr) self) (PFloat (-15 # 2)) {| shape := [2; 2; 2]; data := replicate 8 (Lit 1) |}
              = Return self' ∧
              __getitem__ decimal_literal self' (PStr "-7") = Return {| shape := [2; 2; 2]; data := replicate 8 (Lit 1) |} ∧
              Some (-7) ∈ indices self' ∧
              indices self' = {[Some (-7)]} ∪ indices (psi_g (elem := np_expr) self)).
Proof.
  eexists. split; [vm_compute; reflexivity|]. name_wfc.
  assert (__init__ {| omega := Lit 8 |} {| n1 := 2; n2 := 2; n3 := 2; grid_N := 8 |}
      {| n1 := 2; n2 := 2; n3 := 2; grid_N := 8 |} 2 1 (nbnd_int 3)
      (occ_1d [SInt 2; SInt 2; SInt 2]) true = Return self) as Hself by (vm_compute; reflexivity).
  exact (coerced_keys_alias decimal_literal (psi_g (elem := np_expr) self) (PFloat (-15 # 2)) (PStr "-7") (-7)
           {| shape := [2; 2; 2]; data := replicate 8 (Lit 1) |} {| shape := [2; 2; 2]; data := replicate 8 (Lit 1) |} eq_refl eq_refl eq_refl).
Defined.

Lemma get_unpopulated_triple_witness :
  ∃ self,
    __init__ {| omega := Lit 8 |} {| n1 := 2; n2 := 2; n3 := 2; grid_N := 8 |}
      {| n1 := 2; n2 := 2; n3 := 2; grid_N := 8 |} 2 1 (nbnd_int 3)
      (occ_1d [SInt 2; SInt 2; SInt 2]) true = Return self ∧
    ∃ i, 0 ≤ i < norb self ∧ skb2idx self 1 0 2 = Some i ∧
         (∀ mgr : @WfcManager np_expr np_expr, wfc mgr = self → qty mgr !! Some i = None →
            __getitem__ decimal_literal mgr (PTuple [PInt 1; PInt 0; PInt 2])
            = Raise (KeyError (Some i))) ∧
         __getitem__ decimal_literal (psi_g (elem := np_expr) self) (PTuple [PInt 1; PInt 0; PInt 2])
         = Raise (KeyError (Some i)) ∧
         __getitem__ decimal_literal (psi_r self) (PTuple [PInt 1; PInt 0; PInt 2])
         = Raise (KeyError (Some i)).
Proof.
  eexists. split; [vm_compute; reflexivity|]. name_wfc.
  assert (__init__ {| omega := Lit 8 |} {| n1 := 2; n2 := 2; n3 := 2; grid_N := 8 |}
      {| n1 := 2; n2 := 2; n3 := 2; grid_N := 8 |} 2 1 (nbnd_int 3)
      (occ_1d [SInt 2; SInt 2; SInt 2]) true = Return self) as Hself by (vm_compute; reflexivity).
  assert (valid_triple self (1, 0, 2)) as Hv by valid_at 3.
  exact (get_unpopulated_triple decimal_literal _ _ _ _ _ _ _ _ self 1 0 2 Hself Hv).
Defined.

Lemma clear_forgets_entries_witness :
  ∃ self,
    __init__ {| omega := Lit 8 |} {| n1 := 2; n2 := 2; n3 := 2; grid_N := 8 |}
      {| n1 := 2; n2 := 2; n3 := 2; grid_N := 8 |} 2 1 (nbnd_int 3)
      (occ_1d [SInt 2; SInt 2; SInt 2]) true = Return self ∧
    ∃ mgr',
      __setitem__ decimal_literal (psi_g (elem := np_expr) self) (PInt 4) {| shape := [2; 2; 2]; data := replicate 8 (Lit 1) |} = Return mgr' ∧
      indices (clear mgr') = ∅ ∧
      __getitem__ decimal_literal (clear mgr') (PInt 4) = Raise (KeyError (Some 4)) ∧
      clear (clear mgr') = clear mgr' ∧
      clear mgr' = WfcManager_init (wfc (psi_g (elem := np_expr) self)) (transform (psi_g (elem := np_expr) self)) ∧
      ∀ key2 value2,
        __setitem__ decimal_literal (clear mgr') key2 value2
        = __setitem__ decimal_literal
            (WfcManager_init (wfc (psi_g (elem := np_expr) self)) (transform (psi_g (elem := np_expr) self))) key2 value2.
Proof.
  eexists. split; [vm_compute; reflexivity|]. name_wfc.
  assert (__init__ {| omega := Lit 8 |} {| n1 := 2; n2 := 2; n3 := 2; grid_N := 8 |}
      {| n1 := 2; n2 := 2; n3 := 2; grid_N := 8 |} 2 1 (nbnd_int 3)
      (occ_1d [SInt 2; SInt 2; SInt 2]) true = Return self) as Hself by (vm_compute; reflexivity).
  eexists. split; [reflexivity|].
  exact (clear_forgets_entries decimal_literal (psi_g (elem := np_expr) self) (PInt 4) {| shape := [2; 2; 2]; data := replicate 8 (Lit 1) |} _ (Some 4)
           eq_refl eq_refl).
Defined.

Lemma overwrite_keeps_latest_witness :
  ∃ self,
    __init__ {| omega := Lit 8 |} {| n1 := 2; n2 := 2; n3 := 2; grid_N := 8 |}
      {| n1 := 2; n2 := 2; n3 := 2; grid_N := 8 |} 2 1 (nbnd_int 3)
      (occ_1d [SInt 2; SInt 2; SInt 2]) true = Return self ∧
    ∃ self1 self2,
      __setitem__ decimal_literal (psi_g (elem := np_expr) self) (PInt 0) {| shape := [2; 2; 2]; data := replicate 8 (Lit 1) |} = Return self1 ∧
      __setitem__ decimal_literal self1 (PInt 0) {| shape := [2; 2; 2]; data := replicate 8 (Lit 2) |} = Return self2 ∧
      ∃ w2 self2',
        transform (psi_g (elem := np_expr) self) {| shape := [2; 2; 2]; data := replicate 8 (Lit 2) |} = Return w2 ∧
        __getitem__ decimal_literal self2 (PInt 0) = Return w2 ∧
        indices self2 = indices self1 ∧
        __setitem__ decimal_literal (psi_g (elem := np_expr) self) (PInt 0) {| shape := [2; 2; 2]; data := replicate 8 (Lit 2) |} = Return self2' ∧
        qty self2 = qty self2'.
Proof.
  eexists. split; [vm_compute; reflexivity|]. name_wfc.
  assert (__init__ {| omega := Lit 8 |} {| n1 := 2; n2 := 2; n3 := 2; grid_N := 8 |}
      {| n1 := 2; n2 := 2; n3 := 2; grid_N := 8 |} 2 1 (nbnd_int 3)
      (occ_1d [SInt 2; SInt 2; SInt 2]) true = Return self) as Hself by (vm_compute; reflexivity).
  do 2 eexists. split; [reflexivity|]. split; [reflexivity|].
  exact (overwrite_keeps_latest decimal_literal (psi_g (elem := np_expr) self) _ _ (PInt 0) {| shape := [2; 2; 2]; data := replicate 8 (Lit 1) |} {| shape := [2; 2; 2]; data := replicate 8 (Lit 2) |}
           eq_refl eq_refl).
Defined.

Lemma triple_and_index_same_entry_witness :
  ∃ self,
    __init__ {| omega := Lit 8 |} {| n1 := 2; n2 := 2; n3 := 2; grid_N := 8 |}
      {| n1 := 2; n2 := 2; n3 := 2; grid_N := 8 |} 2 1 (nbnd_int 3)
      (occ_1d [SInt 2; SInt 2; SInt 2]) true = Return self ∧
    ∃ i, 0 ≤ i < norb self ∧ idx2skb self i = Return (1, 0, 2) ∧
      (∃ mgr', __setitem__ decimal_literal (psi_g (elem := np_expr) self) (PTuple [PInt 1; PInt 0; PInt 2])
                 {| shape := [2; 2; 2]; data := replicate 8 (Lit 1) |} = Return mgr' ∧
               __getitem__ decimal_literal mgr' (PInt i) = Return {| shape := [2; 2; 2]; data := replicate 8 (Lit 1) |}) ∧
      (∃ mgr', __setitem__ decimal_literal (psi_g (elem := np_expr) self) (PInt i) {| shape := [2; 2; 2]; data := replicate 8 (Lit 1) |} = Return mgr' ∧
               __getitem__ decimal_literal mgr' (PTuple [PInt 1; PInt 0; PInt 2])
               = Return {| shape := [2; 2; 2]; data := replicate 8 (Lit 1) |}).
Proof.
  eexists. split; [vm_compute; reflexivity|]. name_wfc.
  assert (__init__ {| omega := Lit 8 |} {| n1 := 2; n2 := 2; n3 := 2; grid_N := 8 |}
      {| n1 := 2; n2 := 2; n3 := 2; grid_N := 8 |} 2 1 (nbnd_int 3)
      (occ_1d [SInt 2; SInt 2; SInt 2]) true = Return self) as Hself by (vm_compute; reflexivity).
  assert (valid_triple self (1, 0, 2)) as Hv by valid_at 3.
  exact (triple_and_index_same_entry decimal_literal _ _ _ _ _ _ _ _ self (psi_g (elem := np_expr) self) 1 0 2
           {| shape := [2; 2; 2]; data := replicate 8 (Lit 1) |} {| shape := [2; 2; 2]; data := replicate 8 (Lit 1) |} Hself eq_refl Hv eq_refl).
Defined.

Lemma write_leaves_other_triples_witness :
  ∃ self,
    __init__ {| omega := Lit 8 |} {| n1 := 2; n2 := 2; n3 := 2; grid_N := 8 |}
      {| n1 := 2; n2 := 2; n3 := 2; grid_N := 8 |} 2 1 (nbnd_int 3)
      (occ_1d [SInt 2; SInt 2; SInt 2]) true = Return self ∧
    ∃ mgr',
      __setitem__ decimal_literal (psi_g (elem := np_expr) self) (PTuple [PInt 0; PInt 0; PInt 1]) {| shape := [2; 2; 2]; data := replicate 8 (Lit 1) |}
      = Return mgr' ∧
      __getitem__ decimal_literal mgr' (PTuple [PInt 1; PInt 0; PInt 2])
      = __getitem__ decimal_literal (psi_g (elem := np_expr) self) (PTuple [PInt 1; PInt 0; PInt 2]).
Proof.
  eexists. split; [vm_compute; reflexivity|]. name_wfc.
  assert (__init__ {| omega := Lit 8 |} {| n1 := 2; n2 := 2; n3 := 2; grid_N := 8 |}
      {| n1 := 2; n2 := 2; n3 := 2; grid_N := 8 |} 2 1 (nbnd_int 3)
      (occ_1d [SInt 2; SInt 2; SInt 2]) true = Return self) as Hself by (vm_compute; reflexivity).
  assert (valid_triple self (0, 0, 1)) as Hv1 by valid_at 3.
  assert (valid_triple self (1, 0, 2)) as Hv2 by valid_at 3.
  eexists. split; [reflexivity|].
  exact (write_leaves_other_triples decimal_literal _ _ _ _ _ _ _ _ self (psi_g (elem := np_expr) self) _
           (0, 0, 1) (1, 0, 2) {| shape := [2; 2; 2]; data := replicate 8 (Lit 1) |} Hself eq_refl Hv1 Hv2 ltac:(discriminate) eq_refl).
Defined.

Lemma skb2idx_None_iff_invalid_witness :
  ∃ self,
    __init__ {| omega := Lit 8 |} {| n1 := 2; n2 := 2; n3 := 2; grid_N := 8 |}
      {| n1 := 2; n2 := 2; n3 := 2; grid_N := 8 |} 2 1 (nbnd_int 3)
      (occ_1d [SInt 2; SInt 2; SInt 2]) true = Return self ∧
    ∀ s k b,
      (skb2idx self s k b = None ↔ ¬ valid_triple self (s, k, b)) ∧
      (∀ i, skb2idx self s k b = Some i → 0 ≤ i < norb self ∧ valid_triple self (s, k, b)).
Proof.
  eexists. split; [vm_compute; reflexivity|]. name_wfc.
  assert (__init__ {| omega := Lit 8 |} {| n1 := 2; n2 := 2; n3 := 2; grid_N := 8 |}
      {| n1 := 2; n2 := 2; n3 := 2; grid_N := 8 |} 2 1 (nbnd_int 3)
      (occ_1d [SInt 2; SInt 2; SInt 2]) true = Return self) as Hself by (vm_compute; reflexivity).
  exact (skb2idx_None_iff_invalid _ _ _ _ _ _ _ _ self Hself).
Defined.

Lemma idx2skb_KeyError_iff_out_of_range_witness :
  ∃ self,
    __init__ {| omega := Lit 8 |} {| n1 := 2; n2 := 2; n3 := 2; grid_N := 8 |}
      {| n1 := 2; n2 := 2; n3 := 2; grid_N := 8 |} 2 1 (nbnd_int 3)
      (occ_1d [SInt 2; SInt 2; SInt 2]) true = Return self ∧
    ∀ i,
      (idx2skb self i = Raise (KeyError (Some i)) ↔ ¬ (0 ≤ i < norb self)) ∧
      (∀ e, idx2skb self i = Raise e → e = KeyError (Some i)) ∧
      (i < 0 → idx2skb self i = Raise (KeyError (Some i))).
Proof.
  eexists. split; [vm_compute; reflexivity|]. name_wfc.
  assert (__init__ {| omega := Lit 8 |} {| n1 := 2; n2 := 2; n3 := 2; grid_N := 8 |}
      {| n1 := 2; n2 := 2; n3 := 2; grid_N := 8 |} 2 1 (nbnd_int 3)
      (occ_1d [SInt 2; SInt 2; SInt 2]) true = Return self) as Hself by (vm_compute; reflexivity).
  exact (idx2skb_KeyError_iff_out_of_range _ _ _ _ _ _ _ _ self Hself).
Defined.

Lemma index_maps_converse_witness :
  ∃ self,
    __init__ {| omega := Lit 8 |} {| n1 := 2; n2 := 2; n3 := 2; grid_N := 8 |}
      {| n1 := 2; n2 := 2; n3 := 2; grid_N := 8 |} 2 1 (nbnd_int 3)
      (occ_1d [SInt 2; SInt 2; SInt 2]) true = Return self ∧
    ∀ t i, skb_idx_map self !! t = Some i ↔ idx_skb_map self !! i = Some t.
Proof.
  eexists. split; [vm_compute; reflexivity|]. name_wfc.
  assert (__init__ {| omega := Lit 8 |} {| n1 := 2; n2 := 2; n3 := 2; grid_N := 8 |}
      {| n1 := 2; n2 := 2; n3 := 2; grid_N := 8 |} 2 1 (nbnd_int 3)
      (occ_1d [SInt 2; SInt 2; SInt 2]) true = Return self) as Hself by (vm_compute; reflexivity).
  exact (index_maps_converse _ _ _ _ _ _ _ _ self Hself).
Defined.

Lemma index_order_is_lexicographic_witness :
  ∃ self,
    __init__ {| omega := Lit 8 |} {| n1 := 2; n2 := 2; n3 := 2; grid_N := 8 |}
      {| n1 := 2; n2 := 2; n3 := 2; grid_N := 8 |} 2 1 (nbnd_int 3)
      (occ_1d [SInt 2; SInt 2; SInt 2]) true = Return self ∧
    skb2idx self 0 0 2 = Some 2 ∧ skb2idx self 1 0 0 = Some 3 ∧
    (lex_lt (0, 0, 2) (1, 0, 0) ↔ 2 < 3) ∧ ((0, 0, 2) = (1, 0, 0) ↔ 2 = 3).
Proof.
  eexists. split; [vm_compute; reflexivity|]. name_wfc.
  assert (__init__ {| omega := Lit 8 |} {| n1 := 2; n2 := 2; n3 := 2; grid_N := 8 |}
      {| n1 := 2; n2 := 2; n3 := 2; grid_N := 8 |} 2 1 (nbnd_int 3)
      (occ_1d [SInt 2; SInt 2; SInt 2]) true = Return self) as Hself by (vm_compute; reflexivity).
  split; [reflexivity|]. split; [reflexivity|].
  exact (index_order_is_lexicographic _ _ _ _ _ _ _ _ self (0, 0, 2) (1, 0, 0) 2 3
           Hself eq_refl eq_refl).
Defined.

Lemma uniform_bands_closed_form_witness :
  ∃ self,
    __init__ {| omega := Lit 8 |} {| n1 := 2; n2 := 2; n3 := 2; grid_N := 8 |}
      {| n1 := 2; n2 := 2; n3 := 2; grid_N := 8 |} 2 1 (nbnd_int 3)
      (occ_1d [SInt 2; SInt 2; SInt 2]) true = Return self ∧
    norb self = 2 * 3 ∧
    (∀ s b, 0 ≤ s < 2 → 0 ≤ b < 3 → skb2idx self s 0 b = Some (s * 3 + b)) ∧
    (∀ i, 0 ≤ i < 2 * 3 → idx2skb self i = Return (i / 3, 0, i mod 3)).
Proof.
  eexists. split; [vm_compute; reflexivity|]. name_wfc.
  assert (__init__ {| omega := Lit 8 |} {| n1 := 2; n2 := 2; n3 := 2; grid_N := 8 |}
      {| n1 := 2; n2 := 2; n3 := 2; grid_N := 8 |} 2 1 (nbnd_int 3)
      (occ_1d [SInt 2; SInt 2; SInt 2]) true = Return self) as Hself by (vm_compute; reflexivity).
  exact (uniform_bands_closed_form _ _ _ 2 1 3 _ _ self Hself ltac:(lia)).
Defined.

Lemma triple_key_accepted_iff_witness :
  ∃ self,
    __init__ {| omega := Lit 8 |} {| n1 := 2; n2 := 2; n3 := 2; grid_N := 8 |}
      {| n1 := 2; n2 := 2; n3 := 2; grid_N := 8 |} 2 1 (nbnd_int 3)
      (occ_1d [SInt 2; SInt 2; SInt 2]) true = Return self ∧
    let key := PTuple [PInt 2; PInt 0; PInt 0] in
    let accepted := 0 ≤ 2 < nspin self ∧ 0 ≤ 0 < nkpt self ∧
                    ∃ n, getitem2 (nbnd self) 2 0 = Return n ∧ 0 ≤ 0 ≤ n in
    (accepted → _get_idx decimal_literal (psi_g (elem := np_expr) self) key = Return (skb2idx self 2 0 0)) ∧
    (¬ accepted →
       _get_idx decimal_literal (psi_g (elem := np_expr) self) key
       = Raise (IndexOutOfRange (nspin self) (nkpt self) (nbnd self))) ∧
    (2 = nspin self ∨ 0 = nkpt self → ¬ accepted).
Proof.
  eexists. split; [vm_compute; reflexivity|]. name_wfc.
  assert (__init__ {| omega := Lit 8 |} {| n1 := 2; n2 := 2; n3 := 2; grid_N := 8 |}
      {| n1 := 2; n2 := 2; n3 := 2; grid_N := 8 |} 2 1 (nbnd_int 3)
      (occ_1d [SInt 2; SInt 2; SInt 2]) true = Return self) as Hself by (vm_compute; reflexivity).
  exact (triple_key_accepted_iff decimal_literal _ _ _ _ _ _ _ _ self (psi_g (elem := np_expr) self) 2 0 0
           Hself eq_refl).
Defined.

Lemma valid_writes_keep_indices_in_range_witness :
  ∃ self,
    __init__ {| omega := Lit 8 |} {| n1 := 2; n2 := 2; n3 := 2; grid_N := 8 |}
      {| n1 := 2; n2 := 2; n3 := 2; grid_N := 8 |} 2 1 (nbnd_int 3)
      (occ_1d [SInt 2; SInt 2; SInt 2]) true = Return self ∧
    ∃ mgr',
      __setitem__ decimal_literal (psi_g (elem := np_expr) self) (PTuple [PInt 1; PInt 0; PInt 2]) {| shape := [2; 2; 2]; data := replicate 8 (Lit 1) |}
      = Return mgr' ∧
      ∀ idx, idx ∈ indices mgr' → ∃ i, idx = Some i ∧ 0 ≤ i < norb self.
Proof.
  eexists. split; [vm_compute; reflexivity|]. name_wfc.
  assert (__init__ {| omega := Lit 8 |} {| n1 := 2; n2 := 2; n3 := 2; grid_N := 8 |}
      {| n1 := 2; n2 := 2; n3 := 2; grid_N := 8 |} 2 1 (nbnd_int 3)
      (occ_1d [SInt 2; SInt 2; SInt 2]) true = Return self) as Hself by (vm_compute; reflexivity).
  assert (valid_triple self (1, 0, 2)) as Hv by valid_at 3.
  eexists. split; [reflexivity|].
  refine (valid_writes_keep_indices_in_range decimal_literal _ _ _ _ _ _ _ _ self (psi_g (elem := np_expr) self) _
            (PTuple [PInt 1; PInt 0; PInt 2]) {| shape := [2; 2; 2]; data := replicate 8 (Lit 1) |} Hself eq_refl _ _ eq_refl).
  - intros idx Hin. unfold indices in Hin. simpl in Hin.
    rewrite dom_empty_L in Hin. by apply elem_of_empty in Hin.
  - left. exists 1, 0, 2. split; [reflexivity | exact Hv].
Defined.

Lemma occ_rows_zero_padded_witness :
  ∃ self,
    __init__ {| omega := Lit 8 |} {| n1 := 2; n2 := 2; n3 := 2; grid_N := 8 |}
      {| n1 := 2; n2 := 2; n3 := 2; grid_N := 8 |} 2 1 (nbnd_list [[3]; [1]])
      (occ_3d [[[SInt 2; SInt 2; SInt 2]]; [[SInt 1; SInt 1; SInt 1]]]) true = Return self ∧
    ∃ mx, np_max (nbnd self) = Return mx ∧
      ∀ s k, 0 ≤ s < 2 → 0 ≤ k < 1 →
        ∃ nb row,
          getitem2 (nbnd self) s k = Return nb ∧ getitem2 (occ self) s k = Return row ∧
          Z.of_nat (length row) = mx ∧
          (0 ≤ nb → ∀ b, nb ≤ b < mx → row !! Z.to_nat b = Some (SInt 0)).
Proof.
  eexists. split; [vm_compute; reflexivity|]. name_wfc.
  assert (__init__ {| omega := Lit 8 |} {| n1 := 2; n2 := 2; n3 := 2; grid_N := 8 |}
      {| n1 := 2; n2 := 2; n3 := 2; grid_N := 8 |} 2 1 (nbnd_list [[3]; [1]])
      (occ_3d [[[SInt 2; SInt 2; SInt 2]]; [[SInt 1; SInt 1; SInt 1]]]) true = Return self) as Hself by (vm_compute; reflexivity).
  exact (occ_rows_zero_padded _ _ _ 2 1 _ _ _ self Hself).
Defined.

Lemma occ_rows_long_enough_or_broadcast_witness :
  ∃ self,
    __init__ {| omega := Lit 8 |} {| n1 := 2; n2 := 2; n3 := 2; grid_N := 8 |}
      {| n1 := 2; n2 := 2; n3 := 2; grid_N := 8 |} 2 1 (nbnd_int 3)
      (occ_3d [[[SFloat (3 # 2)]]; [[SFloat (10 ^ 30 # 1)]]]) true = Return self ∧
    occ self = [[[SInt 1; SInt 1; SInt 1]];
                [[SInt (-9223372036854775808); SInt (-9223372036854775808);
                  SInt (-9223372036854775808)]]] ∧
    ∀ s k, 0 ≤ s < 2 → 0 ≤ k < 1 →
      ∃ nb src row,
        getitem2 (nbnd self) s k = Return nb ∧
        getitem2 [[[SFloat (3 # 2)]]; [[SFloat (10 ^ 30 # 1)]]] s k = Return src ∧
        getitem2 (occ self) s k = Return row ∧
        (0 ≤ nb → nb ≤ Z.of_nat (length src) ∨ length src = 1%nat) ∧
        (∀ x, src = [x] → int64_elem x →
           ∀ b, 0 ≤ b < nb → row !! Z.to_nat b = Some (astype_int x)) ∧
        (∀ q, src = [SFloat q] →
           ∀ b, 0 ≤ b < nb →
             row !! Z.to_nat b
             = Some (SInt (if bool_decide (int64_min ≤ trunc q ≤ int64_max)
                           then trunc q else - 2 ^ 63))).
Proof.
  eexists. split; [vm_compute; reflexivity|]. name_wfc.
  assert (__init__ {| omega := Lit 8 |} {| n1 := 2; n2 := 2; n3 := 2; grid_N := 8 |}
      {| n1 := 2; n2 := 2; n3 := 2; grid_N := 8 |} 2 1 (nbnd_int 3)
      (occ_3d [[[SFloat (3 # 2)]]; [[SFloat (10 ^ 30 # 1)]]]) true = Return self) as Hself by (vm_compute; reflexivity).
  split; [reflexivity|].
  exact (occ_rows_long_enough_or_broadcast _ _ _ 2 1 _ _ _ self Hself).
Defined.

Lemma boundary_keys_collide_witness :
  ∃ self,
    __init__ {| omega := Lit 8 |} {| n1 := 2; n2 := 2; n3 := 2; grid_N := 8 |}
      {| n1 := 2; n2 := 2; n3 := 2; grid_N := 8 |} 2 1 (nbnd_int 3)
      (occ_1d [SInt 2; SInt 2; SInt 2]) true = Return self ∧
    ∃ mgr1 mgr2,
      __setitem__ decimal_literal (psi_g (elem := np_expr) self) (PTuple [PInt 0; PInt 0; PInt 3]) {| shape := [2; 2; 2]; data := replicate 8 (Lit 1) |}
      = Return mgr1 ∧
      __setitem__ decimal_literal mgr1 (PTuple [PInt 1; PInt 0; PInt 3]) {| shape := [2; 2; 2]; data := replicate 8 (Lit 2) |}
      = Return mgr2 ∧
      ∃ w2, transform (psi_g (elem := np_expr) self) {| shape := [2; 2; 2]; data := replicate 8 (Lit 2) |} = Return w2 ∧
            __getitem__ decimal_literal mgr2 (PTuple [PInt 0; PInt 0; PInt 3]) = Return w2 ∧
            indices mgr2 = {[None]} ∪ indices (psi_g (elem := np_expr) self).
Proof.
  eexists. split; [vm_compute; reflexivity|]. name_wfc.
  assert (__init__ {| omega := Lit 8 |} {| n1 := 2; n2 := 2; n3 := 2; grid_N := 8 |}
      {| n1 := 2; n2 := 2; n3 := 2; grid_N := 8 |} 2 1 (nbnd_int 3)
      (occ_1d [SInt 2; SInt 2; SInt 2]) true = Return self) as Hself by (vm_compute; reflexivity).
  do 2 eexists. split; [reflexivity|]. split; [reflexivity|].
  refine (boundary_keys_collide decimal_literal _ _ _ _ _ _ _ _ self (psi_g (elem := np_expr) self) _ _ 0 1 3 3
            {| shape := [2; 2; 2]; data := replicate 8 (Lit 1) |} {| shape := [2; 2; 2]; data := replicate 8 (Lit 2) |} Hself eq_refl _ eq_refl _ _ eq_refl _ eq_refl eq_refl);
    vm_compute; try split; congruence.
Defined.
